(** * Shipment lifecycle engine of af-server: a shallow embedding

    This development embeds the parts of the af-server shipment lifecycle
    engine that decide its status transitions, its incoterm task rules, its
    task mutations, its tab counters, its company fuzzy matching and its
    legacy read adapters:
    - [core/constants.py]: status codes, status paths, [get_status_path];
    - [logic/incoterm_tasks.py]: the incoterm task matrix, due dates,
      [generate_tasks], [recalculate_due_dates], [migrate_task_on_read];
    - [core/db_queries.py]: the SQL tab aggregation;
    - [routers/shipments.py]: [update_shipment_status],
      [update_shipment_task], [update_from_bl], [_match_company], the
      Datastore tab matchers, [_resolve_so_status_to_v2],
      [get_shipment_stats], [_lazy_init_tasks] with [get_shipment_tasks],
      [update_parties], [_maybe_unblock_export_clearance],
      [_assign_sequences], [save_route_nodes] and
      [update_route_node_timing].

    Python strings are modelled as Rocq strings of ASCII characters; the
    Unicode case mappings of [str.upper]/[str.lower] are modelled on ASCII
    letters.  Python dicts read from JSON are modelled as association lists
    in insertion order ([dict] below), with [get] reading the first binding
    and [set] overwriting it in place or appending a new one, as Python's
    [d[k] = v] does.  A Python exception is [None] of the [exc] monad. *)

From Stdlib Require Import String Ascii ZArith List Bool Lia QArith Qround.
Import ListNotations.
Set Warnings "-register-all".
Open Scope string_scope.
Open Scope Z_scope.

(* ------------------------------------------------------------------ *)
(** ** Python runtime support *)

(** A computation that may raise a Python exception. *)
Definition exc (A : Type) : Type := option A.
Definition ret {A} (a : A) : exc A := Some a.
Definition raise {A} : exc A := None.
Definition bind {A B} (m : exc A) (k : A -> exc B) : exc B :=
  match m with Some a => k a | None => None end.
Notation "x <- m ;; k" := (bind m (fun x => k))
  (at level 61, m at next level, right associativity).

Module Py.

(** [str.isspace] on ASCII characters. *)
Definition is_space (c : ascii) : bool :=
  let n := nat_of_ascii c in
  (Nat.eqb n 32 || ((9 <=? n)%nat && (n <=? 13)%nat)
   || ((28 <=? n)%nat && (n <=? 31)%nat))%bool.

Definition upper_char (c : ascii) : ascii :=
  let n := nat_of_ascii c in
  if ((97 <=? n)%nat && (n <=? 122)%nat)%bool then ascii_of_nat (n - 32) else c.

Definition lower_char (c : ascii) : ascii :=
  let n := nat_of_ascii c in
  if ((65 <=? n)%nat && (n <=? 90)%nat)%bool then ascii_of_nat (n + 32) else c.

Fixpoint map_chars (f : ascii -> ascii) (s : string) : string :=
  match s with
  | EmptyString => EmptyString
  | String c r => String (f c) (map_chars f r)
  end.

Definition upper (s : string) : string := map_chars upper_char s.
Definition lower (s : string) : string := map_chars lower_char s.

Fixpoint lstrip (s : string) : string :=
  match s with
  | EmptyString => EmptyString
  | String c r => if is_space c then lstrip r else s
  end.

Definition rev_string (s : string) : string :=
  string_of_list_ascii (rev (list_ascii_of_string s)).

(** [str.strip()] with no argument. *)
Definition strip (s : string) : string := rev_string (lstrip (rev_string (lstrip s))).

(** Truthiness of a string. *)
Definition str_truthy (s : string) : bool := negb (String.eqb s "").

(** [a in b] for strings: substring test. *)
Fixpoint contains (needle hay : string) : bool :=
  if String.prefix needle hay then true
  else match hay with
       | EmptyString => false
       | String _ r => contains needle r
       end.

(** [str(n)] for an integer. *)
Fixpoint digits (fuel : nat) (n : N) (acc : string) : string :=
  match fuel with
  | O => acc
  | S f =>
      let acc' := String (ascii_of_N (48 + N.modulo n 10)) acc in
      if N.ltb n 10 then acc' else digits f (N.div n 10) acc'
  end.

Definition N_to_string (n : N) : string := digits (S (N.size_nat n)) n "".

Definition Z_to_string (z : Z) : string :=
  if z <? 0 then "-" ++ N_to_string (Z.to_N (- z)) else N_to_string (Z.to_N z).

End Py.

(* ------------------------------------------------------------------ *)
(** ** JSON values and dicts *)

(** A value stored in a Datastore JSON property. *)
Inductive jval : Type :=
| JNull
| JBool (b : bool)
| JNum (z : Z)
| JStr (s : string)
| JList (l : list jval)
| JObj (fields : list (string * jval)).

Definition dict : Type := list (string * jval).

Module Dict.

(** [d.get(k)]: [None] when the key is absent. *)
Fixpoint get (d : dict) (k : string) : option jval :=
  match d with
  | [] => None
  | (k', v) :: r => if String.eqb k' k then Some v else get r k
  end.

(** [d.get(k, default)]. *)
Definition get_or (d : dict) (k : string) (dflt : jval) : jval :=
  match get d k with Some v => v | None => dflt end.

(** [k in d]. *)
Definition mem (d : dict) (k : string) : bool :=
  match get d k with Some _ => true | None => false end.

(** [d[k] = v]: an existing key keeps its position. *)
Fixpoint set (d : dict) (k : string) (v : jval) : dict :=
  match d with
  | [] => [(k, v)]
  | (k', v') :: r => if String.eqb k' k then (k', v) :: r else (k', v') :: set r k v
  end.

(** [d.setdefault(k, v)]. *)
Definition setdefault (d : dict) (k : string) (v : jval) : dict :=
  if mem d k then d else set d k v.

End Dict.

(** Python truthiness of a JSON value. *)
Definition truthy (v : jval) : bool :=
  match v with
  | JNull => false
  | JBool b => b
  | JNum z => negb (Z.eqb z 0)
  | JStr s => Py.str_truthy s
  | JList l => match l with [] => false | _ => true end
  | JObj f => match f with [] => false | _ => true end
  end.

(** [v == "s"] for a JSON value and a string literal. *)
Definition is_str (v : jval) (s : string) : bool :=
  match v with JStr s' => String.eqb s' s | _ => false end.

(** Lists and dicts are unhashable: using them as a dict key raises [TypeError]. *)
Definition hashable (v : jval) : bool :=
  match v with JList _ | JObj _ => false | _ => true end.

(** [isinstance(v, dict)] and [v or {}] as the handlers use them. *)
Definition as_dict (v : jval) : option dict :=
  match v with JObj f => Some f | _ => None end.

(** [x = d.get(k) or {}; if not isinstance(x, dict): x = {}] *)
Definition get_subdict (d : dict) (k : string) : dict :=
  let v := Dict.get_or d k JNull in
  if truthy v then match as_dict v with Some f => f | None => [] end else [].

(* ------------------------------------------------------------------ *)
(** ** Status codes and status paths ([core/constants.py]) *)

Definition STATUS_DRAFT := 1001.
Definition STATUS_DRAFT_REVIEW := 1002.
Definition STATUS_CONFIRMED := 2001.
Definition STATUS_BOOKING_PENDING := 3001.
Definition STATUS_BOOKING_CONFIRMED := 3002.
Definition STATUS_DEPARTED := 4001.
Definition STATUS_ARRIVED := 4002.
Definition STATUS_COMPLETED := 5001.
Definition STATUS_CANCELLED := -1.

Definition V2_ACTIVE_STATUSES : list Z :=
  [STATUS_CONFIRMED; STATUS_BOOKING_PENDING; STATUS_BOOKING_CONFIRMED;
   STATUS_DEPARTED; STATUS_ARRIVED].

Definition STATUS_LABELS : list (Z * string) :=
  [(STATUS_DRAFT, "Draft"); (STATUS_DRAFT_REVIEW, "Pending Review");
   (STATUS_CONFIRMED, "Confirmed"); (STATUS_BOOKING_PENDING, "Booking Pending");
   (STATUS_BOOKING_CONFIRMED, "Booking Confirmed"); (STATUS_DEPARTED, "Departed");
   (STATUS_ARRIVED, "Arrived"); (STATUS_COMPLETED, "Completed");
   (STATUS_CANCELLED, "Cancelled")].

Fixpoint zlookup {A} (m : list (Z * A)) (k : Z) : option A :=
  match m with
  | [] => None
  | (k', v) :: r => if Z.eqb k' k then Some v else zlookup r k
  end.

Definition zmem (k : Z) (l : list Z) : bool := existsb (Z.eqb k) l.

(** [STATUS_LABELS.get(s, str(s))] *)
Definition status_label (s : Z) : string :=
  match zlookup STATUS_LABELS s with Some l => l | None => Py.Z_to_string s end.

Definition STATUS_PATH_A : list Z := [1001; 1002; 2001; 3001; 3002; 4001; 4002; 5001].
Definition STATUS_PATH_B : list Z := [1001; 1002; 2001; 4001; 4002; 5001].

Definition PATH_A_COMBOS : list (string * string) :=
  [("EXW", "IMPORT");
   ("FCA", "EXPORT"); ("FCA", "IMPORT");
   ("FOB", "EXPORT"); ("FOB", "IMPORT");
   ("CFR", "EXPORT"); ("CIF", "EXPORT"); ("CNF", "EXPORT");
   ("CPT", "EXPORT"); ("CIP", "EXPORT");
   ("DAP", "EXPORT"); ("DPU", "EXPORT"); ("DDP", "EXPORT")].

Inductive status_path : Type := PathA | PathB.

(** [s.upper().strip()] *)
Definition norm (s : string) : string := Py.strip (Py.upper s).

Definition pair_eqb (p q : string * string) : bool :=
  String.eqb (fst p) (fst q) && String.eqb (snd p) (snd q).

Definition get_status_path (incoterm transaction_type : string) : status_path :=
  let key := (norm incoterm, norm transaction_type) in
  if existsb (pair_eqb key) PATH_A_COMBOS then PathA else PathB.

Definition get_status_path_list (incoterm transaction_type : string) : list Z :=
  match get_status_path incoterm transaction_type with
  | PathA => STATUS_PATH_A
  | PathB => STATUS_PATH_B
  end.

(* ------------------------------------------------------------------ *)
(** ** Dates ([datetime.date]) *)

(** A [datetime.date] is its proleptic Gregorian ordinal ([date.toordinal()]),
    valid from 1 (0001-01-01) to [MAX_ORDINAL] (9999-12-31). *)
Definition MAX_ORDINAL : Z := 3652059.

(** [d + timedelta(days=k)]: raises [OverflowError] out of range. *)
Definition date_add (d k : Z) : exc Z :=
  if (1 <=? d + k) && (d + k <=? MAX_ORDINAL) then ret (d + k) else raise.

(** Year, month and day of an ordinal. *)
Definition civil_of_ordinal (o : Z) : Z * Z * Z :=
  let z := o + 305 in
  let era := z / 146097 in
  let doe := z - era * 146097 in
  let yoe := (doe - doe / 1460 + doe / 36524 - doe / 146096) / 365 in
  let doy := doe - (365 * yoe + yoe / 4 - yoe / 100) in
  let mp := (5 * doy + 2) / 153 in
  let d := doy - (153 * mp + 2) / 5 + 1 in
  let m := if mp <? 10 then mp + 3 else mp - 9 in
  let y := yoe + era * 400 + (if m <=? 2 then 1 else 0) in
  (y, m, d).

(** [f"{z:0{w}d}"] for a non-negative [z]. *)
Definition pad (w : nat) (z : Z) : string :=
  let s := Py.Z_to_string z in
  let fix zeros (n : nat) : string := match n with O => "" | S k => "0" ++ zeros k end in
  zeros (w - String.length s)%nat ++ s.

(** [d.isoformat()] *)
Definition isoformat (o : Z) : string :=
  let '(y, m, d) := civil_of_ordinal o in
  pad 4 y ++ "-" ++ pad 2 m ++ "-" ++ pad 2 d.

(* ------------------------------------------------------------------ *)
(** ** Incoterm rules engine ([logic/incoterm_tasks.py]) *)

Module Tasks.

Definition ORIGIN_HAULAGE := "ORIGIN_HAULAGE".
Definition FREIGHT_BOOKING := "FREIGHT_BOOKING".
Definition EXPORT_CLEARANCE := "EXPORT_CLEARANCE".
Definition POL := "POL".
Definition POD := "POD".
Definition IMPORT_CLEARANCE := "IMPORT_CLEARANCE".
Definition DESTINATION_HAULAGE := "DESTINATION_HAULAGE".

Definition PENDING := "PENDING".
Definition IN_PROGRESS := "IN_PROGRESS".
Definition COMPLETED := "COMPLETED".
Definition BLOCKED := "BLOCKED".

Definition ASSIGNED := "ASSIGNED".
Definition TRACKED := "TRACKED".
Definition IGNORED := "IGNORED".

Definition AF := "AF".

Definition TASK_LEG_LEVEL : list (string * Z) :=
  [(ORIGIN_HAULAGE, 1); (FREIGHT_BOOKING, 2); (EXPORT_CLEARANCE, 3); (POL, 4);
   (POD, 5); (IMPORT_CLEARANCE, 6); (DESTINATION_HAULAGE, 7)].

Definition TASK_DISPLAY_NAMES : list (string * string) :=
  [(ORIGIN_HAULAGE, "Origin Haulage / Pickup"); (FREIGHT_BOOKING, "Freight Booking");
   (EXPORT_CLEARANCE, "Export Customs Clearance"); (POL, "Port of Loading");
   (POD, "Port of Discharge"); (IMPORT_CLEARANCE, "Import Customs Clearance");
   (DESTINATION_HAULAGE, "Destination Haulage / Delivery")].

Definition DEFAULT_MODE : list (string * string) := [(POL, TRACKED); (POD, TRACKED)].

Fixpoint slookup {A} (m : list (string * A)) (k : string) : option A :=
  match m with
  | [] => None
  | (k', v) :: r => if String.eqb k' k then Some v else slookup r k
  end.

Definition INCOTERM_RULES : list (string * list (string * list string)) :=
  let full := [ORIGIN_HAULAGE; FREIGHT_BOOKING; EXPORT_CLEARANCE; POL; POD;
               IMPORT_CLEARANCE; DESTINATION_HAULAGE] in
  let domestic := [ORIGIN_HAULAGE; FREIGHT_BOOKING; POL; POD; DESTINATION_HAULAGE] in
  let exp5 := [ORIGIN_HAULAGE; FREIGHT_BOOKING; EXPORT_CLEARANCE; POL; POD] in
  let imp4 := [POL; POD; IMPORT_CLEARANCE; DESTINATION_HAULAGE] in
  [("EXW", [("EXPORT", []); ("IMPORT", full); ("DOMESTIC", domestic)]);
   ("FCA", [("EXPORT", [FREIGHT_BOOKING; EXPORT_CLEARANCE; POL; POD]);
            ("IMPORT", full);
            ("DOMESTIC", [FREIGHT_BOOKING; POL; POD; DESTINATION_HAULAGE])]);
   ("FOB", [("EXPORT", exp5);
            ("IMPORT", [FREIGHT_BOOKING; POL; POD; IMPORT_CLEARANCE; DESTINATION_HAULAGE]);
            ("DOMESTIC", domestic)]);
   ("CFR", [("EXPORT", exp5); ("IMPORT", imp4); ("DOMESTIC", domestic)]);
   ("CIF", [("EXPORT", exp5); ("IMPORT", imp4); ("DOMESTIC", domestic)]);
   ("CNF", [("EXPORT", exp5); ("IMPORT", imp4); ("DOMESTIC", domestic)]);
   ("CPT", [("EXPORT", exp5); ("IMPORT", imp4); ("DOMESTIC", domestic)]);
   ("CIP", [("EXPORT", exp5); ("IMPORT", imp4); ("DOMESTIC", domestic)]);
   ("DAP", [("EXPORT", full); ("IMPORT", imp4); ("DOMESTIC", domestic)]);
   ("DPU", [("EXPORT", full); ("IMPORT", imp4); ("DOMESTIC", domestic)]);
   ("DDP", [("EXPORT", full); ("IMPORT", imp4); ("DOMESTIC", domestic)])].

(** [d + timedelta(days=k)] guarded by [if d:]. *)
Definition shift (d : option Z) (k : Z) : exc (option Z) :=
  match d with Some x => r <- date_add x k ;; ret (Some r) | None => ret None end.

(** [_calculate_due_date]: the inner option is Python's [None]. *)
Definition calculate_due_date (task_type : string) (etd eta cargo_ready_date : option Z)
  : exc (option Z) :=
  if String.eqb task_type ORIGIN_HAULAGE then
    match cargo_ready_date with
    | Some c => ret (Some c)
    | None => shift etd (-3)
    end
  else if String.eqb task_type FREIGHT_BOOKING then shift etd (-7)
  else if String.eqb task_type EXPORT_CLEARANCE then shift etd (-2)
  else if String.eqb task_type POL then shift etd 0
  else if String.eqb task_type POD then shift eta 0
  else if String.eqb task_type IMPORT_CLEARANCE then shift eta 1
  else if String.eqb task_type DESTINATION_HAULAGE then shift eta 3
  else ret None.

(** [result.isoformat() if result else None] *)
Definition due_to_json (d : option Z) : jval :=
  match d with Some x => JStr (isoformat x) | None => JNull end.

Definition leg_key (t : dict) : Z :=
  match Dict.get t "leg_level" with Some (JNum z) => z | _ => 0 end.

(** [list.sort(key=...)]: stable, so equal keys keep their order. *)
Fixpoint insert_by (key : dict -> Z) (x : dict) (l : list dict) : list dict :=
  match l with
  | [] => [x]
  | y :: r => if key x <? key y then x :: y :: r else y :: insert_by key x r
  end.

Definition sort_by (key : dict -> Z) (l : list dict) : list dict :=
  fold_left (fun acc x => insert_by key x acc) l [].

(** The task dict built for one task type; [uuid] is the [uuid.uuid4()] value. *)
Definition make_task (task_type : string) (has_freight_booking : bool)
    (etd eta cargo_ready_date : option Z) (uuid updated_by now : string) : exc dict :=
  let initial_status :=
    if String.eqb task_type EXPORT_CLEARANCE && has_freight_booking then BLOCKED
    else PENDING in
  due <- calculate_due_date task_type etd eta cargo_ready_date ;;
  let mode := match slookup DEFAULT_MODE task_type with Some m => m | None => ASSIGNED end in
  let display := match slookup TASK_DISPLAY_NAMES task_type with
                 | Some n => n | None => task_type end in
  leg <- slookup TASK_LEG_LEVEL task_type ;;
  ret [("task_id", JStr uuid); ("task_type", JStr task_type);
       ("display_name", JStr display); ("leg_level", JNum leg);
       ("mode", JStr mode); ("status", JStr initial_status);
       ("assigned_to", JStr AF); ("third_party_name", JNull);
       ("visibility", JStr "VISIBLE"); ("scheduled_start", JNull);
       ("scheduled_end", due_to_json due); ("actual_start", JNull);
       ("actual_end", JNull); ("due_date", due_to_json due);
       ("due_date_override", JBool false); ("notes", JNull);
       ("completed_at", JNull); ("updated_by", JStr updated_by);
       ("updated_at", JStr now)].

Fixpoint make_tasks (task_types : list string) (i : nat) (has_fb : bool)
    (etd eta crd : option Z) (uuid : nat -> string) (updated_by now : string)
  : exc (list dict) :=
  match task_types with
  | [] => ret []
  | ty :: rest =>
      t <- make_task ty has_fb etd eta crd (uuid i) updated_by now ;;
      ts <- make_tasks rest (S i) has_fb etd eta crd uuid updated_by now ;;
      ret (t :: ts)
  end.

(** The task-type list [generate_tasks] uses for a pair, [[]] when unknown. *)
Definition rule_task_types (incoterm transaction_type : string) : list string :=
  match slookup INCOTERM_RULES (norm incoterm) with
  | None => []
  | Some rules => match slookup rules (norm transaction_type) with
                  | Some l => l | None => [] end
  end.

(** [generate_tasks]: [uuid i] is the i-th [uuid.uuid4()], [now] the
    [datetime.now(timezone.utc).isoformat()] of the call. *)
Definition generate_tasks (incoterm transaction_type : string)
    (etd eta cargo_ready_date : option Z) (updated_by : string)
    (uuid : nat -> string) (now : string) : exc (list dict) :=
  let task_types := rule_task_types incoterm transaction_type in
  match task_types with
  | [] => ret []
  | _ =>
      let has_fb := existsb (String.eqb FREIGHT_BOOKING) task_types in
      tasks <- make_tasks task_types 0 has_fb etd eta cargo_ready_date uuid updated_by now ;;
      ret (sort_by leg_key tasks)
  end.

(* ---------------------------------------------------------------- *)
(** *** [migrate_task_on_read] *)

(** [TASK_DISPLAY_NAMES.get(task_type, task_type)] *)
Definition display_name_get (task_type : jval) : exc jval :=
  if hashable task_type then
    match task_type with
    | JStr s => match slookup TASK_DISPLAY_NAMES s with
                | Some n => ret (JStr n) | None => ret task_type end
    | _ => ret task_type
    end
  else raise.

(** [TASK_LEG_LEVEL[task_type] if task_type in TASK_LEG_LEVEL] *)
Definition leg_level_get (task_type : jval) : exc (option Z) :=
  if hashable task_type then
    match task_type with
    | JStr s => ret (slookup TASK_LEG_LEVEL s)
    | _ => ret None
    end
  else raise.

(** [_DEFAULT_MODE.get(task_type, ASSIGNED)] *)
Definition default_mode_get (task_type : jval) : exc string :=
  if hashable task_type then
    match task_type with
    | JStr s => match slookup DEFAULT_MODE s with Some m => ret m | None => ret ASSIGNED end
    | _ => ret ASSIGNED
    end
  else raise.

(** Legacy type name migration. *)
Definition migrate_legacy_type (task : dict) : dict :=
  let tt := Dict.get_or task "task_type" (JStr "") in
  if is_str tt "VESSEL_DEPARTURE" then Dict.set task "task_type" (JStr POL)
  else if is_str tt "VESSEL_ARRIVAL" then Dict.set task "task_type" (JStr POD)
  else if is_str tt "IN_TRANSIT" then
    (* Mark as ignored -- this task type no longer exists *)
    let task := Dict.set task "task_type" (JStr "IN_TRANSIT_LEGACY") in
    let task := Dict.setdefault task "mode" (JStr IGNORED) in
    Dict.setdefault task "visibility" (JStr "HIDDEN")
  else task.

Definition backfill_display_name (task : dict) (task_type : jval) : exc dict :=
  if truthy (Dict.get_or task "display_name" JNull) then ret task
  else n <- display_name_get task_type ;; ret (Dict.set task "display_name" n).

(** leg_level -- update to new levels if still using old ones *)
Definition backfill_leg_level (task : dict) (task_type : jval) : exc dict :=
  lvl <- leg_level_get task_type ;;
  match lvl with
  | Some l => ret (Dict.set task "leg_level" (JNum l))
  | None => ret task
  end.

Definition backfill_mode (task : dict) (task_type : jval) : exc dict :=
  if truthy (Dict.get_or task "mode" JNull) then ret task
  else m <- default_mode_get task_type ;; ret (Dict.set task "mode" (JStr m)).

Definition backfill_timing (task : dict) : dict :=
  let task := if Dict.mem task "scheduled_start" then task
              else Dict.set task "scheduled_start" JNull in
  let task := if Dict.mem task "scheduled_end" then task
              else Dict.set task "scheduled_end" (Dict.get_or task "due_date" JNull) in
  let task := if Dict.mem task "actual_start" then task
              else Dict.set task "actual_start" JNull in
  if Dict.mem task "actual_end" then task
  else Dict.set task "actual_end" (Dict.get_or task "completed_at" JNull).

Definition migrate_task_on_read (task : dict) : exc dict :=
  let task := migrate_legacy_type task in
  let task_type := Dict.get_or task "task_type" (JStr "") in
  task <- backfill_display_name task task_type ;;
  task <- backfill_leg_level task task_type ;;
  task <- backfill_mode task task_type ;;
  ret (backfill_timing task).

End Tasks.

(** The due-date formulas as the spec states them, on date ordinals. *)
Definition spec_due_date (task_type : string) (etd eta cargo_ready_date : option Z)
  : option Z :=
  if String.eqb task_type Tasks.ORIGIN_HAULAGE then
    match cargo_ready_date with
    | Some c => Some c
    | None => option_map (fun e => e - 3) etd
    end
  else if String.eqb task_type Tasks.FREIGHT_BOOKING then option_map (fun e => e - 7) etd
  else if String.eqb task_type Tasks.EXPORT_CLEARANCE then option_map (fun e => e - 2) etd
  else if String.eqb task_type Tasks.POL then etd
  else if String.eqb task_type Tasks.POD then eta
  else if String.eqb task_type Tasks.IMPORT_CLEARANCE then option_map (fun a => a + 1) eta
  else if String.eqb task_type Tasks.DESTINATION_HAULAGE then option_map (fun a => a + 3) eta
  else None.

(* ------------------------------------------------------------------ *)
(** ** Status update ([update_shipment_status], routers/shipments.py) *)

Module Status.

(** An entry of [Quotation.status_history]; [reverted] and [reverted_from]
    are [None] when the key is absent. *)
Record q_hist := {
  qh_status : Z; qh_label : string; qh_timestamp : string; qh_changed_by : string;
  qh_note : option string; qh_reverted : option bool; qh_reverted_from : option Z }.

(** An entry of [ShipmentWorkFlow.status_history]. *)
Record wf_hist := {
  wh_status : Z; wh_status_label : string; wh_timestamp : string; wh_changed_by : string;
  wh_reverted : option bool; wh_reverted_from : option Z }.

(** The Quotation entity; [q_status] is [get("status", 0)] and
    [q_data_version] is [get("data_version")] with 0 for absent. *)
Record quotation := {
  q_status : Z; q_data_version : Z;
  q_incoterm_code : option string; q_incoterm : option string;
  q_transaction_type : option string;
  q_status_history : list q_hist;
  q_last_status_updated : option string; q_updated : option string }.

(** The V1 ShipmentOrder entity. *)
Record shipment_order := {
  so_status : Z; so_data_version : option Z;
  so_last_status_updated : option string; so_updated : option string }.

Record workflow := {
  wf_status_history : list wf_hist; wf_completed : option bool; wf_updated : option string }.

(** The entities of one shipment id in the Datastore. *)
Record store := {
  st_q : option quotation; st_so : option shipment_order; st_wf : option workflow }.

Record request := { rq_status : Z; rq_allow_jump : bool; rq_reverted : bool }.

Inductive outcome :=
| NotFound (msg : string)
| Error (msg : string)
| Ok (new_status : Z) (path : status_path).

Definition V1_TO_V2 : list (Z * Z) := [(100, 2001); (110, 3002); (4110, 4001); (10000, 5001)].
Definition V2_TO_V1 : list (Z * Z) := [(2001, 100); (3002, 110); (4001, 4110); (5001, 10000); (-1, -1)].
Definition V1_REVERT_MIN_STATUS := 2001.
Definition PREFIX_V1_SHIPMENT := "AFCQ-".
Definition ALL_CODES : list Z := [1001; 1002; 2001; 3001; 3002; 4001; 4002; 5001].

(** [l.index(x)] for an [x] known to be in [l]. *)
Fixpoint index_of (x : Z) (l : list Z) : nat :=
  match l with
  | [] => O
  | y :: r => if Z.eqb y x then O else S (index_of x r)
  end.

Definition str_or (a : option string) (b : string) : string :=
  match a with Some s => if Py.str_truthy s then s else b | None => b end.

(** [q.get("incoterm_code") or q.get("incoterm") or ""] *)
Definition incoterm_of (q : quotation) : string :=
  str_or (q_incoterm_code q) (str_or (q_incoterm q) "").

Definition txn_type_of (q : quotation) : string := str_or (q_transaction_type q) "".

(** [path] and [path_list] of step c2: Path A without incoterm context. *)
Definition path_of (q : quotation) : status_path :=
  if Py.str_truthy (incoterm_of q) && Py.str_truthy (txn_type_of q)
  then get_status_path (incoterm_of q) (txn_type_of q) else PathA.

Definition path_list_of (q : quotation) : option (list Z) :=
  if Py.str_truthy (incoterm_of q) && Py.str_truthy (txn_type_of q)
  then Some (get_status_path_list (incoterm_of q) (txn_type_of q)) else None.

Definition is_v1_record (shipment_id : string) (q : quotation) : bool :=
  let data_version := if Z.eqb (q_data_version q) 0 then 1 else q_data_version q in
  String.prefix PREFIX_V1_SHIPMENT shipment_id || (data_version <? 2).

Definition resolve_v1_status (v1_status : Z) : Z :=
  if Z.eqb v1_status (-1) then -1
  else match zlookup V1_TO_V2 v1_status with
       | Some v => v
       | None => if existsb (fun p => Z.eqb (fst p) v1_status) V2_TO_V1 then v1_status
                 else STATUS_CONFIRMED
       end.

(** Steps b and c: V1 or V2, and the resolved current status; [None] is the
    [NotFoundError] of a V1 record without its ShipmentOrder. *)
Definition resolve_current (shipment_id : string) (st : store) (q : quotation)
  : option (bool * Z) :=
  if is_v1_record shipment_id q then
    match st_so st with
    | Some so => Some (true, resolve_v1_status (so_status so))
    | None => None
    end
  else Some (false, q_status q).

(** Steps d to e: the validation; [Some msg] is a rejection. *)
Definition check_transition (q : quotation) (is_v1 : bool) (current : Z) (body : request)
  : option string :=
  let new_status := rq_status body in
  let path := path_of q in
  if negb (rq_reverted body) && (Z.eqb current STATUS_COMPLETED || Z.eqb current STATUS_CANCELLED)
  then Some "Cannot change status of a completed or cancelled shipment"
  else if rq_reverted body && is_v1 && (new_status <? V1_REVERT_MIN_STATUS)
  then Some "Cannot revert V1 record to pre-booking status"
  else if (match path with PathB => true | PathA => false end)
          && (Z.eqb new_status STATUS_BOOKING_PENDING || Z.eqb new_status STATUS_BOOKING_CONFIRMED)
  then Some ("Booking statuses not applicable for " ++ incoterm_of q ++ " "
             ++ txn_type_of q ++ " (Path B)")
  else if negb (rq_allow_jump body) && negb (rq_reverted body) then
    match path_list_of q with
    | Some pl =>
        if zmem current pl && negb (Z.eqb new_status STATUS_CANCELLED) then
          let current_idx := index_of current pl in
          match nth_error pl (S current_idx) with
          | Some expected_next =>
              if negb (Z.eqb new_status expected_next)
              then Some ("Invalid transition: next step is " ++ status_label expected_next
                         ++ " (" ++ Py.Z_to_string expected_next ++ "), not "
                         ++ Py.Z_to_string new_status)
              else None
          | None => Some "Already at final status on this path"
          end
        else None
    | None =>
        if Z.eqb new_status STATUS_CANCELLED then None
        else if zmem current ALL_CODES && zmem new_status ALL_CODES
                && (index_of new_status ALL_CODES <=? index_of current ALL_CODES)%nat
        then Some "Cannot go backwards without revert flag"
        else None
    end
  else None.

(** Steps f to i: the writes. *)
Definition write_status (q : quotation) (is_v1 : bool) (current : Z) (body : request)
    (email uid now : string) (st : store) : store :=
  let new_status := rq_status body in
  let rv := if rq_reverted body then Some true else None in
  let rf := if rq_reverted body then Some current else None in
  let q_entry := {| qh_status := new_status; qh_label := status_label new_status;
                    qh_timestamp := now; qh_changed_by := email; qh_note := None;
                    qh_reverted := rv; qh_reverted_from := rf |} in
  let q' := {| q_status := new_status; q_data_version := q_data_version q;
               q_incoterm_code := q_incoterm_code q; q_incoterm := q_incoterm q;
               q_transaction_type := q_transaction_type q;
               q_status_history := q_status_history q ++ [q_entry];
               q_last_status_updated := Some now; q_updated := Some now |} in
  let so' :=
    match st_so st with
    | Some so =>
        if is_v1 then
          Some {| so_status := match zlookup V2_TO_V1 new_status with
                               | Some v => v | None => new_status end;
                  so_data_version := match so_data_version so with
                                     | Some 2 => None | dv => dv end;
                  so_last_status_updated := Some now; so_updated := Some now |}
        else Some so
    | None => None
    end in
  let wf' :=
    match st_wf st with
    | Some wf =>
        let entry := {| wh_status := new_status; wh_status_label := status_label new_status;
                        wh_timestamp := now; wh_changed_by := uid;
                        wh_reverted := rv; wh_reverted_from := rf |} in
        Some {| wf_status_history := wf_status_history wf ++ [entry];
                wf_completed := if Z.eqb new_status STATUS_COMPLETED then Some true
                                else if Z.eqb new_status STATUS_CANCELLED then Some false
                                else wf_completed wf;
                wf_updated := Some now |}
    | None => None
    end in
  {| st_q := Some q'; st_so := so'; st_wf := wf' |}.

Definition update_shipment_status (shipment_id : string) (body : request)
    (email uid now : string) (st : store) : outcome * store :=
  match st_q st with
  | None => (NotFound ("Shipment " ++ shipment_id ++ " not found"), st)
  | Some q =>
      match resolve_current shipment_id st q with
      | None => (NotFound ("V1 ShipmentOrder record " ++ shipment_id ++ " not found"), st)
      | Some (is_v1, current) =>
          match check_transition q is_v1 current body with
          | Some msg => (Error msg, st)
          | None => (Ok (rq_status body) (path_of q),
                     write_status q is_v1 current body email uid now st)
          end
      end
  end.

Definition accepted (o : outcome) : bool :=
  match o with Ok _ _ => true | _ => false end.

(** "Strictly later than [current] in the union order", as the spec words it. *)
Definition union_later (target current : Z) : bool :=
  zmem target ALL_CODES && zmem current ALL_CODES
  && (index_of current ALL_CODES <? index_of target ALL_CODES)%nat.

End Status.

(** A Path B shipment (CNF IMPORT) whose stored status 3002 is off its path,
    as a record migrated from the legacy data may have. *)
Definition cnf_import_q (status : Z) : Status.quotation :=
  {| Status.q_status := status; Status.q_data_version := 2;
     Status.q_incoterm_code := Some "CNF"; Status.q_incoterm := None;
     Status.q_transaction_type := Some "IMPORT"; Status.q_status_history := [];
     Status.q_last_status_updated := None; Status.q_updated := None |}.

Definition cnf_import_store (status : Z) : Status.store :=
  {| Status.st_q := Some (cnf_import_q status); Status.st_so := None; Status.st_wf := None |}.

Definition plain_request (new_status : Z) : Status.request :=
  {| Status.rq_status := new_status; Status.rq_allow_jump := false; Status.rq_reverted := false |}.

(** A V1 record (AFCQ- id) whose ShipmentOrder holds the V1 completed code. *)
Definition v1_completed_q : Status.quotation :=
  {| Status.q_status := 5001; Status.q_data_version := 0;
     Status.q_incoterm_code := Some "FOB"; Status.q_incoterm := None;
     Status.q_transaction_type := Some "EXPORT"; Status.q_status_history := [];
     Status.q_last_status_updated := None; Status.q_updated := None |}.

Definition v1_completed_store : Status.store :=
  {| Status.st_q := Some v1_completed_q;
     Status.st_so := Some {| Status.so_status := 10000; Status.so_data_version := None;
        Status.so_last_status_updated := None; Status.so_updated := None |};
     Status.st_wf := None |}.

Definition revert_request (new_status : Z) (allow_jump reverted : bool) : Status.request :=
  {| Status.rq_status := new_status; Status.rq_allow_jump := allow_jump;
     Status.rq_reverted := reverted |}.

(** The last entry of a history list carries the revert marks. *)
Definition last_q_entry_reverted (h : list Status.q_hist) (from : Z) : Prop :=
  exists pre e, h = (pre ++ [e])%list /\ Status.qh_reverted e = Some true /\
                Status.qh_reverted_from e = Some from.

Definition last_wf_entry_reverted (h : list Status.wf_hist) (from : Z) : Prop :=
  exists pre e, h = (pre ++ [e])%list /\ Status.wh_reverted e = Some true /\
                Status.wh_reverted_from e = Some from.

(** A V2 FOB EXPORT shipment with a workflow record. *)
Definition fob_export_q (status : Z) : Status.quotation :=
  {| Status.q_status := status; Status.q_data_version := 2;
     Status.q_incoterm_code := Some "FOB"; Status.q_incoterm := None;
     Status.q_transaction_type := Some "EXPORT"; Status.q_status_history := [];
     Status.q_last_status_updated := None; Status.q_updated := None |}.

Definition fob_export_store (status : Z) : Status.store :=
  {| Status.st_q := Some (fob_export_q status); Status.st_so := None;
     Status.st_wf := Some {| Status.wf_status_history := []; Status.wf_completed := Some true;
                             Status.wf_updated := None |} |}.

(** ** Tab aggregation (routers/shipments.py and core/db_queries.py) *)
Module Tabs.

(** [entity.get("status", 0)] *)
Definition ent_status (e : dict) : jval := Dict.get_or e "status" (JNum 0).

(** [v in [z1; ...]] for an integer list; a non-integer value is never a member. *)
Definition jin (v : jval) (l : list Z) : bool :=
  match v with JNum z => zmem z l | _ => false end.

Definition DRAFT_STATUSES : list Z := [STATUS_DRAFT; STATUS_DRAFT_REVIEW].

Definition v2_tab_match (tab : string) (e : dict) : bool :=
  let s := ent_status e in
  if String.eqb tab "all" then true
  else if String.eqb tab "active" then jin s V2_ACTIVE_STATUSES
  else if String.eqb tab "completed" then jin s [STATUS_COMPLETED]
  else if String.eqb tab "to_invoice" then
    jin s [STATUS_COMPLETED] && negb (truthy (Dict.get_or e "issued_invoice" (JBool false)))
  else if String.eqb tab "draft" then jin s DRAFT_STATUSES
  else if String.eqb tab "cancelled" then jin s [STATUS_CANCELLED]
  else true.

Definition migrated_tab_match (tab : string) (e : dict) : bool :=
  let s := ent_status e in
  if String.eqb tab "all" then true
  else if String.eqb tab "active" then jin s V2_ACTIVE_STATUSES
  else if String.eqb tab "completed" then jin s [STATUS_COMPLETED]
  else if String.eqb tab "to_invoice" then
    jin s [STATUS_COMPLETED] && negb (truthy (Dict.get_or e "issued_invoice" JNull))
  else if String.eqb tab "draft" then jin s DRAFT_STATUSES
  else if String.eqb tab "cancelled" then jin s [STATUS_CANCELLED]
  else true.

(** The counter a record increments in [get_shipment_stats]; the V2
    Quotation loop and the migrated ShipmentOrder loop test in the same order. *)
Inductive bucket := BActive | BCompleted | BCancelled | BDraft | BNone.

Definition stats_bucket (e : dict) : bucket :=
  let s := ent_status e in
  if jin s V2_ACTIVE_STATUSES then BActive
  else if jin s [STATUS_COMPLETED] then BCompleted
  else if jin s [STATUS_CANCELLED] then BCancelled
  else if jin s DRAFT_STATUSES then BDraft
  else BNone.

(** The SQL filters of [core/db_queries.py] ([get_shipment_stats], [_tab_where])
    on a row with status [s], [migrated_from_v1 = m], [issued_invoice = i]. *)
Definition sql_tab_where (tab : string) (s : Z) (m i : bool) : bool :=
  if String.eqb tab "active" then zmem s [3001; 3002; 4001; 4002] || (Z.eqb s 2001 && negb m)
  else if String.eqb tab "completed" then Z.eqb s 5001 || (Z.eqb s 2001 && m)
  else if String.eqb tab "to_invoice" then Z.eqb s 5001 && negb i
  else if String.eqb tab "draft" then zmem s [1001; 1002]
  else if String.eqb tab "cancelled" then Z.eqb s (-1)
  else true.

(** The formulas of the spec. *)
Definition spec_active (s : Z) (migrated : bool) : bool :=
  zmem s [3001; 3002; 4001; 4002] || (Z.eqb s 2001 && negb migrated).

Definition spec_completed (s : Z) (migrated : bool) : bool :=
  Z.eqb s 5001 || (Z.eqb s 2001 && migrated).

End Tabs.

(** ** Task update ([update_shipment_task] in routers/shipments.py) *)
Module TaskUpdate.

Import Tasks.

(** The handler's outcomes besides a value: an [HTTPException], a
    [NotFoundError], or an uncaught Python error. *)
Inductive terr := EHttp (code : Z) (detail : string) | ENotFound (msg : string) | ECrash.

Definition tres (A : Type) : Type := sum terr A.
Definition tret {A} (a : A) : tres A := inr a.
Definition tfail {A} (e : terr) : tres A := inl e.
Definition tbind {A B} (m : tres A) (k : A -> tres B) : tres B :=
  match m with inl e => inl e | inr a => k a end.
Notation "x <-- m ;;; k" := (tbind m (fun x => k))
  (at level 61, m at next level, right associativity).
Definition lift {A} (m : exc A) : tres A :=
  match m with Some a => inr a | None => inl ECrash end.

Record claims := { cl_is_afc : bool; cl_role : string; cl_uid : string }.

(** [UpdateTaskRequest] *)
Record update_body := {
  b_status : option string; b_mode : option string; b_assigned_to : option string;
  b_third_party_name : option string; b_due_date : option string;
  b_due_date_override : option bool; b_notes : option string;
  b_visibility : option string; b_scheduled_start : option string;
  b_scheduled_end : option string; b_actual_start : option string;
  b_actual_end : option string }.

Definition opt_is (o : option string) (s : string) : bool :=
  match o with Some x => String.eqb x s | None => false end.

Definition is_none {A} (o : option A) : bool := match o with None => true | _ => false end.

(** [x is not None and x not in allowed]: the offending value. *)
Definition bad_value (o : option string) (allowed : list string) : option string :=
  match o with
  | Some x => if existsb (String.eqb x) allowed then None else Some x
  | None => None
  end.

(** Permission check and enum validation. *)
Definition check_request (cl : claims) (body : update_body) : option (Z * string) :=
  if cl_is_afc cl && negb (existsb (String.eqb (cl_role cl)) ["AFC-ADMIN"; "AFC-M"])
  then Some (403, "Read-only access — cannot update tasks")
  else if cl_is_afc cl && negb (is_none (b_visibility body))
  then Some (403, "Only AF staff can change task visibility")
  else match bad_value (b_status body) [PENDING; IN_PROGRESS; COMPLETED; BLOCKED] with
  | Some x => Some (400, "Invalid status: " ++ x)
  | None =>
  match bad_value (b_mode body) [ASSIGNED; TRACKED; IGNORED] with
  | Some x => Some (400, "Invalid mode: " ++ x)
  | None =>
  match bad_value (b_assigned_to body) ["AF"; "CUSTOMER"; "THIRD_PARTY"] with
  | Some x => Some (400, "Invalid assigned_to: " ++ x)
  | None =>
  match bad_value (b_visibility body) ["VISIBLE"; "HIDDEN"] with
  | Some x => Some (400, "Invalid visibility: " ++ x)
  | None => None
  end end end end.

(** [wf_entity.get("workflow_tasks") or []], iterated with [enumerate]. *)
Definition workflow_tasks (wf : dict) : exc (list jval) :=
  let v := Dict.get_or wf "workflow_tasks" JNull in
  if truthy v then match v with JList l => ret l | _ => raise end else ret [].

(** The search loop: [t.get("task_id") == task_id], first match wins. *)
Fixpoint find_task (l : list jval) (task_id : string) (i : nat) : exc (option nat) :=
  match l with
  | [] => ret None
  | JObj t :: r =>
      if is_str (Dict.get_or t "task_id" JNull) task_id then ret (Some i)
      else find_task r task_id (S i)
  | _ :: _ => raise
  end.

Fixpoint replace_nth {A} (l : list A) (i : nat) (x : A) : list A :=
  match l, i with
  | [], _ => []
  | _ :: r, O => x :: r
  | y :: r, S j => y :: replace_nth r j x
  end.

(** Mode update, applied before the status update. *)
Definition apply_mode (body : update_body) (task : dict) : dict :=
  match b_mode body with
  | None => task
  | Some m =>
      let task := Dict.set task "mode" (JStr m) in
      if String.eqb m IGNORED then
        Dict.set (Dict.set task "visibility" (JStr "HIDDEN")) "status" (JStr PENDING)
      else if is_str (Dict.get_or task "mode" JNull) IGNORED && negb (String.eqb m IGNORED)
      then Dict.set task "visibility" (JStr "VISIBLE")
      else task
  end.

(** Status update, with the automatic timestamps. *)
Definition apply_status (body : update_body) (now : string) (task : dict) : tres dict :=
  match b_status body with
  | None => tret task
  | Some st =>
      if String.eqb st BLOCKED && negb (is_str (Dict.get_or task "mode" (JStr ASSIGNED)) ASSIGNED)
      then tfail (EHttp 400 "BLOCKED status only valid for ASSIGNED mode tasks")
      else
        let old_status := Dict.get_or task "status" JNull in
        let task := Dict.set task "status" (JStr st) in
        let task :=
          if String.eqb st IN_PROGRESS && negb (is_str old_status IN_PROGRESS)
             && is_none (b_actual_start body)
             && negb (truthy (Dict.get_or task "actual_start" JNull))
          then Dict.set task "actual_start" (JStr now) else task in
        let task :=
          if String.eqb st COMPLETED then
            let task :=
              if is_str (Dict.get_or task "mode" JNull) TRACKED
                 && is_str (Dict.get_or task "task_type" JNull) "POD" then
                if is_none (b_actual_start body)
                   && negb (truthy (Dict.get_or task "actual_start" JNull))
                then Dict.set task "actual_start" (JStr now) else task
              else
                if is_none (b_actual_end body)
                   && negb (truthy (Dict.get_or task "actual_end" JNull))
                then Dict.set task "actual_end" (JStr now) else task in
            Dict.set task "completed_at" (JStr now)
          else task in
        tret task
  end.

Definition set_opt (task : dict) (k : string) (o : option string) : dict :=
  match o with Some v => Dict.set task k (JStr v) | None => task end.

(** The remaining field updates, in source order. *)
Definition apply_fields (body : update_body) (task : dict) : dict :=
  let task := set_opt task "assigned_to" (b_assigned_to body) in
  let task := set_opt task "third_party_name" (b_third_party_name body) in
  let task :=
    match b_due_date body with
    | Some d => Dict.set (Dict.set (Dict.set task "due_date" (JStr d))
                                   "scheduled_end" (JStr d)) "due_date_override" (JBool true)
    | None =>
        match b_due_date_override body with
        | Some b => Dict.set task "due_date_override" (JBool b)
        | None => task
        end
    end in
  let task := set_opt task "notes" (b_notes body) in
  let task := set_opt task "visibility" (b_visibility body) in
  let task := set_opt task "scheduled_start" (b_scheduled_start body) in
  let task := set_opt task "scheduled_end" (b_scheduled_end body) in
  let task := set_opt task "actual_start" (b_actual_start body) in
  match b_actual_end body with
  | Some e => Dict.set (Dict.set task "actual_end" (JStr e)) "completed_at" (JStr e)
  | None => task
  end.

(** The booking reference read from the Quotation entity; an empty
    entity is falsy. *)
Definition booking_ref (q_entity : option dict) : jval :=
  match q_entity with
  | Some qd =>
      if truthy (JObj qd) then
        let booking := let v := Dict.get_or qd "booking" JNull in
                       if truthy v then v else JObj [] in
        let br := match booking with
                  | JObj b => Dict.get_or b "booking_reference" (JStr "")
                  | _ => JStr ""
                  end in
        if truthy br then br
        else let v := Dict.get_or qd "booking_reference" (JStr "") in
             if truthy v then v else JStr ""
      else JStr ""
  | None => JStr ""
  end.

(** The unblock loop over the workflow's task list. *)
Fixpoint unblock (l : list jval) (uid now : string) : exc (list jval) :=
  match l with
  | [] => ret []
  | JObj t :: r =>
      r' <- unblock r uid now ;;
      ret ((if is_str (Dict.get_or t "task_type" JNull) EXPORT_CLEARANCE
               && is_str (Dict.get_or t "status" JNull) BLOCKED
            then JObj (Dict.set (Dict.set (Dict.set t "status" (JStr PENDING))
                                          "updated_by" (JStr uid)) "updated_at" (JStr now))
            else JObj t) :: r')
  | _ :: _ => raise
  end.

Definition BOOKING_WARNING : string :=
  "EXPORT_CLEARANCE remains BLOCKED — booking_reference not set on shipment".

(** The handler: [wf] is the stored [ShipmentWorkFlow] entity and [q_entity]
    the stored [Quotation] entity; the result is the response and the
    workflow entity written back. *)
Definition update_shipment_task (shipment_id task_id : string) (body : update_body)
    (cl : claims) (now : string) (wf : option dict) (q_entity : option dict)
  : tres (dict * dict) :=
  match check_request cl body with
  | Some (code, detail) => tfail (EHttp code detail)
  | None =>
  match wf with
  | None => tfail (ENotFound ("ShipmentWorkFlow for " ++ shipment_id ++ " not found"))
  | Some wfe =>
  tasks <-- lift (workflow_tasks wfe) ;;;
  idx <-- lift (find_task tasks task_id 0) ;;;
  match idx with
  | None => tfail (ENotFound ("Task " ++ task_id ++ " not found on shipment " ++ shipment_id))
  | Some i =>
  match nth_error tasks i with
  | Some (JObj task0) =>
      let task1 := apply_mode body task0 in
      task2 <-- apply_status body now task1 ;;;
      let task3 := apply_fields body task2 in
      let task := Dict.set (Dict.set task3 "updated_by" (JStr (cl_uid cl)))
                           "updated_at" (JStr now) in
      let tasks1 := replace_nth tasks i (JObj task) in
      p <-- (if opt_is (b_status body) COMPLETED
                && is_str (Dict.get_or task "task_type" JNull) FREIGHT_BOOKING then
               if truthy (booking_ref q_entity) then
                 ts <-- lift (unblock tasks1 (cl_uid cl) now) ;;; tret (ts, None)
               else tret (tasks1, Some BOOKING_WARNING)
             else tret (tasks1, None)) ;;;
      let (tasks2, warning) := p in
      let data := match nth_error tasks2 i with Some (JObj t) => t | _ => task end in
      let wf' := Dict.set (Dict.set wfe "workflow_tasks" (JList tasks2))
                          "updated" (JStr now) in
      let response := ([("status", JStr "OK"); ("data", JObj data); ("msg", JStr "Task updated")]
                      ++ match warning with
                         | Some w => [("warning", JStr w)]
                         | None => []
                         end)%list in
      tret (response, wf')
  | _ => tfail ECrash
  end
  end
  end
  end.

(** The task returned in the response's [data]. *)
Definition response_task (resp : dict) : option dict :=
  match Dict.get resp "data" with Some (JObj t) => Some t | _ => None end.

(** The target task after all of the patch's writes, as the handler builds it. *)
Definition final_task (body : update_body) (cl : claims) (now : string) (task2 : dict) : dict :=
  Dict.set (Dict.set (apply_fields body task2) "updated_by" (JStr (cl_uid cl)))
           "updated_at" (JStr now).

(** The task the handler targets, as stored before the call. *)
Definition stored_target (wfe : dict) (task_id : string) : option dict :=
  match workflow_tasks wfe with
  | Some tasks =>
      match find_task tasks task_id 0 with
      | Some (Some i) => match nth_error tasks i with Some (JObj t) => Some t | _ => None end
      | _ => None
      end
  | None => None
  end.

(** The tasks of a written-back workflow entity. *)
Definition written_tasks (wf' : dict) : list jval :=
  match Dict.get wf' "workflow_tasks" with Some (JList l) => l | _ => [] end.

End TaskUpdate.

(** A workflow whose only task is an IGNORED, hidden freight booking. *)
Definition ignored_task : dict :=
  [("task_id", JStr "t1"); ("task_type", JStr Tasks.FREIGHT_BOOKING);
   ("mode", JStr Tasks.IGNORED); ("status", JStr Tasks.PENDING);
   ("visibility", JStr "HIDDEN")].

Definition one_task_wf (t : dict) : dict :=
  [("workflow_tasks", JList [JObj t])].

Definition afu_claims : TaskUpdate.claims :=
  {| TaskUpdate.cl_is_afc := false; TaskUpdate.cl_role := "AFU-ADMIN";
     TaskUpdate.cl_uid := "u1" |}.

(** A patch with only [status] and [mode] set. *)
Definition patch (status mode : option string) : TaskUpdate.update_body :=
  {| TaskUpdate.b_status := status; TaskUpdate.b_mode := mode;
     TaskUpdate.b_assigned_to := None; TaskUpdate.b_third_party_name := None;
     TaskUpdate.b_due_date := None; TaskUpdate.b_due_date_override := None;
     TaskUpdate.b_notes := None; TaskUpdate.b_visibility := None;
     TaskUpdate.b_scheduled_start := None; TaskUpdate.b_scheduled_end := None;
     TaskUpdate.b_actual_start := None; TaskUpdate.b_actual_end := None |}.

(** A freight booking in progress and a blocked export clearance. *)
Definition booking_wf : dict :=
  [("workflow_tasks",
    JList [JObj [("task_id", JStr "t1"); ("task_type", JStr Tasks.FREIGHT_BOOKING);
                 ("mode", JStr Tasks.ASSIGNED); ("status", JStr Tasks.IN_PROGRESS)];
           JObj [("task_id", JStr "t2"); ("task_type", JStr Tasks.EXPORT_CLEARANCE);
                 ("mode", JStr Tasks.ASSIGNED); ("status", JStr Tasks.BLOCKED)]])].

(** A Quotation whose [booking.booking_reference] is empty and whose
    top-level [booking_reference] is set. *)
Definition top_level_ref_q : dict :=
  [("booking", JObj [("booking_reference", JStr "")]); ("booking_reference", JStr "BK1")].

(** ** Company fuzzy matching ([_match_company] in routers/shipments.py)

    Scores are computed exactly in [Q]; the source computes them in binary
    floating point, and [round(score, 2)] rounds that float.  On the inputs
    used below the two agree. *)
Module Match.

(** [[a-z0-9\s]] after lower-casing. *)
Definition is_kept (c : ascii) : bool :=
  let n := nat_of_ascii c in
  (((97 <=? n)%nat && (n <=? 122)%nat) || ((48 <=? n)%nat && (n <=? 57)%nat)
   || Py.is_space c)%bool.

(** [re.sub(r'[^a-z0-9\s]', ' ', s)] *)
Definition subst_punct (s : string) : string :=
  Py.map_chars (fun c => if is_kept c then c else " "%char) s.

(** [re.sub(r'\s+', ' ', s)]; [in_ws] tells whether the previous character
    was whitespace. *)
Fixpoint collapse_ws (s : string) (in_ws : bool) : string :=
  match s with
  | EmptyString => EmptyString
  | String c r =>
      if Py.is_space c then
        if in_ws then collapse_ws r true else String " " (collapse_ws r true)
      else String c (collapse_ws r false)
  end.

Definition normalise (s : string) : string :=
  Py.strip (collapse_ws (subst_punct (Py.lower s)) false).

(** [str.split()] with no argument; [cur] is the current word, reversed. *)
Fixpoint split_aux (s : string) (cur : list ascii) : list string :=
  match s with
  | EmptyString =>
      match cur with [] => [] | _ => [string_of_list_ascii (rev cur)] end
  | String c r =>
      if Py.is_space c then
        match cur with
        | [] => split_aux r []
        | _ => string_of_list_ascii (rev cur) :: split_aux r []
        end
      else split_aux r (c :: cur)
  end.

Definition split (s : string) : list string := split_aux s [].

Definition score (name_norm : string) (name_words : list string) (company_norm : string) : Q :=
  if String.eqb company_norm name_norm then 1%Q
  else if Py.contains name_norm company_norm || Py.contains company_norm name_norm
  then 4 # 5
  else
    let company_words := split company_norm in
    let matched := length (filter (fun w => existsb (String.eqb w) company_words) name_words) in
    if (2 <=? matched)%nat
    then ((1 # 2) + (Z.of_nat matched # Pos.of_nat (Nat.max (length name_words) 1)) * (3 # 10))%Q
    else 0%Q.

(** [round(x, 2)]: nearest hundredth, ties to even. *)
Definition round2 (x : Q) : Q :=
  let y := (x * inject_Z 100)%Q in
  let f := Qfloor y in
  let d := (y - inject_Z f)%Q in
  let n := if negb (Qle_bool d (1 # 2)) then f + 1
           else if negb (Qle_bool (1 # 2) d) then f
           else if Z.even f then f else f + 1 in
  n # 100.

Record company := { co_key : string; co_entity : dict }.

Record cmatch := { m_company_id : string; m_name : string; m_score : Q }.

(** The loop over [client.query(kind="Company").fetch()]. *)
Fixpoint scan (name_norm : string) (name_words : list string) (cs : list company)
  : exc (list cmatch) :=
  match cs with
  | [] => ret []
  | c :: r =>
      let v := Dict.get_or (co_entity c) "name" JNull in
      if truthy v then
        match v with
        | JStr company_name =>
            let sc := score name_norm name_words (normalise company_name) in
            rest <- scan name_norm name_words r ;;
            ret (if Qle_bool sc (3 # 10) then rest
                 else {| m_company_id := co_key c; m_name := company_name;
                         m_score := round2 sc |} :: rest)
        | _ => raise
        end
      else scan name_norm name_words r
  end.

(** [list.sort(key=score, reverse=True)]: stable, by descending score. *)
Fixpoint insert_desc (x : cmatch) (l : list cmatch) : list cmatch :=
  match l with
  | [] => [x]
  | y :: r => if Qle_bool (m_score x) (m_score y) then y :: insert_desc x r else x :: l
  end.

Definition sort_desc (l : list cmatch) : list cmatch :=
  fold_left (fun acc x => insert_desc x acc) l [].

Definition match_company (consignee_name : string) (cs : list company) : exc (list cmatch) :=
  if negb (Py.str_truthy consignee_name) then ret []
  else
    let name_lower := Py.strip (Py.lower consignee_name) in
    let name_norm := normalise name_lower in
    let name_words := filter (fun w => (2 <? String.length w)%nat) (split name_norm) in
    ms <- scan name_norm name_words cs ;;
    ret (firstn 3 (sort_desc ms)).

(** A company entity with its [trash] flag set. *)
Definition mark_trashed (c : company) : company :=
  {| co_key := co_key c; co_entity := Dict.set (co_entity c) "trash" (JBool true) |}.

End Match.

(** ** Update from a parsed BL ([update_from_bl] in routers/shipments.py)

    The Quotation entity as the handler writes it back.  The ShipmentOrder
    mirror, the system log and the file upload do not write the Quotation
    and are left out. *)
Module BL.

(** The form fields of the request. *)
Record bl_args := {
  waybill_number : option string; carrier : option string; carrier_agent : option string;
  vessel_name : option string; voyage_number : option string; etd : option string;
  shipper_name : option string; shipper_address : option string;
  consignee_name : option string; consignee_address : option string;
  notify_party_name : option string;
  bl_shipper_name : option string; bl_shipper_address : option string;
  bl_consignee_name : option string; bl_consignee_address : option string;
  force_update : option string; containers : option string; cargo_items : option string }.

Definition is_some {A} (o : option A) : bool := match o with Some _ => true | None => false end.

(** [None] as JSON [null]. *)
Definition jopt (o : option string) : jval := match o with Some s => JStr s | None => JNull end.

Definition is_force (a : bl_args) : bool :=
  match force_update a with Some f => String.eqb f "true" | None => false end.

(** [if (is_force or not p.get(k)) and v is not None: p[k] = v] *)
Definition write_if (force : bool) (p : dict) (k : string) (o : option string) : dict :=
  match o with
  | Some v =>
      if force || negb (truthy (Dict.get_or p k JNull)) then Dict.set p k (JStr v) else p
  | None => p
  end.

(** The shipper and consignee blocks. *)
Definition merge_party (force : bool) (parties : dict) (key : string)
    (name addr : option string) : dict :=
  if is_some name || is_some addr then
    let party := get_subdict parties key in
    let party := write_if force party "name" name in
    let party := write_if force party "address" addr in
    Dict.set parties key (JObj party)
  else parties.

(** The notify-party block: only its name. *)
Definition merge_notify (force : bool) (parties : dict) (name : option string) : dict :=
  match name with
  | Some n =>
      let np := get_subdict parties "notify_party" in
      let np := if force || negb (truthy (Dict.get_or np "name" JNull))
                then Dict.set np "name" (JStr n) else np in
      Dict.set parties "notify_party" (JObj np)
  | None => parties
  end.

Definition merge_parties (a : bl_args) (parties : dict) : dict :=
  let force := is_force a in
  let parties := merge_party force parties "shipper" (shipper_name a) (shipper_address a) in
  let parties := merge_party force parties "consignee" (consignee_name a) (consignee_address a) in
  merge_notify force parties (notify_party_name a).

Definition apply_booking (a : bl_args) (q : dict) : dict :=
  let booking := get_subdict q "booking" in
  let booking := TaskUpdate.set_opt booking "booking_reference" (waybill_number a) in
  let booking := match carrier_agent a with
                 | Some v => Dict.set booking "carrier_agent" (JStr v)
                 | None => TaskUpdate.set_opt booking "carrier_agent" (carrier a)
                 end in
  let booking := TaskUpdate.set_opt booking "vessel_name" (vessel_name a) in
  let booking := TaskUpdate.set_opt booking "voyage_number" (voyage_number a) in
  Dict.set q "booking" (JObj booking).

Definition apply_flat (a : bl_args) (q : dict) : dict :=
  let q := TaskUpdate.set_opt q "vessel_name" (vessel_name a) in
  let q := TaskUpdate.set_opt q "voyage_number" (voyage_number a) in
  TaskUpdate.set_opt q "etd" (etd a).

Definition apply_parties (a : bl_args) (q : dict) : dict :=
  Dict.set q "parties" (JObj (merge_parties a (get_subdict q "parties"))).

Definition apply_bl_doc (a : bl_args) (q : dict) : dict :=
  let doc := get_subdict q "bl_document" in
  let doc := if is_some (bl_shipper_name a) || is_some (bl_shipper_address a)
             then Dict.set doc "shipper" (JObj [("name", jopt (bl_shipper_name a));
                                                ("address", jopt (bl_shipper_address a))])
             else doc in
  let doc := if is_some (bl_consignee_name a) || is_some (bl_consignee_address a)
             then Dict.set doc "consignee" (JObj [("name", jopt (bl_consignee_name a));
                                                  ("address", jopt (bl_consignee_address a))])
             else doc in
  if truthy (JObj doc) then Dict.set q "bl_document" (JObj doc) else q.

(** The containers and cargo-items blocks; [json_loads] is [None] where
    [json.loads] raises [ValueError] or [TypeError]. *)
Definition apply_json_list (json_loads : string -> option jval) (key : string)
    (o : option string) (q : dict) : dict :=
  match o with
  | Some raw =>
      match json_loads raw with
      | Some v =>
          if truthy v then
            Dict.set q "type_details" (JObj (Dict.set (get_subdict q "type_details") key v))
          else q
      | None => q
      end
  | None => q
  end.

Definition update_from_bl (shipment_id : string) (a : bl_args) (now : string)
    (json_loads : string -> option jval) (q_entity : option dict) : TaskUpdate.tres dict :=
  match q_entity with
  | Some q =>
      if negb (truthy (JObj q)) then
        TaskUpdate.tfail (TaskUpdate.ENotFound ("Shipment " ++ shipment_id ++ " not found"))
      else if truthy (Dict.get_or q "trash" JNull) then
        TaskUpdate.tfail (TaskUpdate.EHttp 410 ("Shipment " ++ shipment_id ++ " has been deleted"))
      else
        let q := apply_booking a q in
        let q := apply_flat a q in
        let q := apply_parties a q in
        let q := apply_bl_doc a q in
        let q := apply_json_list json_loads "containers" (containers a) q in
        let q := apply_json_list json_loads "cargo_items" (cargo_items a) q in
        TaskUpdate.tret (Dict.set q "updated" (JStr now))
  | None => TaskUpdate.tfail (TaskUpdate.ENotFound ("Shipment " ++ shipment_id ++ " not found"))
  end.

End BL.

(** A BL update naming a shipper, a consignee and a notify party. *)
Definition bl_example_args : BL.bl_args :=
  {| BL.waybill_number := Some "WB123"; BL.carrier := None; BL.carrier_agent := None;
     BL.vessel_name := Some "EVER GIVEN"; BL.voyage_number := None; BL.etd := None;
     BL.shipper_name := Some "Acme Sdn Bhd"; BL.shipper_address := Some "1 Jalan";
     BL.consignee_name := Some "Beta Ltd"; BL.consignee_address := None;
     BL.notify_party_name := Some "Gamma"; BL.bl_shipper_name := Some "ACME SDN BHD";
     BL.bl_shipper_address := None; BL.bl_consignee_name := None;
     BL.bl_consignee_address := None; BL.force_update := None;
     BL.containers := None; BL.cargo_items := None |}.

(** A shipment whose shipper already has a name. *)
Definition bl_example_q : dict :=
  [("status", JNum 3001); ("parties", JObj [("shipper", JObj [("name", JStr "Old Shipper")])])].

(** ** Predicates used by the proofs *)

(** [d'] differs from [d] at most on the keys of [ks]. *)
Definition agree_except (ks : list string) (d d' : dict) : Prop :=
  forall k, ~ In k ks -> Dict.get d' k = Dict.get d k.

Definition is_legacy_type (v : jval) : bool :=
  is_str v "VESSEL_DEPARTURE" || is_str v "VESSEL_ARRIVAL" || is_str v "IN_TRANSIT".

Definition display_done (d : dict) (ty : jval) : Prop :=
  exists v, Dict.get d "display_name" = Some v /\
            (truthy v = true \/ Tasks.display_name_get ty = Some v).

Definition leg_done (d : dict) (ty : jval) : Prop :=
  Tasks.leg_level_get ty = Some None \/
  exists l, Tasks.leg_level_get ty = Some (Some l) /\ Dict.get d "leg_level" = Some (JNum l).

Definition mode_done (d : dict) : Prop :=
  exists v, Dict.get d "mode" = Some v /\ truthy v = true.

Definition TIMING_KEYS : list string :=
  ["scheduled_start"; "scheduled_end"; "actual_start"; "actual_end"].

Definition timing_done (d : dict) : Prop := forall k, In k TIMING_KEYS -> Dict.mem d k = true.

(** The claim as stated: off the path, with no jump and no revert, a request
    is accepted exactly when the target is later in the union order. *)
Definition off_path_claim : Prop :=
  forall sid body email uid now st q is_v1 cur,
    Status.st_q st = Some q ->
    Status.resolve_current sid st q = Some (is_v1, cur) ->
    Py.str_truthy (Status.incoterm_of q) = true ->
    Py.str_truthy (Status.txn_type_of q) = true ->
    Status.rq_allow_jump body = false -> Status.rq_reverted body = false ->
    zmem cur (get_status_path_list (Status.incoterm_of q) (Status.txn_type_of q)) = false ->
    cur <> STATUS_COMPLETED -> cur <> STATUS_CANCELLED ->
    Status.rq_status body <> STATUS_CANCELLED ->
    ~ (get_status_path (Status.incoterm_of q) (Status.txn_type_of q) = PathB /\
       (Status.rq_status body = 3001 \/ Status.rq_status body = 3002)) ->
    (Status.accepted (fst (Status.update_shipment_status sid body email uid now st)) = true
     <-> Status.union_later (Status.rq_status body) cur = true).

Definition terminal_claim : Prop :=
  forall sid new_status allow_jump email uid now st q is_v1 cur,
    Status.st_q st = Some q ->
    Status.resolve_current sid st q = Some (is_v1, cur) ->
    (cur = STATUS_COMPLETED \/ cur = STATUS_CANCELLED) ->
    Status.update_shipment_status sid (revert_request new_status allow_jump false)
      email uid now st
    = (Status.Error "Cannot change status of a completed or cancelled shipment", st)
    /\ exists st' q',
         Status.update_shipment_status sid (revert_request new_status allow_jump true)
           email uid now st = (Status.Ok new_status (Status.path_of q), st')
         /\ Status.st_q st' = Some q'
         /\ last_q_entry_reverted (Status.q_status_history q') cur.

Definition STATUS_KEYS : list string := ["status"; "actual_start"; "actual_end"; "completed_at"].

Definition FIELD_KEYS : list string :=
  ["assigned_to"; "third_party_name"; "due_date"; "scheduled_end"; "due_date_override";
   "notes"; "scheduled_start"; "actual_start"; "actual_end"; "completed_at"].

Definition UNBLOCK_KEYS : list string := ["status"; "updated_by"; "updated_at"].

(** A field that a non-forced merge leaves as it is. *)
Definition fixed_field (p : dict) (k : string) (o : option string) : Prop :=
  match o with
  | None => True
  | Some v => truthy (Dict.get_or p k JNull) = true \/ Dict.get p k = Some (JStr v)
  end.

(** A party block that a non-forced merge leaves as it is. *)
Definition fixed_party (parties : dict) (key : string) (name addr : option string) : Prop :=
  (BL.is_some name || BL.is_some addr)%bool = false
  \/ exists s, Dict.get parties key = Some (JObj s)
               /\ fixed_field s "name" name /\ fixed_field s "address" addr.

(* ================================================================== *)

(** ** ShipmentOrder status normalisation ([_resolve_so_status_to_v2]) *)
Module SOStatus.

(** [V1_TO_V2_STATUS] of core/constants.py. *)
Definition V1_TO_V2_STATUS : list (Z * Z) :=
  [(1, STATUS_CONFIRMED); (100, STATUS_BOOKING_PENDING); (110, STATUS_BOOKING_CONFIRMED);
   (4110, STATUS_DEPARTED); (10000, STATUS_COMPLETED)].

Definition V1_NATIVE_CODES : list Z := [100; 110; 4110; 10000; -1].

Definition resolve_so_status_to_v2 (raw_status : Z) : Z :=
  if zmem raw_status V1_NATIVE_CODES then
    match zlookup V1_TO_V2_STATUS raw_status with Some v => v | None => STATUS_CONFIRMED end
  else raw_status.

(** The same on a stored value: [x in frozenset] raises [TypeError] on a
    list or dict, and a value that is not an integer is never a member. *)
Definition resolve_jval (raw : jval) : exc jval :=
  match raw with
  | JNum z => ret (JNum (resolve_so_status_to_v2 z))
  | JList _ | JObj _ => raise
  | v => ret v
  end.

End SOStatus.

(** ** Dashboard counters ([get_shipment_stats] in routers/shipments.py)

    The three queries are given by what they fetch: [v2] the V2 Quotation
    entities, [v1] the ShipmentOrder entities with status >= 110, [mig] the
    migrated ShipmentOrder entities, each with its key name.  [q_lookup]
    is the batch fetch of Quotation entities by key ([None] when missing). *)
Module Stats.

Record counts := {
  c_active : Z; c_completed : Z; c_to_invoice : Z; c_draft : Z; c_cancelled : Z }.

Definition zero : counts := Build_counts 0 0 0 0 0.

Definition inc_active (c : counts) : counts :=
  Build_counts (c_active c + 1) (c_completed c) (c_to_invoice c) (c_draft c) (c_cancelled c).
Definition inc_completed (c : counts) : counts :=
  Build_counts (c_active c) (c_completed c + 1) (c_to_invoice c) (c_draft c) (c_cancelled c).
Definition inc_to_invoice (c : counts) : counts :=
  Build_counts (c_active c) (c_completed c) (c_to_invoice c + 1) (c_draft c) (c_cancelled c).
Definition inc_draft (c : counts) : counts :=
  Build_counts (c_active c) (c_completed c) (c_to_invoice c) (c_draft c + 1) (c_cancelled c).
Definition inc_cancelled (c : counts) : counts :=
  Build_counts (c_active c) (c_completed c) (c_to_invoice c) (c_draft c) (c_cancelled c + 1).

(** The V2 Quotation loop. *)
Fixpoint v2_loop (es : list dict) (c : counts) : counts :=
  match es with
  | [] => c
  | e :: r =>
      let s := Tabs.ent_status e in
      let c :=
        if Tabs.jin s V2_ACTIVE_STATUSES then inc_active c
        else if Tabs.jin s [STATUS_COMPLETED] then
          let c := inc_completed c in
          if negb (truthy (Dict.get_or e "issued_invoice" (JBool false)))
          then inc_to_invoice c else c
        else if Tabs.jin s [STATUS_CANCELLED] then inc_cancelled c
        else if Tabs.jin s [STATUS_DRAFT; STATUS_DRAFT_REVIEW] then inc_draft c
        else c in
      v2_loop r c
  end.

(** [entity.get("data_version") == 2] *)
Definition is_migrated (e : dict) : bool :=
  match Dict.get e "data_version" with Some (JNum 2) => true | _ => false end.

(** The V1 bucketing loop; it also collects the completed ids whose
    ShipmentOrder has no truthy [issued_invoice]. *)
Fixpoint v1_loop (es : list (string * dict)) (c : counts) (ids : list string)
  : exc (counts * list string) :=
  match es with
  | [] => ret (c, ids)
  | (k, e) :: r =>
      v2 <- SOStatus.resolve_jval (Tabs.ent_status e) ;;
      let p :=
        if Tabs.jin v2 [STATUS_COMPLETED] then
          let c := inc_completed c in
          if truthy (Dict.get_or e "issued_invoice" JNull) then (c, ids)
          else (c, ids ++ [k])%list
        else if Tabs.jin v2 [STATUS_CANCELLED] then (inc_cancelled c, ids)
        else if Tabs.jin v2 V2_ACTIVE_STATUSES then (inc_active c, ids)
        else if Tabs.jin v2 [STATUS_DRAFT; STATUS_DRAFT_REVIEW] then (inc_draft c, ids)
        else (c, ids) in
      v1_loop r (fst p) (snd p)
  end.

(** The migrated loop, same order of tests as the V2 loop. *)
Fixpoint mig_loop (es : list (string * dict)) (c : counts) (ids : list string)
  : counts * list string :=
  match es with
  | [] => (c, ids)
  | (k, e) :: r =>
      let s := Tabs.ent_status e in
      let p :=
        if Tabs.jin s V2_ACTIVE_STATUSES then (inc_active c, ids)
        else if Tabs.jin s [STATUS_COMPLETED] then (inc_completed c, ids ++ [k])%list
        else if Tabs.jin s [STATUS_CANCELLED] then (inc_cancelled c, ids)
        else if Tabs.jin s [STATUS_DRAFT; STATUS_DRAFT_REVIEW] then (inc_draft c, ids)
        else (c, ids) in
      mig_loop r (fst p) (snd p)
  end.

(** [if sid in q_invoice_map and not bool(q_invoice_map[sid])]: one
    increment per id whose Quotation exists with a falsy [issued_invoice]. *)
Fixpoint invoice_pass (q_lookup : string -> option dict) (ids : list string) (c : counts)
  : counts :=
  match ids with
  | [] => c
  | sid :: r =>
      let c := match q_lookup sid with
               | Some qe => if negb (truthy (Dict.get_or qe "issued_invoice" JNull))
                            then inc_to_invoice c else c
               | None => c
               end in
      invoice_pass q_lookup r c
  end.

(** The response's [data]: the counters and [total]. *)
Definition get_shipment_stats (v2 : list dict) (v1 mig : list (string * dict))
    (q_lookup : string -> option dict) : exc (counts * Z) :=
  let c := v2_loop v2 zero in
  let v1_entities := filter (fun p => negb (is_migrated (snd p))) v1 in
  p <- v1_loop v1_entities c [] ;;
  let c := invoice_pass q_lookup (snd p) (fst p) in
  let p := mig_loop mig c [] in
  let c := invoice_pass q_lookup (snd p) (fst p) in
  ret (c, c_active c + c_completed c + c_cancelled c + c_draft c).

End Stats.

(** ** [recalculate_due_dates] ([logic/incoterm_tasks.py]) *)
Module Recalc.

(** [new_due != task.get("due_date")] where [new_due] is an ISO string or
    [None]: [None] equals only [None], a string only an equal string. *)
Definition due_differs (new_due old : jval) : bool :=
  match new_due, old with
  | JNull, JNull => false
  | JStr a, JStr b => negb (String.eqb a b)
  | _, _ => true
  end.

(** [_calculate_due_date(task["task_type"], ...)]: a non-string type equals
    none of the task type constants, so its due date is [None];
    [task["task_type"]] raises [KeyError] when the key is missing. *)
Definition task_due (task : dict) (etd eta cargo_ready_date : option Z) : exc (option Z) :=
  tt <- Dict.get task "task_type" ;;
  match tt with
  | JStr s => Tasks.calculate_due_date s etd eta cargo_ready_date
  | _ => ret None
  end.

(** The loop body, for one task. *)
Definition recalc_task (etd eta cargo_ready_date : option Z) (updated_by now : string)
    (task : dict) : exc dict :=
  if truthy (Dict.get_or task "due_date_override" (JBool false)) then ret task
  else
    d <- task_due task etd eta cargo_ready_date ;;
    let new_due := Tasks.due_to_json d in
    if due_differs new_due (Dict.get_or task "due_date" JNull) then
      let task := Dict.set task "due_date" new_due in
      let task := Dict.set task "scheduled_end" new_due in
      let task := Dict.set task "updated_by" (JStr updated_by) in
      ret (Dict.set task "updated_at" (JStr now))
    else ret task.

(** [recalculate_due_dates]: the tasks are updated in place and the same
    list is returned; [now] is the [datetime.now(timezone.utc).isoformat()]
    of the call. *)
Fixpoint recalculate_due_dates (tasks : list dict) (etd eta cargo_ready_date : option Z)
    (updated_by now : string) : exc (list dict) :=
  match tasks with
  | [] => ret []
  | t :: r =>
      t' <- recalc_task etd eta cargo_ready_date updated_by now t ;;
      r' <- recalculate_due_dates r etd eta cargo_ready_date updated_by now ;;
      ret (t' :: r')
  end.

End Recalc.

Definition RECALC_KEYS : list string := ["due_date"; "scheduled_end"; "updated_by"; "updated_at"].

(** What the loop body leaves in one task. *)
Definition recalc_result (etd eta crd : option Z) (t t' : dict) : Prop :=
  if truthy (Dict.get_or t "due_date_override" (JBool false)) then t' = t
  else exists d, Recalc.task_due t etd eta crd = Some d
       /\ Dict.get_or t' "due_date" JNull = Tasks.due_to_json d
       /\ agree_except RECALC_KEYS t t'.

(** ** [_maybe_unblock_export_clearance] ([routers/shipments.py]) *)
Module ExportUnblock.

Import Tasks.

(** The first loop: [fb_completed], with its [break]. *)
Fixpoint fb_completed (l : list jval) : exc bool :=
  match l with
  | [] => ret false
  | JObj t :: r =>
      if is_str (Dict.get_or t "task_type" JNull) FREIGHT_BOOKING
         && is_str (Dict.get_or t "status" JNull) COMPLETED
      then ret true else fb_completed r
  | _ :: _ => raise
  end.

(** The second loop: the first blocked EXPORT_CLEARANCE task is set to
    PENDING, then [break]; the flag is [changed]. *)
Fixpoint unblock_first (l : list jval) (user_id now : string) : exc (list jval * bool) :=
  match l with
  | [] => ret ([], false)
  | JObj t :: r =>
      if is_str (Dict.get_or t "task_type" JNull) EXPORT_CLEARANCE
         && is_str (Dict.get_or t "status" JNull) BLOCKED
      then ret (JObj (Dict.set (Dict.set (Dict.set t "status" (JStr PENDING))
                                         "updated_by" (JStr user_id)) "updated_at" (JStr now))
                :: r, true)
      else p <- unblock_first r user_id now ;; ret (JObj t :: fst p, snd p)
  | _ :: _ => raise
  end.

(** [wf] is the stored [ShipmentWorkFlow] entity; the result is the entity
    written back by [client.put], if any. *)
Definition maybe_unblock_export_clearance (wf : option dict) (user_id now : string)
  : exc (option dict) :=
  match wf with
  | None => ret None
  | Some wfe =>
      if negb (truthy (JObj wfe)) then ret None
      else
        tasks <- TaskUpdate.workflow_tasks wfe ;;
        fb <- fb_completed tasks ;;
        if negb fb then ret None
        else
          p <- unblock_first tasks user_id now ;;
          if snd p then
            ret (Some (Dict.set (Dict.set wfe "workflow_tasks" (JList (fst p)))
                                "updated" (JStr now)))
          else ret None
  end.

End ExportUnblock.

(** ** [_lazy_init_tasks] and the task list endpoint ([routers/shipments.py]) *)
Module LazyInit.

Section LazyInit.

(** The nested [_parse_date]: it catches its own errors, so it is total. *)
Variable parse_date : jval -> option Z.

(** [a or b or ""] *)
Definition or_empty (a b : jval) : jval :=
  if truthy a then a else if truthy b then b else JStr "".

(** [shipment_data] is the shipment as a dict, [wf] the stored
    [ShipmentWorkFlow] entity; [uuid] and [now1] are what
    [generate_tasks] draws, [now2] the [updated] timestamp.  The result is
    the returned task list and the entity written back, if any. *)
Definition lazy_init_tasks (shipment_data : dict) (wf : option dict)
    (uuid : nat -> string) (now1 now2 : string) : exc (jval * option dict) :=
  match wf with
  | None => ret (JList [], None)
  | Some wfe =>
      if negb (truthy (JObj wfe)) then ret (JList [], None)
      else
        let existing_tasks := Dict.get_or wfe "workflow_tasks" JNull in
        if truthy existing_tasks then ret (existing_tasks, None)
        else
          let incoterm := or_empty (Dict.get_or shipment_data "incoterm_code" JNull)
                                   (Dict.get_or wfe "incoterm" JNull) in
          let txn_type := or_empty (Dict.get_or shipment_data "transaction_type" JNull)
                                   (Dict.get_or wfe "transaction_type" JNull) in
          if negb (truthy incoterm) || negb (truthy txn_type) then ret (JList [], None)
          else
            match incoterm, txn_type with
            | JStr inc, JStr txn =>
                let etd := parse_date (Dict.get_or shipment_data "etd" JNull) in
                let eta := parse_date (Dict.get_or shipment_data "eta" JNull) in
                let crd := parse_date (Dict.get_or shipment_data "cargo_ready_date" JNull) in
                tasks <- Tasks.generate_tasks inc txn etd eta crd "system" uuid now1 ;;
                match tasks with
                | [] => ret (JList [], None)
                | _ =>
                    let l := map JObj tasks in
                    ret (JList l, Some (Dict.set (Dict.set wfe "workflow_tasks" (JList l))
                                                 "updated" (JStr now2)))
                end
            (* [incoterm.upper()] on a value that is not a string *)
            | _, _ => raise
            end
  end.

End LazyInit.

Fixpoint migrate_all (l : list jval) : exc (list dict) :=
  match l with
  | [] => ret []
  | JObj t :: r =>
      t' <- Tasks.migrate_task_on_read t ;;
      r' <- migrate_all r ;;
      ret (t' :: r')
  | _ :: _ => raise
  end.

(** The end of [get_shipment_tasks], from the returned list on:
    migration on read, then the AFC visibility filter. *)
Definition shipment_tasks_view (is_afc : bool) (tasks : jval) : exc (list dict) :=
  l <- match tasks with
       | JList l => migrate_all l
       (* iterating a string or a dict yields strings, which have no [get] *)
       | JStr _ | JObj _ => if truthy tasks then raise else ret []
       | _ => raise
       end ;;
  ret (if is_afc
       then filter (fun t => negb (is_str (Dict.get_or t "visibility" JNull) "HIDDEN")) l
       else l).

End LazyInit.

(** ** [update_parties] ([routers/shipments.py]) *)
Module Parties.

(** [UpdatePartiesRequest] *)
Record parties_body := {
  shipper_name : option string; shipper_address : option string;
  consignee_name : option string; consignee_address : option string;
  notify_party_name : option string; notify_party_address : option string }.

(** [d.pop(k, None)]: a Python dict holds a key at most once. *)
Definition pop (d : dict) (k : string) : dict :=
  filter (fun p => negb (String.eqb (fst p) k)) d.

(** [if v is not None: blk[k] = v] for the name, then the address. *)
Definition fill (blk : dict) (name addr : option string) : dict :=
  let blk := TaskUpdate.set_opt blk "name" name in
  TaskUpdate.set_opt blk "address" addr.

(** [not blk.get("name") and not blk.get("address")] *)
Definition block_empty (blk : dict) : bool :=
  negb (truthy (Dict.get_or blk "name" JNull)) && negb (truthy (Dict.get_or blk "address" JNull)).

(** One of the three merge blocks. *)
Definition merge_block (parties : dict) (key : string) (name addr : option string) : dict :=
  if BL.is_some name || BL.is_some addr then
    let blk := fill (get_subdict parties key) name addr in
    if block_empty blk then pop parties key else Dict.set parties key (JObj blk)
  else parties.

Definition merge_all (body : parties_body) (parties : dict) : dict :=
  let parties := merge_block parties "shipper" (shipper_name body) (shipper_address body) in
  let parties := merge_block parties "consignee" (consignee_name body) (consignee_address body) in
  merge_block parties "notify_party" (notify_party_name body) (notify_party_address body).

(** The handler: [q_entity] and [so_entity] are the stored Quotation and
    ShipmentOrder entities; the result is the response, the Quotation
    written back and the ShipmentOrder written back, if any.  The
    AFSystemLogs entry written by [_log_system_action] is not modelled. *)
Definition update_parties (shipment_id : string) (body : parties_body) (now : string)
    (q_entity so_entity : option dict) : TaskUpdate.tres (dict * dict * option dict) :=
  match q_entity with
  | Some q =>
      if negb (truthy (JObj q)) then
        TaskUpdate.tfail (TaskUpdate.ENotFound ("Shipment " ++ shipment_id ++ " not found"))
      else
        let parties := merge_all body (get_subdict q "parties") in
        let q' := Dict.set (Dict.set q "parties" (JObj parties)) "updated" (JStr now) in
        let so' :=
          if String.prefix Status.PREFIX_V1_SHIPMENT shipment_id then
            match so_entity with
            | Some so =>
                if truthy (JObj so) then
                  let so := Dict.set (Dict.set so "parties" (JObj parties)) "updated" (JStr now) in
                  (* GUARD: never tag a V1 ShipmentOrder as data_version=2 *)
                  match Dict.get so "data_version" with
                  | Some (JNum 2) => Some (Dict.set so "data_version" JNull)
                  | _ => Some so
                  end
                else None
            | None => None
            end
          else None in
        TaskUpdate.tret ([("status", JStr "OK"); ("data", JObj [("parties", JObj parties)])],
                         q', so')
  | None => TaskUpdate.tfail (TaskUpdate.ENotFound ("Shipment " ++ shipment_id ++ " not found"))
  end.

End Parties.

(** A party block that [merge_block] leaves as it is. *)
Definition block_fixed (p : dict) (key : string) (name addr : option string) : Prop :=
  (BL.is_some name || BL.is_some addr)%bool = false
  \/ (Dict.get p key = None /\ Parties.block_empty (Parties.fill [] name addr) = true)
  \/ (exists blk, Dict.get p key = Some (JObj blk) /\ Parties.fill blk name addr = blk
                  /\ Parties.block_empty blk = false).

(** ** Route nodes: [_assign_sequences], [save_route_nodes] and
    [update_route_node_timing] ([routers/shipments.py]) *)
Module Route.

(** [RouteNodeInput] *)
Record node_input := {
  port_un_code : string; port_name : string; role : string;
  scheduled_eta : option string; actual_eta : option string;
  scheduled_etd : option string; actual_etd : option string }.

(** [n.dict()]: the fields in declaration order; it has no "sequence" key. *)
Definition node_dict (n : node_input) : dict :=
  [("port_un_code", JStr (port_un_code n)); ("port_name", JStr (port_name n));
   ("role", JStr (role n)); ("scheduled_eta", BL.jopt (scheduled_eta n));
   ("actual_eta", BL.jopt (actual_eta n)); ("scheduled_etd", BL.jopt (scheduled_etd n));
   ("actual_etd", BL.jopt (actual_etd n))].

(** [role_order.get(n.get("role", ""), 1)] for a string role. *)
Definition role_rank (n : dict) : Z :=
  let r := Dict.get_or n "role" (JStr "") in
  if is_str r "ORIGIN" then 0
  else if is_str r "TRANSHIP" then 1
  else if is_str r "DESTINATION" then 2
  else 1.

(** [n.get("sequence", 0)]; the nodes sorted by the handler come from
    [RouteNodeInput.dict()], so the key is missing and this is [0]. *)
Definition seq_key (n : dict) : Z :=
  match Dict.get n "sequence" with Some (JNum z) => z | _ => 0 end.

(** Tuple order on the sort key [(rank, sequence)]. *)
Definition key_lt (a b : dict) : bool :=
  (role_rank a <? role_rank b) || ((role_rank a =? role_rank b) && (seq_key a <? seq_key b)).

(** [list.sort]: stable, so nodes with equal keys keep their order. *)
Fixpoint insert_lt (x : dict) (l : list dict) : list dict :=
  match l with
  | [] => [x]
  | y :: r => if key_lt x y then x :: y :: r else y :: insert_lt x r
  end.

Definition sort_nodes (l : list dict) : list dict :=
  fold_left (fun acc x => insert_lt x acc) l [].

(** [for i, node in enumerate(nodes): node["sequence"] = i + 1] *)
Fixpoint number (i : Z) (l : list dict) : list dict :=
  match l with
  | [] => []
  | n :: r => Dict.set n "sequence" (JNum i) :: number (i + 1) r
  end.

Definition assign_sequences (nodes : list dict) : list dict := number 1 (sort_nodes nodes).

Definition count_role (r : string) (roles : list string) : nat :=
  length (filter (String.eqb r) roles).

Definition allowed (cl : TaskUpdate.claims) : bool :=
  negb (TaskUpdate.cl_is_afc cl)
  || existsb (String.eqb (TaskUpdate.cl_role cl)) ["AFC-ADMIN"; "AFC-M"].

(** The flat ETD/ETA sync loop. *)
Fixpoint sync_flat (nds : list dict) (q : dict) : exc dict :=
  match nds with
  | [] => ret q
  | nd :: r =>
      nd_role <- Dict.get nd "role" ;;
      let q := if is_str nd_role "ORIGIN" && truthy (Dict.get_or nd "scheduled_etd" JNull)
               then Dict.set q "etd" (Dict.get_or nd "scheduled_etd" JNull) else q in
      let q := if is_str nd_role "DESTINATION" && truthy (Dict.get_or nd "scheduled_eta" JNull)
               then Dict.set q "eta" (Dict.get_or nd "scheduled_eta" JNull) else q in
      sync_flat r q
  end.

(** [save_route_nodes]: the result is the Quotation entity written back.
    The response, built from the nodes enriched by Port lookups after the
    write, and the AFSystemLogs entry are not modelled. *)
Definition save_route_nodes (shipment_id : string) (nodes : list node_input)
    (cl : TaskUpdate.claims) (now : string) (q_entity : option dict) : TaskUpdate.tres dict :=
  if negb (allowed cl) then
    TaskUpdate.tfail (TaskUpdate.EHttp 403 "Only admin/manager can update route nodes")
  else if String.prefix Status.PREFIX_V1_SHIPMENT shipment_id then
    TaskUpdate.tfail (TaskUpdate.EHttp 400 "Cannot write route nodes to V1 shipments")
  else
  match q_entity with
  | Some q =>
      if negb (truthy (JObj q)) then
        TaskUpdate.tfail (TaskUpdate.ENotFound ("Shipment " ++ shipment_id ++ " not found"))
      else
        let roles := map role nodes in
        if negb (Nat.eqb (count_role "ORIGIN" roles) 1) then
          TaskUpdate.tfail (TaskUpdate.EHttp 400 "Exactly one ORIGIN node required")
        else if negb (Nat.eqb (count_role "DESTINATION" roles) 1) then
          TaskUpdate.tfail (TaskUpdate.EHttp 400 "Exactly one DESTINATION node required")
        else
        match find (fun r => negb (existsb (String.eqb r) ["ORIGIN"; "TRANSHIP"; "DESTINATION"]))
                   roles with
        | Some r => TaskUpdate.tfail (TaskUpdate.EHttp 400 ("Invalid role: " ++ r))
        | None =>
            let node_dicts := assign_sequences (map node_dict nodes) in
            let q := Dict.set q "route_nodes" (JList (map JObj node_dicts)) in
            TaskUpdate.tbind (TaskUpdate.lift (sync_flat node_dicts q)) (fun q =>
            TaskUpdate.tret (Dict.set q "updated" (JStr now)))
        end
  | None => TaskUpdate.tfail (TaskUpdate.ENotFound ("Shipment " ++ shipment_id ++ " not found"))
  end.

(** [RouteNodeTimingUpdate] *)
Record timing_body := {
  t_scheduled_eta : option string; t_actual_eta : option string;
  t_scheduled_etd : option string; t_actual_etd : option string }.

(** [v == sequence] for an int [sequence]: a bool compares as 0 or 1. *)
Definition eq_int (v : jval) (z : Z) : bool :=
  match v with
  | JNum x => Z.eqb x z
  | JBool b => Z.eqb (if b then 1 else 0) z
  | _ => false
  end.

(** The search loop, first match wins; [nd.get] raises on a non-dict. *)
Fixpoint find_seq (l : list jval) (sequence : Z) (i : nat) : exc (option (nat * dict)) :=
  match l with
  | [] => ret None
  | JObj nd :: r =>
      if eq_int (Dict.get_or nd "sequence" JNull) sequence then ret (Some (i, nd))
      else find_seq r sequence (S i)
  | _ :: _ => raise
  end.

Definition apply_timing (body : timing_body) (target : dict) : dict :=
  let target := TaskUpdate.set_opt target "scheduled_eta" (t_scheduled_eta body) in
  let target := TaskUpdate.set_opt target "actual_eta" (t_actual_eta body) in
  let target := TaskUpdate.set_opt target "scheduled_etd" (t_scheduled_etd body) in
  TaskUpdate.set_opt target "actual_etd" (t_actual_etd body).

(** [update_route_node_timing]: the result is the response's [node] and the
    Quotation written back; [target] is an element of [nodes], so its
    update is seen in the list written back. *)
Definition update_route_node_timing (shipment_id : string) (sequence : Z) (body : timing_body)
    (cl : TaskUpdate.claims) (now : string) (q_entity : option dict)
  : TaskUpdate.tres (dict * dict) :=
  if negb (allowed cl) then
    TaskUpdate.tfail (TaskUpdate.EHttp 403 "Only admin/manager can update route nodes")
  else if String.prefix Status.PREFIX_V1_SHIPMENT shipment_id then
    TaskUpdate.tfail (TaskUpdate.EHttp 400 "Cannot write route nodes to V1 shipments")
  else
  match q_entity with
  | Some q =>
      if negb (truthy (JObj q)) then
        TaskUpdate.tfail (TaskUpdate.ENotFound ("Shipment " ++ shipment_id ++ " not found"))
      else
        let nodes := Dict.get_or q "route_nodes" JNull in
        if negb (truthy nodes) then
          TaskUpdate.tfail (TaskUpdate.EHttp 400
            "No route nodes saved — use PUT to initialize first")
        else
        match nodes with
        | JList l =>
            TaskUpdate.tbind (TaskUpdate.lift (find_seq l sequence 0)) (fun found =>
            match found with
            | None => TaskUpdate.tfail (TaskUpdate.ENotFound
                        ("Route node with sequence " ++ Py.Z_to_string sequence ++ " not found"))
            | Some (i, target) =>
                let target := apply_timing body target in
                let q := if is_str (Dict.get_or target "role" JNull) "ORIGIN"
                            && BL.is_some (t_scheduled_etd body)
                         then Dict.set q "etd" (BL.jopt (t_scheduled_etd body)) else q in
                let q := if is_str (Dict.get_or target "role" JNull) "DESTINATION"
                            && BL.is_some (t_scheduled_eta body)
                         then Dict.set q "eta" (BL.jopt (t_scheduled_eta body)) else q in
                let q := Dict.set q "route_nodes"
                           (JList (TaskUpdate.replace_nth l i (JObj target))) in
                TaskUpdate.tret (target, Dict.set q "updated" (JStr now))
            end)
        (* iterating a string or a dict yields strings, a number raises *)
        | _ => TaskUpdate.tfail TaskUpdate.ECrash
        end
  | None => TaskUpdate.tfail (TaskUpdate.ENotFound ("Shipment " ++ shipment_id ++ " not found"))
  end.

End Route.

(** ** Predicates used by the proofs of further properties *)

(** Stats invariants. *)
Definition sum4 (c : Stats.counts) : Z :=
  Stats.c_active c + Stats.c_completed c + Stats.c_cancelled c + Stats.c_draft c.

Definition inv (k : Z) (c : Stats.counts) : Prop :=
  Stats.c_to_invoice c + k <= Stats.c_completed c.

Definition ec_blocked (t : dict) : bool :=
  is_str (Dict.get_or t "task_type" JNull) Tasks.EXPORT_CLEARANCE
  && is_str (Dict.get_or t "status" JNull) Tasks.BLOCKED.

Definition rank_is (k : Z) (n : dict) : bool := Z.eqb (Route.role_rank n) k.

Definition etd_step (acc : option jval) (nd : dict) : option jval :=
  if is_str (Dict.get_or nd "role" JNull) "ORIGIN" && truthy (Dict.get_or nd "scheduled_etd" JNull)
  then Some (Dict.get_or nd "scheduled_etd" JNull) else acc.

Definition eta_step (acc : option jval) (nd : dict) : option jval :=
  if is_str (Dict.get_or nd "role" JNull) "DESTINATION" && truthy (Dict.get_or nd "scheduled_eta" JNull)
  then Some (Dict.get_or nd "scheduled_eta" JNull) else acc.

Definition role_is (r : string) (n : Route.node_input) : bool := String.eqb r (Route.role n).

(** ** Example inputs *)

Definition stats_v2 : list dict :=
  [[("status", JNum 5001)]; [("status", JNum (-1))]; [("status", JNum 3001)]].
Definition stats_v1 : list (string * dict) :=
  [("AFCQ-000001", [("status", JNum 10000)]); ("AFCQ-000002", [("status", JNum (-1))])].
Definition stats_mig : list (string * dict) :=
  [("AF-000009", [("status", JNum (-1)); ("data_version", JNum 2)])].
Definition stats_lookup (k : string) : option dict :=
  if String.eqb k "AFCQ-000001" then Some [("issued_invoice", JBool false)] else None.

Definition fob_tasks : list dict :=
  match Tasks.generate_tasks "FOB" "EXPORT" (Some 739685) None None "system"
          (fun _ => "id") "now" with Some ts => ts | None => [] end.

Definition override_task : dict :=
  [("task_type", JStr Tasks.FREIGHT_BOOKING); ("due_date_override", JBool true);
   ("due_date", JStr "2026-01-01")].

Definition unblock_wf : dict :=
  [("workflow_tasks",
    JList [JObj [("task_id", JStr "t1"); ("task_type", JStr Tasks.FREIGHT_BOOKING);
                 ("status", JStr Tasks.COMPLETED)];
           JObj [("task_id", JStr "t2"); ("task_type", JStr Tasks.EXPORT_CLEARANCE);
                 ("status", JStr Tasks.BLOCKED)];
           JObj [("task_id", JStr "t3"); ("task_type", JStr Tasks.EXPORT_CLEARANCE);
                 ("status", JStr Tasks.BLOCKED)]])].

Definition fob_shipment : dict :=
  [("incoterm_code", JStr "FOB"); ("transaction_type", JStr "EXPORT")].
Definition empty_tasks_wf : dict := [("workflow_tasks", JList [])].

Definition clear_shipper_body : Parties.parties_body :=
  {| Parties.shipper_name := Some ""; Parties.shipper_address := Some "";
     Parties.consignee_name := Some "Beta Ltd"; Parties.consignee_address := None;
     Parties.notify_party_name := None; Parties.notify_party_address := None |}.
Definition v1_so : dict := [("status", JNum 10000); ("data_version", JNum 2)].

Definition route_input (role : string) (port : string) (etd eta : option string) : Route.node_input :=
  {| Route.port_un_code := port; Route.port_name := port; Route.role := role;
     Route.scheduled_eta := eta; Route.actual_eta := None;
     Route.scheduled_etd := etd; Route.actual_etd := None |}.
Definition route_example : list Route.node_input :=
  [route_input "DESTINATION" "NLRTM" None (Some "2026-03-01");
   route_input "TRANSHIP" "SGSIN" None None;
   route_input "ORIGIN" "MYPKG" (Some "2026-02-01") None;
   route_input "TRANSHIP" "LKCMB" None None].
Definition timing_example : Route.timing_body :=
  {| Route.t_scheduled_eta := None; Route.t_actual_eta := Some "2026-02-10";
     Route.t_scheduled_etd := None; Route.t_actual_etd := None |}.

(** * Theorems *)

Example z_to_string_ex : Py.Z_to_string 4001 = "4001" /\ Py.Z_to_string (-1) = "-1"
  /\ Py.Z_to_string 0 = "0".
Proof. repeat split; reflexivity. Qed.

Example strip_ex : Py.strip (Py.upper "  fob ") = "FOB".
Proof. reflexivity. Qed.

Example isoformat_ex : isoformat 739685 = "2026-03-10" /\ isoformat 1 = "0001-01-01"
  /\ isoformat MAX_ORDINAL = "9999-12-31".
Proof. repeat split; reflexivity. Qed.

Example generate_fob_export :
  option_map (map (fun t => (Dict.get t "task_type", Dict.get t "status", Dict.get t "due_date")))
    (Tasks.generate_tasks "fob" "export" (Some 739685) None None "system" (fun _ => "u") "now")
  = Some [(Some (JStr "ORIGIN_HAULAGE"), Some (JStr "PENDING"), Some (JStr "2026-03-07"));
          (Some (JStr "FREIGHT_BOOKING"), Some (JStr "PENDING"), Some (JStr "2026-03-03"));
          (Some (JStr "EXPORT_CLEARANCE"), Some (JStr "BLOCKED"), Some (JStr "2026-03-08"));
          (Some (JStr "POL"), Some (JStr "PENDING"), Some (JStr "2026-03-10"));
          (Some (JStr "POD"), Some (JStr "PENDING"), Some JNull)].
Proof. vm_compute. reflexivity. Qed.

(** ** Incoterm rules: status path and generated tasks *)

Lemma existsb_combos_cases (k1 k2 : string) :
  existsb (pair_eqb (k1, k2)) PATH_A_COMBOS = true ->
  In (k1, k2) PATH_A_COMBOS.
Proof.
  intros H. apply existsb_exists in H. destruct H as [[a b] [Hin Heq]].
  unfold pair_eqb in Heq. simpl in Heq. apply andb_true_iff in Heq.
  destruct Heq as [H1 H2]. apply String.eqb_eq in H1, H2. subst. exact Hin.
Qed.

Lemma slookup_in {A} (m : list (string * A)) k v :
  Tasks.slookup m k = Some v -> In (k, v) m.
Proof.
  induction m as [|[k' v'] r IH]; simpl; [discriminate|].
  destruct (String.eqb_spec k' k); [intros H; inversion H; subst; auto | auto].
Qed.

(** Outside the DOMESTIC transaction type, [_PATH_A_COMBOS] is exactly the set
    of pairs whose rule in [_INCOTERM_RULES] contains a FREIGHT_BOOKING task. *)
Lemma status_path_agrees_off_domestic (incoterm txn : string) :
  norm txn <> "DOMESTIC" ->
  (get_status_path incoterm txn = PathA <->
   In Tasks.FREIGHT_BOOKING (Tasks.rule_task_types incoterm txn)).
Proof.
  intros Hd. unfold get_status_path, Tasks.rule_task_types.
  generalize (norm incoterm) (norm txn) Hd. clear. intros k1 k2 Hd. split.
  - destruct (existsb _ _) eqn:E; [|discriminate]. intros _.
    apply existsb_combos_cases in E. simpl in E.
    repeat (destruct E as [E|E]; [inversion E; subst; vm_compute; tauto|]). contradiction.
  - destruct (Tasks.slookup Tasks.INCOTERM_RULES k1) as [rules|] eqn:E1; [|simpl; tauto].
    apply slookup_in in E1. simpl in E1.
    destruct (Tasks.slookup rules k2) as [l|] eqn:E2; [|simpl; tauto].
    apply slookup_in in E2.
    repeat (destruct E1 as [E1|E1];
      [inversion E1; subst; simpl in E2;
       repeat (destruct E2 as [E2|E2];
         [inversion E2; subst; try (exfalso; apply Hd; reflexivity);
          vm_compute; intros H; repeat (destruct H as [H|H]; try discriminate); try contradiction;
          try reflexivity|]);
       contradiction|]).
    contradiction.
Qed.

(** Claim C2 (code_bug): for the pair (FOB, DOMESTIC), [generate_tasks]
    produces a FREIGHT_BOOKING task, yet [get_status_path] returns path B,
    because no DOMESTIC pair is listed in [_PATH_A_COMBOS]. *)
Theorem status_path_domestic_diverges :
  get_status_path "FOB" "DOMESTIC" = PathB /\
  exists ts, Tasks.generate_tasks "FOB" "DOMESTIC" None None None "system" (fun _ => "id") "now"
             = Some ts /\
  exists t, In t ts /\ Dict.get t "task_type" = Some (JStr Tasks.FREIGHT_BOOKING).
Proof.
  split; [reflexivity|].
  eexists; split; [vm_compute; reflexivity|].
  eexists; split; [simpl; right; left; reflexivity | reflexivity].
Qed.

Lemma shift_spec d k r : Tasks.shift d k = Some r -> r = option_map (fun x => x + k) d.
Proof.
  unfold Tasks.shift, date_add, bind, ret, raise.
  destruct d as [x|]; simpl; [|congruence].
  destruct (_ && _); simpl; congruence.
Qed.

Ltac shift_case d :=
  let H := fresh "H" in
  intros H; apply shift_spec in H; subst; destruct d; simpl; try reflexivity; f_equal; lia.

Lemma calculate_due_date_spec ty etd eta crd d :
  Tasks.calculate_due_date ty etd eta crd = Some d -> d = spec_due_date ty etd eta crd.
Proof.
  unfold Tasks.calculate_due_date, spec_due_date, ret.
  destruct (String.eqb ty _).
  { destruct crd; [unfold ret; congruence|]. intros H; apply shift_spec in H; subst.
    destruct etd; reflexivity. }
  destruct (String.eqb ty Tasks.FREIGHT_BOOKING); [shift_case etd|].
  destruct (String.eqb ty Tasks.EXPORT_CLEARANCE); [shift_case etd|].
  destruct (String.eqb ty Tasks.POL); [shift_case etd|].
  destruct (String.eqb ty Tasks.POD); [shift_case eta|].
  destruct (String.eqb ty Tasks.IMPORT_CLEARANCE); [shift_case eta|].
  destruct (String.eqb ty Tasks.DESTINATION_HAULAGE); [shift_case eta|].
  intros H; inversion H; reflexivity.
Qed.

Lemma insert_by_in key x l t : In t (Tasks.insert_by key x l) -> t = x \/ In t l.
Proof.
  induction l as [|y r IH]; simpl; [intros [H|[]]; auto|].
  destruct (key x <? key y); simpl; [intros [H|[H|H]]; auto|].
  intros [H|H]; auto. apply IH in H. tauto.
Qed.

Lemma fold_insert_in key l acc t :
  In t (fold_left (fun acc x => Tasks.insert_by key x acc) l acc) -> In t acc \/ In t l.
Proof.
  revert acc. induction l as [|x r IH]; intros acc; simpl; [tauto|].
  intros H. apply IH in H. destruct H as [H|H]; [|tauto].
  apply insert_by_in in H. destruct H as [->|H]; tauto.
Qed.

Lemma sort_by_in key l t : In t (Tasks.sort_by key l) -> In t l.
Proof.
  unfold Tasks.sort_by. intros H. apply fold_insert_in in H. simpl in H. tauto.
Qed.

Lemma make_tasks_in tys i fb etd eta crd uuid upd_by now ts t :
  Tasks.make_tasks tys i fb etd eta crd uuid upd_by now = Some ts -> In t ts ->
  exists ty j, Tasks.make_task ty fb etd eta crd (uuid j) upd_by now = Some t.
Proof.
  revert i ts. induction tys as [|ty r IH]; intros i ts; simpl.
  - intros H; inversion H; subst; contradiction.
  - unfold bind at 1. destruct (Tasks.make_task ty _ _ _ _ _ _ _) as [t0|] eqn:E; [|discriminate].
    unfold bind. destruct (Tasks.make_tasks r _ _ _ _ _ _ _ _) as [ts0|] eqn:E2; [|discriminate].
    intros H; inversion H; subst. intros [<-|Hin]; [eauto|]. eapply IH; eauto.
Qed.

(** Claim C8: every task produced by [generate_tasks] carries, as [due_date]
    and as [scheduled_end], the ISO date given by the spec's formula for its
    task type (ORIGIN_HAULAGE = cargo_ready_date, else etd - 3; FREIGHT_BOOKING
    = etd - 7; EXPORT_CLEARANCE = etd - 2; POL = etd; POD = eta;
    IMPORT_CLEARANCE = eta + 1; DESTINATION_HAULAGE = eta + 3), and null when
    the date it needs is absent. *)
Theorem generate_tasks_due_dates incoterm txn etd eta crd upd_by uuid now ts t :
  Tasks.generate_tasks incoterm txn etd eta crd upd_by uuid now = Some ts ->
  In t ts ->
  exists ty,
    Dict.get t "task_type" = Some (JStr ty) /\
    Dict.get t "due_date" = Some (Tasks.due_to_json (spec_due_date ty etd eta crd)) /\
    Dict.get t "scheduled_end" = Some (Tasks.due_to_json (spec_due_date ty etd eta crd)).
Proof.
  unfold Tasks.generate_tasks.
  destruct (Tasks.rule_task_types incoterm txn) as [|ty0 r] eqn:Hr.
  - intros H; inversion H; subst; contradiction.
  - unfold bind. destruct (Tasks.make_tasks _ _ _ _ _ _ _ _ _) as [ts0|] eqn:E; [|discriminate].
    intros H; inversion H; subst; clear H. intros Hin. apply sort_by_in in Hin.
    destruct (make_tasks_in _ _ _ _ _ _ _ _ _ _ _ E Hin) as [ty [j Hm]].
    unfold Tasks.make_task, bind in Hm.
    destruct (Tasks.calculate_due_date ty etd eta crd) as [due|] eqn:Hd; [|discriminate].
    destruct (Tasks.slookup Tasks.TASK_LEG_LEVEL ty); [|discriminate].
    inversion Hm; subst; clear Hm.
    apply calculate_due_date_spec in Hd. subst due.
    exists ty. cbn. repeat split; reflexivity.
Qed.

Lemma generate_tasks_due_dates_witness :
  exists ts t, Tasks.generate_tasks "FOB" "EXPORT" (Some 739685) None None "system"
                 (fun _ => "id") "now" = Some ts /\ In t ts /\
  exists ty, Dict.get t "task_type" = Some (JStr ty) /\
    Dict.get t "due_date" = Some (Tasks.due_to_json (spec_due_date ty (Some 739685) None None)) /\
    Dict.get t "scheduled_end" = Some (Tasks.due_to_json (spec_due_date ty (Some 739685) None None)).
Proof.
  eexists. eexists. split; [vm_compute; reflexivity|].
  split; [simpl; right; left; reflexivity|].
  eapply (generate_tasks_due_dates "FOB" "EXPORT" (Some 739685) None None "system" (fun _ => "id") "now");
    [vm_compute; reflexivity | simpl; right; left; reflexivity].
Defined.

Example migrate_vessel_departure :
  Tasks.migrate_task_on_read [("task_type", JStr "VESSEL_DEPARTURE"); ("leg_level", JNum 3)]
  = Some [("task_type", JStr "POL"); ("leg_level", JNum 4);
          ("display_name", JStr "Port of Loading"); ("mode", JStr "TRACKED");
          ("scheduled_start", JNull); ("scheduled_end", JNull);
          ("actual_start", JNull); ("actual_end", JNull)].
Proof. vm_compute. reflexivity. Qed.

(** ** Dict lemmas *)

Lemma get_set_eq d k v : Dict.get (Dict.set d k v) k = Some v.
Proof.
  induction d as [|[k' v'] r IH]; simpl.
  - rewrite String.eqb_refl; reflexivity.
  - destruct (String.eqb_spec k' k); simpl.
    + subst; rewrite String.eqb_refl; reflexivity.
    + apply String.eqb_neq in n. rewrite n. exact IH.
Qed.

Lemma get_set_neq d k k' v : k <> k' -> Dict.get (Dict.set d k v) k' = Dict.get d k'.
Proof.
  intros Hne. induction d as [|[k0 v0] r IH]; simpl.
  - destruct (String.eqb_spec k k'); [contradiction|reflexivity].
  - destruct (String.eqb_spec k0 k); simpl.
    + subst. destruct (String.eqb_spec k k'); [contradiction|reflexivity].
    + destruct (String.eqb k0 k'); [reflexivity|exact IH].
Qed.

Lemma set_get_same d k v : Dict.get d k = Some v -> Dict.set d k v = d.
Proof.
  induction d as [|[k0 v0] r IH]; simpl; [discriminate|].
  destruct (String.eqb_spec k0 k).
  - intros H; inversion H; subst; reflexivity.
  - intros H. rewrite (IH H). reflexivity.
Qed.

Lemma mem_get d k : Dict.mem d k = true <-> exists v, Dict.get d k = Some v.
Proof.
  unfold Dict.mem. destruct (Dict.get d k); split; intros H; eauto.
  - discriminate.
  - destruct H; discriminate.
Qed.

Lemma agree_except_set ks d k v : In k ks -> agree_except ks d (Dict.set d k v).
Proof.
  intros Hk k' Hk'. apply get_set_neq. intros ->. contradiction.
Qed.

Lemma agree_except_refl ks d : agree_except ks d d.
Proof. intros k _; reflexivity. Qed.

Lemma agree_except_trans ks d1 d2 d3 :
  agree_except ks d1 d2 -> agree_except ks d2 d3 -> agree_except ks d1 d3.
Proof. intros H1 H2 k Hk. rewrite H2, H1; auto. Qed.

Lemma agree_except_weaken ks ks' d d' :
  (forall k, In k ks -> In k ks') -> agree_except ks d d' -> agree_except ks' d d'.
Proof. intros Hs H k Hk. apply H. intros Hin. apply Hk, Hs, Hin. Qed.

Lemma agree_except_get ks d d' k :
  agree_except ks d d' -> ~ In k ks -> Dict.get d' k = Dict.get d k.
Proof. intros H Hk; apply H, Hk. Qed.

(** ** [migrate_task_on_read] is idempotent *)

Lemma legacy_type_fixed d :
  is_legacy_type (Dict.get_or d "task_type" (JStr "")) = false ->
  Tasks.migrate_legacy_type d = d.
Proof.
  unfold is_legacy_type, Tasks.migrate_legacy_type.
  destruct (is_str _ "VESSEL_DEPARTURE"), (is_str _ "VESSEL_ARRIVAL"), (is_str _ "IN_TRANSIT");
    simpl; congruence.
Qed.

Lemma get_setdefault_neq d k k' v : k <> k' ->
  Dict.get (Dict.setdefault d k v) k' = Dict.get d k'.
Proof.
  intros H. unfold Dict.setdefault. destruct (Dict.mem d k); [reflexivity|].
  apply get_set_neq, H.
Qed.

Lemma legacy_type_result d :
  is_legacy_type (Dict.get_or (Tasks.migrate_legacy_type d) "task_type" (JStr "")) = false.
Proof.
  unfold Tasks.migrate_legacy_type.
  destruct (is_str _ "VESSEL_DEPARTURE") eqn:E1.
  { unfold Dict.get_or. rewrite get_set_eq. reflexivity. }
  destruct (is_str _ "VESSEL_ARRIVAL") eqn:E2.
  { unfold Dict.get_or. rewrite get_set_eq. reflexivity. }
  destruct (is_str _ "IN_TRANSIT") eqn:E3.
  { unfold Dict.get_or. rewrite !get_setdefault_neq by discriminate.
    rewrite get_set_eq. reflexivity. }
  unfold is_legacy_type. rewrite E1, E2, E3. reflexivity.
Qed.

Lemma truthy_get_or d k :
  truthy (Dict.get_or d k JNull) = true -> exists v, Dict.get d k = Some v /\ truthy v = true.
Proof.
  unfold Dict.get_or. destruct (Dict.get d k); [eauto|discriminate].
Qed.

(** What each backfill step leaves behind, and when it changes nothing. *)

Lemma display_step ty d d' :
  Tasks.backfill_display_name d ty = Some d' ->
  display_done d' ty /\ agree_except ["display_name"] d d'.
Proof.
  unfold Tasks.backfill_display_name, bind, ret.
  destruct (truthy (Dict.get_or d "display_name" JNull)) eqn:E.
  - intros H; inversion H; subst. apply truthy_get_or in E. destruct E as [v [Hv Ht]].
    split; [exists v; auto | apply agree_except_refl].
  - destruct (Tasks.display_name_get ty) as [n|] eqn:En; [|discriminate].
    intros H; inversion H; subst. split.
    + exists n. rewrite get_set_eq. auto.
    + apply agree_except_set. simpl; auto.
Qed.

Lemma display_fixed ty d :
  display_done d ty -> Tasks.backfill_display_name d ty = Some d.
Proof.
  intros [v [Hv [Ht|Hn]]]; unfold Tasks.backfill_display_name, Dict.get_or, bind, ret;
    rewrite Hv.
  - rewrite Ht. reflexivity.
  - destruct (truthy v); [reflexivity|]. rewrite Hn, set_get_same by exact Hv. reflexivity.
Qed.

Lemma leg_step ty d d' :
  Tasks.backfill_leg_level d ty = Some d' ->
  leg_done d' ty /\ agree_except ["leg_level"] d d'.
Proof.
  unfold Tasks.backfill_leg_level, bind, ret.
  destruct (Tasks.leg_level_get ty) as [[l|]|] eqn:E; [| |discriminate];
    intros H; inversion H; subst.
  - split; [right; exists l; rewrite get_set_eq; auto|].
    apply agree_except_set; simpl; auto.
  - split; [left; exact E | apply agree_except_refl].
Qed.

Lemma leg_fixed ty d : leg_done d ty -> Tasks.backfill_leg_level d ty = Some d.
Proof.
  unfold Tasks.backfill_leg_level, bind, ret.
  intros [E|[l [E Hl]]]; rewrite E; [reflexivity|].
  rewrite set_get_same by exact Hl. reflexivity.
Qed.

Lemma default_mode_truthy ty m : Tasks.default_mode_get ty = Some m -> Py.str_truthy m = true.
Proof.
  unfold Tasks.default_mode_get, ret, raise.
  destruct (hashable ty); [|discriminate].
  destruct ty; try (intros H; inversion H; reflexivity).
  destruct (Tasks.slookup Tasks.DEFAULT_MODE s) as [m'|] eqn:E.
  - intros H; inversion H; subst. apply slookup_in in E. simpl in E.
    destruct E as [E|[E|[]]]; inversion E; reflexivity.
  - intros H; inversion H; reflexivity.
Qed.

Lemma mode_step ty d d' :
  Tasks.backfill_mode d ty = Some d' -> mode_done d' /\ agree_except ["mode"] d d'.
Proof.
  unfold Tasks.backfill_mode, bind, ret.
  destruct (truthy (Dict.get_or d "mode" JNull)) eqn:E.
  - intros H; inversion H; subst. apply truthy_get_or in E.
    split; [exact E | apply agree_except_refl].
  - destruct (Tasks.default_mode_get ty) as [m|] eqn:Em; [|discriminate].
    intros H; inversion H; subst. split.
    + exists (JStr m). rewrite get_set_eq. split; [reflexivity|].
      apply (default_mode_truthy ty), Em.
    + apply agree_except_set; simpl; auto.
Qed.

Lemma mode_fixed ty d : mode_done d -> Tasks.backfill_mode d ty = Some d.
Proof.
  intros [v [Hv Ht]]. unfold Tasks.backfill_mode, Dict.get_or. rewrite Hv, Ht. reflexivity.
Qed.

Lemma mem_set_same d k v : Dict.mem (Dict.set d k v) k = true.
Proof. unfold Dict.mem. rewrite get_set_eq. reflexivity. Qed.

Lemma mem_set_neq d k k' v : k <> k' -> Dict.mem (Dict.set d k v) k' = Dict.mem d k'.
Proof. intros H. unfold Dict.mem. rewrite get_set_neq by exact H. reflexivity. Qed.

Lemma fill_mem d k k' v :
  Dict.mem (if Dict.mem d k then d else Dict.set d k v) k' =
  if String.eqb k k' then true else Dict.mem d k'.
Proof.
  destruct (String.eqb_spec k k') as [->|Hne].
  - destruct (Dict.mem d k') eqn:E; [exact E | apply mem_set_same].
  - destruct (Dict.mem d k); [reflexivity|]. apply mem_set_neq, Hne.
Qed.

Lemma fill_agree ks d k v : In k ks ->
  agree_except ks d (if Dict.mem d k then d else Dict.set d k v).
Proof.
  intros H. destruct (Dict.mem d k); [apply agree_except_refl | apply agree_except_set, H].
Qed.

Lemma fill_get d k k' v : k <> k' ->
  Dict.get (if Dict.mem d k then d else Dict.set d k v) k' = Dict.get d k'.
Proof. intros H. destruct (Dict.mem d k); [reflexivity | apply get_set_neq, H]. Qed.

Lemma timing_step d :
  timing_done (Tasks.backfill_timing d) /\ agree_except TIMING_KEYS d (Tasks.backfill_timing d).
Proof.
  unfold Tasks.backfill_timing. split.
  - intros k Hk. rewrite !fill_mem.
    simpl in Hk. destruct Hk as [<-|[<-|[<-|[<-|[]]]]]; reflexivity.
  - intros k Hk.
    rewrite !fill_get by (intros E; apply Hk; rewrite <- E; simpl; tauto). reflexivity.
Qed.

Lemma timing_fixed d : timing_done d -> Tasks.backfill_timing d = d.
Proof.
  intros H. unfold Tasks.backfill_timing.
  rewrite (H "scheduled_start") by (simpl; tauto); cbv iota.
  rewrite (H "scheduled_end") by (simpl; tauto); cbv iota.
  rewrite (H "actual_start") by (simpl; tauto); cbv iota.
  rewrite (H "actual_end") by (simpl; tauto). reflexivity.
Qed.

Ltac not_in_keys := simpl; intuition discriminate.

Lemma migrate_task_on_read_fixed (t t' : dict) :
  Tasks.migrate_task_on_read t = Some t' -> Tasks.migrate_task_on_read t' = Some t'.
Proof.
  unfold Tasks.migrate_task_on_read at 1.
  set (t1 := Tasks.migrate_legacy_type t).
  set (ty := Dict.get_or t1 "task_type" (JStr "")).
  unfold bind at 1 2 3.
  destruct (Tasks.backfill_display_name t1 ty) as [t2|] eqn:E2; [|discriminate].
  destruct (Tasks.backfill_leg_level t2 ty) as [t3|] eqn:E3; [|discriminate].
  destruct (Tasks.backfill_mode t3 ty) as [t4|] eqn:E4; [|discriminate].
  unfold ret. intros H; inversion H; subst t'; clear H.
  apply display_step in E2. destruct E2 as [D2 A12].
  apply leg_step in E3. destruct E3 as [D3 A23].
  apply mode_step in E4. destruct E4 as [D4 A34].
  destruct (timing_step t4) as [D5 A45].
  set (t5 := Tasks.backfill_timing t4) in *.
  assert (Htt : Dict.get t5 "task_type" = Dict.get t1 "task_type").
  { rewrite A45, A34, A23, A12 by not_in_keys. reflexivity. }
  unfold Tasks.migrate_task_on_read.
  rewrite (legacy_type_fixed t5)
    by (unfold Dict.get_or; rewrite Htt; apply legacy_type_result).
  assert (Hty : Dict.get_or t5 "task_type" (JStr "") = ty).
  { unfold ty, Dict.get_or. rewrite Htt. reflexivity. }
  rewrite Hty.
  rewrite display_fixed.
  2:{ destruct D2 as [v [Hv Hd]]. exists v. split; [|exact Hd].
      rewrite A45, A34, A23 by not_in_keys. exact Hv. }
  unfold bind at 1. rewrite leg_fixed.
  2:{ destruct D3 as [D3|[l [Hl Hv]]]; [left; exact D3|right; exists l; split; [exact Hl|]].
      rewrite A45, A34 by not_in_keys. exact Hv. }
  unfold bind at 1. rewrite mode_fixed.
  2:{ destruct D4 as [v [Hv Ht]]. exists v. split; [|exact Ht].
      rewrite A45 by not_in_keys. exact Hv. }
  unfold bind, ret. rewrite timing_fixed by exact D5. reflexivity.
Qed.

(** Claim C10: [migrate_task_on_read] is idempotent.  Running it on its own
    result gives back that result (and when the first run raises, so does
    the composition): legacy task types are rewritten to types that are not
    legacy, and every backfilled field is written only when missing or
    falsy, so the second run finds nothing left to change. *)
Theorem migrate_task_on_read_idempotent (t : dict) :
  (t' <- Tasks.migrate_task_on_read t ;; Tasks.migrate_task_on_read t')
  = Tasks.migrate_task_on_read t.
Proof.
  destruct (Tasks.migrate_task_on_read t) as [t'|] eqn:E; simpl; [|reflexivity].
  apply migrate_task_on_read_fixed with (t := t), E.
Qed.

Example status_s1_jump_rejected :
  fst (Status.update_shipment_status "AF-000001"
        {| Status.rq_status := 4001; Status.rq_allow_jump := false; Status.rq_reverted := false |}
        "a@b" "u" "now"
        {| Status.st_q := Some {| Status.q_status := 2001; Status.q_data_version := 2;
              Status.q_incoterm_code := Some "FOB"; Status.q_incoterm := None;
              Status.q_transaction_type := Some "EXPORT"; Status.q_status_history := [];
              Status.q_last_status_updated := None; Status.q_updated := None |};
           Status.st_so := None; Status.st_wf := None |})
  = Status.Error "Invalid transition: next step is Booking Pending (3001), not 4001".
Proof. vm_compute. reflexivity. Qed.

(** ** Claim C1: off-path current status *)

(** Claim C1, counterexample: a CNF IMPORT shipment at 3002 (off Path B)
    moved back to 2001 without jump or revert is accepted, although 2001 is
    not later than 3002 in the union order. *)
Lemma off_path_claim_fails : ~ off_path_claim.
Proof.
  intros H.
  specialize (H "AF-000002" (plain_request 2001) "ops@example.com" "uid" "now"
                (cnf_import_store 3002) (cnf_import_q 3002) false 3002).
  assert (Hacc : Status.accepted (fst (Status.update_shipment_status "AF-000002"
            (plain_request 2001) "ops@example.com" "uid" "now" (cnf_import_store 3002))) = true)
    by (vm_compute; reflexivity).
  assert (Hiff : Status.accepted (fst (Status.update_shipment_status "AF-000002"
            (plain_request 2001) "ops@example.com" "uid" "now" (cnf_import_store 3002))) = true
          <-> Status.union_later 2001 3002 = true).
  { apply H; try reflexivity; try (cbn; unfold STATUS_COMPLETED, STATUS_CANCELLED; lia);
      try (vm_compute; intros [_ [E|E]]; discriminate). }
  rewrite Hiff in Hacc. vm_compute in Hacc. discriminate.
Qed.

(** Claim C1 (corrected): when the incoterm and transaction type are both set,
    allow_jump and reverted are false, the current status is off the path and
    is neither 5001 nor -1, and the target is not -1 nor (on Path B) 3001 or
    3002, the request is accepted whatever the target: no ordering check is
    made off the path (the forward check only runs without incoterm context). *)
Theorem off_path_request_accepted sid body email uid now st q is_v1 cur :
  Status.st_q st = Some q ->
  Status.resolve_current sid st q = Some (is_v1, cur) ->
  Py.str_truthy (Status.incoterm_of q) = true ->
  Py.str_truthy (Status.txn_type_of q) = true ->
  Status.rq_allow_jump body = false -> Status.rq_reverted body = false ->
  zmem cur (get_status_path_list (Status.incoterm_of q) (Status.txn_type_of q)) = false ->
  cur <> STATUS_COMPLETED -> cur <> STATUS_CANCELLED ->
  Status.rq_status body <> STATUS_CANCELLED ->
  ~ (get_status_path (Status.incoterm_of q) (Status.txn_type_of q) = PathB /\
     (Status.rq_status body = 3001 \/ Status.rq_status body = 3002)) ->
  Status.accepted (fst (Status.update_shipment_status sid body email uid now st)) = true.
Proof.
  intros Hq Hres Hi Ht Haj Hrv Hoff H5 H1 Hnew Hb.
  unfold Status.update_shipment_status. rewrite Hq, Hres.
  unfold Status.check_transition, Status.path_of, Status.path_list_of.
  rewrite Hi, Ht, Haj, Hrv. simpl.
  apply Z.eqb_neq in H5, H1. rewrite H5, H1. simpl.
  destruct (get_status_path _ _) eqn:Ep.
  - simpl. rewrite Hoff. reflexivity.
  - destruct (Z.eqb_spec (Status.rq_status body) STATUS_BOOKING_PENDING) as [E|E].
    { exfalso; apply Hb; split; [reflexivity|left; exact E]. }
    destruct (Z.eqb_spec (Status.rq_status body) STATUS_BOOKING_CONFIRMED) as [E'|E'].
    { exfalso; apply Hb; split; [reflexivity|right; exact E']. }
    simpl. rewrite Hoff. reflexivity.
Qed.

Lemma off_path_request_accepted_witness :
  Status.accepted (fst (Status.update_shipment_status "AF-000002" (plain_request 2001)
                          "ops@example.com" "uid" "now" (cnf_import_store 3002))) = true.
Proof.
  apply (off_path_request_accepted "AF-000002" (plain_request 2001) "ops@example.com" "uid" "now"
           (cnf_import_store 3002) (cnf_import_q 3002) false 3002);
    try reflexivity; try (cbn; unfold STATUS_COMPLETED, STATUS_CANCELLED; lia);
    try (vm_compute; intros [_ [E|E]]; discriminate).
Defined.

(** ** Claim C6: terminal protection and reversion *)

(** Claim C6, counterexample: on a V1 record (AFCQ-000003) whose resolved
    status is 5001, the reverted request to 1001 is rejected with "Cannot
    revert V1 record to pre-booking status". *)
Lemma terminal_claim_fails : ~ terminal_claim.
Proof.
  intros H.
  destruct (H "AFCQ-000003" 1001 false "ops@example.com" "uid" "now" v1_completed_store
              v1_completed_q true 5001) as [_ [st' [q' [Hupd _]]]]; try reflexivity.
  - left; reflexivity.
  - vm_compute in Hupd. discriminate.
Qed.

(** Claim C6 (corrected): on a shipment whose resolved current status is
    5001 or -1, a non-reverted request is rejected with "Cannot change
    status of a completed or cancelled shipment" and nothing is written.
    A reverted request is accepted unless it is a V1 record reverted below
    2001 or a Path B shipment sent to 3001/3002; when accepted, the new
    Quotation history entry, and the workflow entry when a workflow exists,
    carry reverted = true and reverted_from = the prior status. *)
Theorem terminal_revert_rules :
  forall sid new_status allow_jump email uid now st q is_v1 cur,
    Status.st_q st = Some q ->
    Status.resolve_current sid st q = Some (is_v1, cur) ->
    (cur = STATUS_COMPLETED \/ cur = STATUS_CANCELLED) ->
    Status.update_shipment_status sid (revert_request new_status allow_jump false)
      email uid now st
    = (Status.Error "Cannot change status of a completed or cancelled shipment", st)
    /\ (~ (is_v1 = true /\ new_status < Status.V1_REVERT_MIN_STATUS) ->
        ~ (Status.path_of q = PathB /\
           (new_status = STATUS_BOOKING_PENDING \/ new_status = STATUS_BOOKING_CONFIRMED)) ->
        exists st' q',
          Status.update_shipment_status sid (revert_request new_status allow_jump true)
            email uid now st = (Status.Ok new_status (Status.path_of q), st')
          /\ Status.st_q st' = Some q'
          /\ last_q_entry_reverted (Status.q_status_history q') cur
          /\ (forall wf', Status.st_wf st' = Some wf' ->
                last_wf_entry_reverted (Status.wf_status_history wf') cur)).
Proof.
  intros sid new_status allow_jump email uid now st q is_v1 cur Hq Hres Hcur.
  unfold Status.update_shipment_status. rewrite Hq, Hres.
  split.
  - unfold Status.check_transition; simpl.
    destruct Hcur as [-> | ->]; reflexivity.
  - intros Hv1 Hpb.
    assert (G2 : (true && is_v1 && (new_status <? Status.V1_REVERT_MIN_STATUS)) = false).
    { destruct is_v1; [|reflexivity]. simpl.
      apply Z.ltb_ge. destruct (Z.lt_ge_cases new_status Status.V1_REVERT_MIN_STATUS);
        [exfalso; apply Hv1; split; auto | assumption]. }
    assert (G3 : ((match Status.path_of q with PathB => true | PathA => false end)
                  && (Z.eqb new_status STATUS_BOOKING_PENDING
                      || Z.eqb new_status STATUS_BOOKING_CONFIRMED)) = false).
    { destruct (Status.path_of q) eqn:Ep; [reflexivity|]. simpl.
      destruct (new_status =? STATUS_BOOKING_PENDING) eqn:E1;
        [apply Z.eqb_eq in E1; exfalso; apply Hpb; split; auto|].
      destruct (new_status =? STATUS_BOOKING_CONFIRMED) eqn:E2;
        [apply Z.eqb_eq in E2; exfalso; apply Hpb; split; auto|].
      reflexivity. }
    assert (Hc : Status.check_transition q is_v1 cur (revert_request new_status allow_jump true)
                 = None).
    { unfold Status.check_transition; simpl Status.rq_reverted; simpl Status.rq_status.
      simpl negb. rewrite andb_false_l, G2, G3, andb_false_r. reflexivity. }
    rewrite Hc. eexists; eexists. split; [reflexivity|]. split; [reflexivity|].
    split.
    + unfold last_q_entry_reverted; simpl. eauto.
    + intros wf' Hwf. unfold Status.write_status in Hwf; simpl in Hwf.
      destruct (Status.st_wf st) as [wf|]; [|discriminate].
      injection Hwf as <-. unfold last_wf_entry_reverted; simpl. eauto.
Qed.

Lemma terminal_revert_rules_witness :
  Status.update_shipment_status "AF-000005" (revert_request 4002 false false)
    "ops@example.com" "uid" "now" (fob_export_store 5001)
  = (Status.Error "Cannot change status of a completed or cancelled shipment",
     fob_export_store 5001)
  /\ exists st' q',
       Status.update_shipment_status "AF-000005" (revert_request 4002 false true)
         "ops@example.com" "uid" "now" (fob_export_store 5001)
       = (Status.Ok 4002 PathA, st')
       /\ Status.st_q st' = Some q'
       /\ last_q_entry_reverted (Status.q_status_history q') 5001.
Proof.
  destruct (terminal_revert_rules "AF-000005" 4002 false "ops@example.com" "uid" "now"
              (fob_export_store 5001) (fob_export_q 5001) false 5001)
    as [Hrej Hacc]; [reflexivity | reflexivity | left; reflexivity |].
  split; [exact Hrej|].
  destruct Hacc as [st' [q' [Hu [Hq' [Hl _]]]]].
  - intros [Hf _]; discriminate Hf.
  - vm_compute; intros [Hp _]; discriminate Hp.
  - exists st', q'. split; [exact Hu|]. split; assumption.
Defined.

(** ** Claim C3: tab aggregation *)

(** Claim C3, counterexample: a migrated ShipmentOrder record (data_version 2)
    with status 2001 is matched by the "active" tab and not by "completed" in
    [_migrated_tab_match], and is counted under "active" by the stats
    endpoint, while the spec's formula puts it under completed. *)
Lemma migrated_confirmed_is_active :
  Tabs.migrated_tab_match "active" [("status", JNum 2001)] = true
  /\ Tabs.migrated_tab_match "completed" [("status", JNum 2001)] = false
  /\ Tabs.stats_bucket [("status", JNum 2001)] = Tabs.BActive
  /\ Tabs.spec_active 2001 true = false
  /\ Tabs.spec_completed 2001 true = true.
Proof. vm_compute. repeat split. Qed.

Ltac tab_case :=
  vm_compute; repeat split; intros;
  repeat match goal with
         | m : bool |- _ => destruct m
         | H : ?x <> ?x |- _ => exfalso; exact (H eq_refl)
         end;
  try reflexivity; try discriminate; try congruence.

(** Claim C3 (corrected): in the Datastore views of routers/shipments.py, a
    V2 Quotation record and a migrated ShipmentOrder record are both matched
    by the "active" tab and counted as active exactly when the status is in
    {2001, 3001, 3002, 4001, 4002}, and by "completed" exactly when it is
    5001. This is the spec's formula for a non-migrated record, and for a
    migrated one at every status other than 2001. The spec's formula holds
    exactly for the SQL filters of core/db_queries.py. *)
Theorem tab_aggregation_rules (e : dict) (s : Z) :
  Tabs.ent_status e = JNum s ->
  let act := zmem s V2_ACTIVE_STATUSES in
  let comp := Z.eqb s STATUS_COMPLETED in
  Tabs.v2_tab_match "active" e = act /\ Tabs.migrated_tab_match "active" e = act
  /\ Tabs.v2_tab_match "completed" e = comp /\ Tabs.migrated_tab_match "completed" e = comp
  /\ (Tabs.stats_bucket e = Tabs.BActive <-> act = true)
  /\ (Tabs.stats_bucket e = Tabs.BCompleted <-> comp = true)
  /\ act = Tabs.spec_active s false /\ comp = Tabs.spec_completed s false
  /\ (s <> 2001 -> act = Tabs.spec_active s true /\ comp = Tabs.spec_completed s true)
  /\ (forall m i, Tabs.sql_tab_where "active" s m i = Tabs.spec_active s m
                  /\ Tabs.sql_tab_where "completed" s m i = Tabs.spec_completed s m).
Proof.
  intros H act comp. subst act comp.
  unfold Tabs.v2_tab_match, Tabs.migrated_tab_match, Tabs.stats_bucket. rewrite H.
  destruct (Z.eqb_spec s 2001) as [->|n1]; [tab_case|].
  destruct (Z.eqb_spec s 3001) as [->|n2]; [tab_case|].
  destruct (Z.eqb_spec s 3002) as [->|n3]; [tab_case|].
  destruct (Z.eqb_spec s 4001) as [->|n4]; [tab_case|].
  destruct (Z.eqb_spec s 4002) as [->|n5]; [tab_case|].
  destruct (Z.eqb_spec s 5001) as [->|n6]; [tab_case|].
  apply Z.eqb_neq in n1, n2, n3, n4, n5, n6.
  unfold Tabs.jin, Tabs.spec_active, Tabs.spec_completed, Tabs.sql_tab_where,
    zmem, V2_ACTIVE_STATUSES, STATUS_COMPLETED, STATUS_CONFIRMED, STATUS_BOOKING_PENDING,
    STATUS_BOOKING_CONFIRMED, STATUS_DEPARTED, STATUS_ARRIVED; simpl.
  rewrite n1, n2, n3, n4, n5, n6; simpl.
  repeat split; intros; try reflexivity; try discriminate;
    match goal with Hb : _ = _ |- _ => revert Hb end;
    repeat match goal with |- context [if ?b then _ else _] => destruct b end;
    intros; discriminate.
Qed.

Lemma tab_aggregation_rules_witness :
  Tabs.ent_status [("status", JNum 3002); ("issued_invoice", JBool false)] = JNum 3002
  /\ Tabs.migrated_tab_match "active" [("status", JNum 3002); ("issued_invoice", JBool false)]
     = zmem 3002 V2_ACTIVE_STATUSES.
Proof.
  split; [reflexivity|].
  exact (proj1 (proj2 (tab_aggregation_rules
                         [("status", JNum 3002); ("issued_invoice", JBool false)] 3002
                         eq_refl))).
Defined.

(** ** Task updates *)

Lemma set_opt_agree ks d k o : In k ks -> agree_except ks d (TaskUpdate.set_opt d k o).
Proof.
  intros Hk. destruct o; simpl; [apply agree_except_set; exact Hk | apply agree_except_refl].
Qed.

Ltac agree_chain :=
  repeat first
    [ apply agree_except_refl
    | eapply agree_except_trans; [| apply agree_except_set; simpl; tauto]
    | eapply agree_except_trans; [| apply set_opt_agree; simpl; tauto] ].

Lemma apply_status_agree body now t t' :
  TaskUpdate.apply_status body now t = inr t' -> agree_except STATUS_KEYS t t'.
Proof.
  unfold TaskUpdate.apply_status. destruct (TaskUpdate.b_status body) as [st|].
  - destruct (_ && _); [discriminate|].
    intros H; injection H as <-.
    repeat match goal with |- context [if ?b then _ else _] => destruct b end;
      agree_chain.
  - intros H; injection H as <-. apply agree_except_refl.
Qed.

Lemma apply_fields_agree body t :
  TaskUpdate.b_visibility body = None -> agree_except FIELD_KEYS t (TaskUpdate.apply_fields body t).
Proof.
  intros Hv. unfold TaskUpdate.apply_fields. rewrite Hv.
  destruct (TaskUpdate.b_actual_end body), (TaskUpdate.b_due_date body);
    try destruct (TaskUpdate.b_due_date_override body); cbn [TaskUpdate.set_opt];
    agree_chain.
Qed.

Lemma nth_replace_nth {A} (l : list A) i x y :
  nth_error l i = Some y -> nth_error (TaskUpdate.replace_nth l i x) i = Some x.
Proof.
  revert i; induction l as [|a l IH]; intros [|i] H; simpl in *; try discriminate; auto.
Qed.

Lemma nth_replace_nth_neq {A} (l : list A) i j x :
  i <> j -> nth_error (TaskUpdate.replace_nth l i x) j = nth_error l j.
Proof.
  revert i j; induction l as [|a l IH]; intros [|i] [|j] H; simpl; auto; congruence.
Qed.

(** What [unblock] does to each task of the list. *)
Lemma unblock_nth l uid now l' :
  TaskUpdate.unblock l uid now = Some l' ->
  forall j t, nth_error l j = Some (JObj t) ->
  exists t', nth_error l' j = Some (JObj t') /\ agree_except UNBLOCK_KEYS t t'
    /\ (is_str (Dict.get_or t "task_type" JNull) Tasks.EXPORT_CLEARANCE
        && is_str (Dict.get_or t "status" JNull) Tasks.BLOCKED = true ->
        Dict.get t' "status" = Some (JStr Tasks.PENDING))
    /\ (is_str (Dict.get_or t "task_type" JNull) Tasks.EXPORT_CLEARANCE
        && is_str (Dict.get_or t "status" JNull) Tasks.BLOCKED = false -> t' = t).
Proof.
  revert l'; induction l as [|a l IH]; intros l' H j t Hj; [destruct j; discriminate|].
  destruct a; try discriminate. simpl in H.
  destruct (TaskUpdate.unblock l uid now) as [r'|] eqn:Hr; [|discriminate].
  simpl in H. injection H as <-.
  destruct j as [|j]; simpl in Hj |- *.
  - injection Hj as <-.
    destruct (_ && _) eqn:Hc.
    + eexists; split; [reflexivity|]. split; [|split].
      * agree_chain.
      * intros _. rewrite get_set_neq by discriminate.
        rewrite get_set_neq by discriminate. apply get_set_eq.
      * discriminate.
    + eexists; split; [reflexivity|]. split; [apply agree_except_refl|].
      split; [discriminate | reflexivity].
  - exact (IH r' eq_refl j t Hj).
Qed.

Lemma written_tasks_set wfe ts now :
  TaskUpdate.written_tasks
    (Dict.set (Dict.set wfe "workflow_tasks" (JList ts)) "updated" (JStr now)) = ts.
Proof.
  unfold TaskUpdate.written_tasks. rewrite get_set_neq by discriminate.
  rewrite get_set_eq. reflexivity.
Qed.

(** The shape of a successful task update. *)
Lemma update_task_ok sid tid body cl now wfe q resp wf' task0 :
  TaskUpdate.stored_target wfe tid = Some task0 ->
  TaskUpdate.update_shipment_task sid tid body cl now (Some wfe) q = inr (resp, wf') ->
  exists i tasks task2,
    TaskUpdate.workflow_tasks wfe = Some tasks /\ nth_error tasks i = Some (JObj task0)
    /\ TaskUpdate.apply_status body now (TaskUpdate.apply_mode body task0) = inr task2
    /\ let task := TaskUpdate.final_task body cl now task2 in
       let tasks1 := TaskUpdate.replace_nth tasks i (JObj task) in
       let fb := TaskUpdate.opt_is (TaskUpdate.b_status body) Tasks.COMPLETED
                 && is_str (Dict.get_or task "task_type" JNull) Tasks.FREIGHT_BOOKING in
       (fb = false -> TaskUpdate.response_task resp = Some task
                      /\ TaskUpdate.written_tasks wf' = tasks1 /\ Dict.get resp "warning" = None)
       /\ (fb = true -> truthy (TaskUpdate.booking_ref q) = false ->
           TaskUpdate.response_task resp = Some task /\ TaskUpdate.written_tasks wf' = tasks1
           /\ Dict.get resp "warning" = Some (JStr TaskUpdate.BOOKING_WARNING))
       /\ (fb = true -> truthy (TaskUpdate.booking_ref q) = true ->
           exists tasks2, TaskUpdate.unblock tasks1 (TaskUpdate.cl_uid cl) now = Some tasks2
           /\ TaskUpdate.written_tasks wf' = tasks2 /\ Dict.get resp "warning" = None
           /\ exists t, TaskUpdate.response_task resp = Some t
                        /\ nth_error tasks2 i = Some (JObj t)
                        /\ agree_except UNBLOCK_KEYS task t).
Proof.
  intros Hst Hup. unfold TaskUpdate.stored_target in Hst.
  destruct (TaskUpdate.workflow_tasks wfe) as [tasks|] eqn:Hw; [|discriminate].
  destruct (TaskUpdate.find_task tasks tid 0) as [[i|]|] eqn:Hf; try discriminate.
  destruct (nth_error tasks i) as [[]|] eqn:Hn; try discriminate.
  injection Hst as <-.
  unfold TaskUpdate.update_shipment_task in Hup.
  destruct (TaskUpdate.check_request cl body) as [[c d]|]; [discriminate|].
  rewrite Hw in Hup. cbn [TaskUpdate.lift TaskUpdate.tbind] in Hup.
  rewrite Hf in Hup. cbn [TaskUpdate.lift TaskUpdate.tbind] in Hup.
  rewrite Hn in Hup.
  destruct (TaskUpdate.apply_status body now (TaskUpdate.apply_mode body fields))
    as [e|task2] eqn:Has; cbn [TaskUpdate.tbind] in Hup; [discriminate|].
  exists i, tasks, task2. split; [reflexivity|]. split; [exact Hn|]. split; [reflexivity|].
  fold (TaskUpdate.final_task body cl now task2) in Hup.
  set (task := TaskUpdate.final_task body cl now task2) in *.
  assert (Hn1 : nth_error (TaskUpdate.replace_nth tasks i (JObj task)) i = Some (JObj task))
    by (eapply nth_replace_nth; exact Hn).
  cbv zeta. split; [|split].
  - intros Hfb. rewrite Hfb in Hup. cbn [TaskUpdate.tbind TaskUpdate.tret] in Hup.
    rewrite Hn1 in Hup. injection Hup as <- <-.
    split; [reflexivity|]. split; [apply written_tasks_set|].
    reflexivity.
  - intros Hfb Hb. rewrite Hfb, Hb in Hup. cbn [TaskUpdate.tbind TaskUpdate.tret] in Hup.
    rewrite Hn1 in Hup. injection Hup as <- <-.
    split; [reflexivity|]. split; [apply written_tasks_set|].
    reflexivity.
  - intros Hfb Hb. rewrite Hfb, Hb in Hup.
    destruct (TaskUpdate.unblock (TaskUpdate.replace_nth tasks i (JObj task))
                (TaskUpdate.cl_uid cl) now) as [ts|] eqn:Hu;
      cbn [TaskUpdate.lift TaskUpdate.tbind TaskUpdate.tret] in Hup; [|discriminate].
    destruct (unblock_nth _ _ _ _ Hu i task Hn1) as [t [Ht [Hag _]]].
    rewrite Ht in Hup. injection Hup as <- <-.
    exists ts. split; [reflexivity|]. split; [apply written_tasks_set|].
    split; [reflexivity|].
    exists t. split; [reflexivity|]. split; assumption.
Qed.

Lemma final_task_agree body cl now task2 :
  TaskUpdate.b_visibility body = None ->
  agree_except (FIELD_KEYS ++ ["updated_by"; "updated_at"]) task2
               (TaskUpdate.final_task body cl now task2).
Proof.
  intros Hv. unfold TaskUpdate.final_task.
  eapply agree_except_trans; [|apply agree_except_set; simpl; tauto].
  eapply agree_except_trans; [|apply agree_except_set; simpl; tauto].
  eapply agree_except_weaken; [|apply apply_fields_agree, Hv].
  intros k Hk. apply in_or_app. left. exact Hk.
Qed.

Lemma apply_mode_not_ignored body t m :
  TaskUpdate.b_mode body = Some m -> m <> Tasks.IGNORED ->
  TaskUpdate.apply_mode body t = Dict.set t "mode" (JStr m).
Proof.
  intros Hm Hne. unfold TaskUpdate.apply_mode. rewrite Hm.
  assert (E : String.eqb m Tasks.IGNORED = false) by (apply String.eqb_neq; exact Hne).
  rewrite E. unfold Dict.get_or. rewrite get_set_eq. simpl. rewrite E. reflexivity.
Qed.

Lemma opt_is_none s : TaskUpdate.opt_is None s = false.
Proof. reflexivity. Qed.

(** ** Claim C4: mode changes in task updates *)

(** Claim C4 (code_bug): in [update_shipment_task] the mode is written
    before the "coming out of IGNORED" test reads it back, so that branch
    never runs.  For every successful call whose patch sets a mode other than
    IGNORED and no visibility, the returned task keeps the visibility it had
    before the call, also when its stored mode was IGNORED.  A patch that
    sets mode = IGNORED and neither status nor visibility returns the task
    with visibility HIDDEN and status PENDING. *)
Theorem update_task_mode_rules sid tid body cl now wfe q resp wf' task0 :
  TaskUpdate.stored_target wfe tid = Some task0 ->
  TaskUpdate.b_visibility body = None ->
  TaskUpdate.update_shipment_task sid tid body cl now (Some wfe) q = inr (resp, wf') ->
  (forall m, TaskUpdate.b_mode body = Some m -> m <> Tasks.IGNORED ->
     exists t, TaskUpdate.response_task resp = Some t
               /\ Dict.get t "visibility" = Dict.get task0 "visibility")
  /\ (TaskUpdate.b_mode body = Some Tasks.IGNORED -> TaskUpdate.b_status body = None ->
      exists t, TaskUpdate.response_task resp = Some t
                /\ Dict.get t "visibility" = Some (JStr "HIDDEN")
                /\ Dict.get t "status" = Some (JStr Tasks.PENDING)).
Proof.
  intros Hst Hv Hup.
  destruct (update_task_ok _ _ _ _ _ _ _ _ _ _ Hst Hup)
    as [i [tasks [task2 [Hw [Hn [Has [Hnf [Hnb Hb]]]]]]]].
  pose proof (final_task_agree body cl now task2 Hv) as Hfin.
  split.
  - intros m Hm Hne.
    rewrite (apply_mode_not_ignored _ _ _ Hm Hne) in Has.
    pose proof (apply_status_agree _ _ _ _ Has) as Hsa.
    assert (Hvis : Dict.get (TaskUpdate.final_task body cl now task2) "visibility"
                   = Dict.get task0 "visibility").
    { rewrite (agree_except_get _ _ _ _ Hfin) by (simpl; intuition discriminate).
      rewrite (agree_except_get _ _ _ _ Hsa) by (simpl; intuition discriminate).
      apply get_set_neq. discriminate. }
    destruct (TaskUpdate.opt_is (TaskUpdate.b_status body) Tasks.COMPLETED
              && is_str (Dict.get_or (TaskUpdate.final_task body cl now task2) "task_type" JNull)
                   Tasks.FREIGHT_BOOKING) eqn:Hfb.
    + destruct (truthy (TaskUpdate.booking_ref q)) eqn:Hq.
      * destruct (Hb eq_refl eq_refl) as [ts [_ [_ [_ [t [Ht [_ Hag]]]]]]].
        exists t. split; [exact Ht|].
        rewrite (agree_except_get _ _ _ _ Hag) by (simpl; intuition discriminate).
        exact Hvis.
      * destruct (Hnb eq_refl eq_refl) as [Ht _]. eexists; split; [exact Ht | exact Hvis].
    + destruct (Hnf eq_refl) as [Ht _]. eexists; split; [exact Ht | exact Hvis].
  - intros Hm Hs.
    assert (Hfb : TaskUpdate.opt_is (TaskUpdate.b_status body) Tasks.COMPLETED
                  && is_str (Dict.get_or (TaskUpdate.final_task body cl now task2) "task_type" JNull)
                       Tasks.FREIGHT_BOOKING = false) by (rewrite Hs; reflexivity).
    destruct (Hnf Hfb) as [Ht _].
    assert (Hm1 : TaskUpdate.apply_mode body task0
                  = Dict.set (Dict.set (Dict.set task0 "mode" (JStr Tasks.IGNORED))
                                       "visibility" (JStr "HIDDEN")) "status" (JStr Tasks.PENDING))
      by (unfold TaskUpdate.apply_mode; rewrite Hm; reflexivity).
    unfold TaskUpdate.apply_status in Has. rewrite Hs in Has. injection Has as <-.
    eexists; split; [exact Ht|]. split.
    + rewrite (agree_except_get _ _ _ _ Hfin) by (simpl; intuition discriminate).
      rewrite Hm1, get_set_neq by discriminate. apply get_set_eq.
    + rewrite (agree_except_get _ _ _ _ Hfin) by (simpl; intuition discriminate).
      rewrite Hm1. apply get_set_eq.
Qed.

Lemma update_task_mode_rules_witness :
  exists resp wf',
    TaskUpdate.update_shipment_task "AF-000001" "t1" (patch None (Some Tasks.ASSIGNED))
      afu_claims "now" (Some (one_task_wf ignored_task)) None = inr (resp, wf')
    /\ exists t, TaskUpdate.response_task resp = Some t
                 /\ Dict.get t "visibility" = Some (JStr "HIDDEN").
Proof.
  destruct (TaskUpdate.update_shipment_task "AF-000001" "t1" (patch None (Some Tasks.ASSIGNED))
              afu_claims "now" (Some (one_task_wf ignored_task)) None)
    as [e|[resp wf']] eqn:E; [vm_compute in E; discriminate|].
  exists resp, wf'. split; [reflexivity|].
  destruct (proj1 (update_task_mode_rules "AF-000001" "t1" (patch None (Some Tasks.ASSIGNED))
                     afu_claims "now" (one_task_wf ignored_task) None resp wf' ignored_task
                     eq_refl eq_refl E) Tasks.ASSIGNED eq_refl
                  ltac:(unfold Tasks.ASSIGNED, Tasks.IGNORED; discriminate)) as [t [Ht Hv]].
  exists t. split; [exact Ht|]. rewrite Hv. reflexivity.
Defined.

Lemma apply_mode_agree body t :
  agree_except ["mode"; "visibility"; "status"] t (TaskUpdate.apply_mode body t).
Proof.
  unfold TaskUpdate.apply_mode. destruct (TaskUpdate.b_mode body) as [m|]; [|apply agree_except_refl].
  repeat match goal with |- context [if ?b then _ else _] => destruct b end; agree_chain.
Qed.

Lemma apply_fields_agree_any body t :
  agree_except ("visibility" :: FIELD_KEYS) t (TaskUpdate.apply_fields body t).
Proof.
  unfold TaskUpdate.apply_fields.
  destruct (TaskUpdate.b_actual_end body), (TaskUpdate.b_due_date body);
    try destruct (TaskUpdate.b_due_date_override body); agree_chain.
Qed.

Lemma replace_nth_length {A} (l : list A) i x :
  length (TaskUpdate.replace_nth l i x) = length l.
Proof. revert i; induction l; intros [|i]; simpl; auto. Qed.

Lemma unblock_length l uid now l' :
  TaskUpdate.unblock l uid now = Some l' -> length l' = length l.
Proof.
  revert l'; induction l as [|a l IH]; intros l' H; simpl in H.
  - injection H as <-; reflexivity.
  - destruct a; try discriminate.
    destruct (TaskUpdate.unblock l uid now) as [r|] eqn:Hr; [|discriminate].
    simpl in H. injection H as <-. simpl. f_equal. apply IH; reflexivity.
Qed.

Lemma is_str_distinct v a b : a <> b -> is_str v a = true -> is_str v b = true -> False.
Proof.
  destruct v; simpl; try discriminate.
  intros Hne Ha Hb. apply String.eqb_eq in Ha, Hb. congruence.
Qed.

(** ** Claim C7: unblocking export clearance *)

(** Claim C7, counterexample: completing the freight booking of a shipment
    whose [booking.booking_reference] is empty but whose top-level
    [booking_reference] is "BK1" returns no warning and writes the blocked
    EXPORT_CLEARANCE task as PENDING. *)
Lemma top_level_booking_ref_unblocks :
  Dict.get (get_subdict top_level_ref_q "booking") "booking_reference" = Some (JStr "")
  /\ exists resp wf' t,
       TaskUpdate.update_shipment_task "AF-000002" "t1" (patch (Some Tasks.COMPLETED) None)
         afu_claims "now" (Some booking_wf) (Some top_level_ref_q) = inr (resp, wf')
       /\ Dict.get resp "warning" = None
       /\ nth_error (TaskUpdate.written_tasks wf') 1 = Some (JObj t)
       /\ Dict.get t "status" = Some (JStr Tasks.PENDING).
Proof.
  split; [reflexivity|].
  do 3 eexists. split; [cbv; reflexivity|].
  split; [cbv; reflexivity|]. split; cbv; reflexivity.
Qed.

(** Claim C7 (corrected): when a successful [update_task] call sets a
    FREIGHT_BOOKING task's status to COMPLETED, the reference consulted is
    [booking.booking_reference], or the Quotation's top-level
    [booking_reference] when the former is empty ([booking_ref]).  When it is
    non-empty, no warning is returned and every EXPORT_CLEARANCE task of the
    workflow whose status was BLOCKED is written as PENDING in the same
    write; when it is empty, the response carries the warning and every
    EXPORT_CLEARANCE task is written back unchanged.  No task is dropped. *)
Theorem booking_completion_unblocks sid tid body cl now wfe q resp wf' task0 :
  TaskUpdate.stored_target wfe tid = Some task0 ->
  TaskUpdate.b_status body = Some Tasks.COMPLETED ->
  is_str (Dict.get_or task0 "task_type" JNull) Tasks.FREIGHT_BOOKING = true ->
  TaskUpdate.update_shipment_task sid tid body cl now (Some wfe) q = inr (resp, wf') ->
  exists tasks,
    TaskUpdate.workflow_tasks wfe = Some tasks
    /\ length (TaskUpdate.written_tasks wf') = length tasks
    /\ (truthy (TaskUpdate.booking_ref q) = true ->
        Dict.get resp "warning" = None
        /\ forall j t, nth_error tasks j = Some (JObj t) ->
           is_str (Dict.get_or t "task_type" JNull) Tasks.EXPORT_CLEARANCE = true ->
           is_str (Dict.get_or t "status" JNull) Tasks.BLOCKED = true ->
           exists t', nth_error (TaskUpdate.written_tasks wf') j = Some (JObj t')
                      /\ Dict.get t' "status" = Some (JStr Tasks.PENDING))
    /\ (truthy (TaskUpdate.booking_ref q) = false ->
        Dict.get resp "warning" = Some (JStr TaskUpdate.BOOKING_WARNING)
        /\ forall j t, nth_error tasks j = Some (JObj t) ->
           is_str (Dict.get_or t "task_type" JNull) Tasks.EXPORT_CLEARANCE = true ->
           nth_error (TaskUpdate.written_tasks wf') j = Some (JObj t)).
Proof.
  intros Hst Hs Hty Hup.
  destruct (update_task_ok _ _ _ _ _ _ _ _ _ _ Hst Hup)
    as [i [tasks [task2 [Hw [Hn [Has [_ [Hnb Hb]]]]]]]].
  set (task := TaskUpdate.final_task body cl now task2) in *.
  assert (Hty' : Dict.get_or task "task_type" JNull = Dict.get_or task0 "task_type" JNull).
  { assert (Hag : agree_except (["mode"; "visibility"; "status"] ++ STATUS_KEYS
                                ++ ("visibility" :: FIELD_KEYS) ++ ["updated_by"; "updated_at"])
                               task0 task).
    { eapply agree_except_trans.
      { eapply agree_except_weaken; [|apply apply_mode_agree].
        intros k Hk; apply in_or_app; left; exact Hk. }
      eapply agree_except_trans.
      { eapply agree_except_weaken; [|exact (apply_status_agree _ _ _ _ Has)].
        intros k Hk; apply in_or_app; right; apply in_or_app; left; exact Hk. }
      unfold task, TaskUpdate.final_task.
      eapply agree_except_trans; [|apply agree_except_set; simpl; tauto].
      eapply agree_except_trans; [|apply agree_except_set; simpl; tauto].
      eapply agree_except_weaken; [|apply apply_fields_agree_any].
      intros k Hk; apply in_or_app; right; apply in_or_app; right; apply in_or_app; left;
        exact Hk. }
    unfold Dict.get_or.
    rewrite (agree_except_get _ _ _ "task_type" Hag) by (simpl; intuition discriminate).
    reflexivity. }
  assert (Hfb : TaskUpdate.opt_is (TaskUpdate.b_status body) Tasks.COMPLETED
                && is_str (Dict.get_or task "task_type" JNull) Tasks.FREIGHT_BOOKING = true)
    by (rewrite Hs, Hty'; simpl; rewrite Hty; reflexivity).
  (* the target itself is not an export clearance *)
  assert (Hnot : forall j t, nth_error tasks j = Some (JObj t) ->
                 is_str (Dict.get_or t "task_type" JNull) Tasks.EXPORT_CLEARANCE = true ->
                 j <> i).
  { intros j t Hj Hec ->. rewrite Hn in Hj. injection Hj as <-.
    eapply is_str_distinct; [|exact Hec|exact Hty].
    unfold Tasks.EXPORT_CLEARANCE, Tasks.FREIGHT_BOOKING; discriminate. }
  exists tasks. split; [exact Hw|].
  destruct (truthy (TaskUpdate.booking_ref q)) eqn:Hq.
  - destruct (Hb Hfb eq_refl) as [ts [Hu [Hwt [Hwarn _]]]].
    split.
    { rewrite Hwt, (unblock_length _ _ _ _ Hu). apply replace_nth_length. }
    split; [|discriminate].
    intros _. split; [exact Hwarn|].
    intros j t Hj Hec Hbl.
    assert (Hj1 : nth_error (TaskUpdate.replace_nth tasks i (JObj task)) j = Some (JObj t))
      by (rewrite nth_replace_nth_neq; [exact Hj | apply not_eq_sym, (Hnot j t Hj Hec)]).
    destruct (unblock_nth _ _ _ _ Hu j t Hj1) as [t' [Ht' [_ [Hp _]]]].
    exists t'. rewrite Hwt. split; [exact Ht'|]. apply Hp. rewrite Hec, Hbl. reflexivity.
  - destruct (Hnb Hfb eq_refl) as [_ [Hwt Hwarn]].
    split; [rewrite Hwt; apply replace_nth_length|].
    split; [discriminate|].
    intros _. split; [exact Hwarn|].
    intros j t Hj Hec. rewrite Hwt, nth_replace_nth_neq; [exact Hj|].
    apply not_eq_sym, (Hnot j t Hj Hec).
Qed.

Lemma booking_completion_unblocks_witness :
  exists resp wf',
    TaskUpdate.update_shipment_task "AF-000002" "t1" (patch (Some Tasks.COMPLETED) None)
      afu_claims "now" (Some booking_wf) (Some top_level_ref_q) = inr (resp, wf')
    /\ exists t', nth_error (TaskUpdate.written_tasks wf') 1 = Some (JObj t')
                  /\ Dict.get t' "status" = Some (JStr Tasks.PENDING).
Proof.
  destruct (TaskUpdate.update_shipment_task "AF-000002" "t1" (patch (Some Tasks.COMPLETED) None)
              afu_claims "now" (Some booking_wf) (Some top_level_ref_q))
    as [e|[resp wf']] eqn:E; [vm_compute in E; discriminate|].
  exists resp, wf'. split; [reflexivity|].
  destruct (booking_completion_unblocks "AF-000002" "t1" (patch (Some Tasks.COMPLETED) None)
              afu_claims "now" booking_wf (Some top_level_ref_q) resp wf'
              [("task_id", JStr "t1"); ("task_type", JStr Tasks.FREIGHT_BOOKING);
               ("mode", JStr Tasks.ASSIGNED); ("status", JStr Tasks.IN_PROGRESS)]
              eq_refl eq_refl eq_refl E) as [tasks [Hw [_ [Hyes _]]]].
  vm_compute in Hw. injection Hw as <-.
  destruct (Hyes eq_refl) as [_ H].
  exact (H 1%nat _ eq_refl eq_refl eq_refl).
Defined.

(** ** Claim C5: company matching *)

Example normalise_ex : Match.normalise "  ACME, Logistics  Sdn. Bhd. " = "acme logistics sdn bhd".
Proof. reflexivity. Qed.

Example score_overlap_ex :
  Qeq (Match.score "acme global logistics" ["acme"; "global"; "logistics"] "acme logistics pte")
      ((1 # 2) + (2 # 3) * (3 # 10)).
Proof. reflexivity. Qed.

Lemma scan_mark_trashed nn nw cs :
  Match.scan nn nw (map Match.mark_trashed cs) = Match.scan nn nw cs.
Proof.
  induction cs as [|c cs IH]; [reflexivity|].
  simpl. unfold Dict.get_or. rewrite get_set_neq by discriminate.
  rewrite IH. reflexivity.
Qed.

(** Claim C5 (code_bug): [_match_company] queries every Company entity
    without a trash filter, so its result is the same whether or not the
    candidate companies are trashed, and a trashed company named
    "Acme Logistics" is returned for the consignee "Acme Logistics". *)
Theorem match_company_ignores_trash :
  (forall name cs,
     Match.match_company name (map Match.mark_trashed cs) = Match.match_company name cs)
  /\ option_map (map (fun m => (Match.m_company_id m, Match.m_name m, Match.m_score m)))
       (Match.match_company "Acme Logistics"
          [{| Match.co_key := "AFC-0001";
              Match.co_entity := [("name", JStr "Acme Logistics"); ("trash", JBool true)] |}])
     = Some [("AFC-0001", "Acme Logistics", 100 # 100)].
Proof.
  split.
  - intros name cs. unfold Match.match_company. rewrite scan_mark_trashed. reflexivity.
  - vm_compute. reflexivity.
Qed.

(** ** Claim C9: the BL party merge *)

Lemma write_if_fixed p k o : fixed_field (BL.write_if false p k o) k o.
Proof.
  destruct o as [v|]; simpl; [|exact I].
  destruct (truthy (Dict.get_or p k JNull)) eqn:E; simpl.
  - left; exact E.
  - right; apply get_set_eq.
Qed.

Lemma fixed_write_if p k o : fixed_field p k o -> BL.write_if false p k o = p.
Proof.
  destruct o as [v|]; simpl; [|reflexivity].
  intros [H | H].
  - rewrite H. reflexivity.
  - unfold Dict.get_or. rewrite H. destruct (truthy (JStr v)); simpl; [reflexivity|].
    apply set_get_same, H.
Qed.

Lemma fixed_field_set p k o k' v : k <> k' -> fixed_field p k o -> fixed_field (Dict.set p k' v) k o.
Proof.
  intros Hne. destruct o; simpl; [|auto].
  unfold Dict.get_or. rewrite get_set_neq by congruence. auto.
Qed.

Lemma fixed_field_write_if p k o k' o' :
  k <> k' -> fixed_field p k o -> fixed_field (BL.write_if false p k' o') k o.
Proof.
  intros Hne H. destruct o' as [v|]; simpl; [|exact H].
  destruct (negb _); simpl; [apply fixed_field_set; auto | exact H].
Qed.

Lemma get_subdict_obj d k s : Dict.get d k = Some (JObj s) -> get_subdict d k = s.
Proof.
  intros H. unfold get_subdict, Dict.get_or. rewrite H. simpl.
  destruct s; reflexivity.
Qed.

Lemma merge_party_fixed parties key name addr :
  fixed_party (BL.merge_party false parties key name addr) key name addr.
Proof.
  unfold BL.merge_party, fixed_party.
  destruct (BL.is_some name || BL.is_some addr)%bool eqn:E; [|left; reflexivity].
  right. eexists. split; [apply get_set_eq|]. split.
  - apply fixed_field_write_if; [discriminate|]. apply write_if_fixed.
  - apply write_if_fixed.
Qed.

Lemma fixed_merge_party parties key name addr :
  fixed_party parties key name addr -> BL.merge_party false parties key name addr = parties.
Proof.
  unfold BL.merge_party. intros [E | [s [Hs [Hn Ha]]]]; [rewrite E; reflexivity|].
  destruct (BL.is_some name || BL.is_some addr)%bool; [|reflexivity].
  rewrite (get_subdict_obj _ _ _ Hs), (fixed_write_if s "name" name Hn),
    (fixed_write_if s "address" addr Ha).
  apply set_get_same, Hs.
Qed.

Lemma fixed_party_set parties key name addr key' v :
  key <> key' -> fixed_party parties key name addr ->
  fixed_party (Dict.set parties key' v) key name addr.
Proof.
  intros Hne [E | [s [Hs H]]]; [left; exact E|].
  right. exists s. rewrite get_set_neq by congruence. auto.
Qed.

Lemma fixed_party_merge parties key name addr key' name' addr' :
  key <> key' -> fixed_party parties key name addr ->
  fixed_party (BL.merge_party false parties key' name' addr') key name addr.
Proof.
  intros Hne H. unfold BL.merge_party.
  destruct (_ || _)%bool; [apply fixed_party_set; auto | exact H].
Qed.

Lemma merge_notify_party force parties name :
  BL.merge_notify force parties name = BL.merge_party force parties "notify_party" name None.
Proof. destruct name; reflexivity. Qed.

Lemma merge_parties_idempotent a parties :
  BL.is_force a = false ->
  BL.merge_parties a (BL.merge_parties a parties) = BL.merge_parties a parties.
Proof.
  intros Hf. unfold BL.merge_parties. rewrite Hf, !merge_notify_party.
  set (m := BL.merge_party false
              (BL.merge_party false
                 (BL.merge_party false parties "shipper" (BL.shipper_name a) (BL.shipper_address a))
                 "consignee" (BL.consignee_name a) (BL.consignee_address a))
              "notify_party" (BL.notify_party_name a) None).
  assert (Hs : fixed_party m "shipper" (BL.shipper_name a) (BL.shipper_address a)).
  { unfold m. apply fixed_party_merge; [discriminate|].
    apply fixed_party_merge; [discriminate|]. apply merge_party_fixed. }
  assert (Hc : fixed_party m "consignee" (BL.consignee_name a) (BL.consignee_address a)).
  { unfold m. apply fixed_party_merge; [discriminate|]. apply merge_party_fixed. }
  assert (Hn : fixed_party m "notify_party" (BL.notify_party_name a) None).
  { unfold m. apply merge_party_fixed. }
  rewrite (fixed_merge_party m _ _ _ Hs), (fixed_merge_party m _ _ _ Hc).
  apply fixed_merge_party, Hn.
Qed.

Lemma apply_booking_agree a q : agree_except ["booking"] q (BL.apply_booking a q).
Proof. apply agree_except_set. simpl; tauto. Qed.

Lemma apply_flat_agree a q :
  agree_except ["vessel_name"; "voyage_number"; "etd"] q (BL.apply_flat a q).
Proof. unfold BL.apply_flat. agree_chain. Qed.

Lemma apply_bl_doc_agree a q : agree_except ["bl_document"] q (BL.apply_bl_doc a q).
Proof.
  unfold BL.apply_bl_doc. destruct (truthy _); [agree_chain | apply agree_except_refl].
Qed.

Lemma apply_json_list_agree jl key o q :
  agree_except ["type_details"] q (BL.apply_json_list jl key o q).
Proof.
  unfold BL.apply_json_list.
  destruct o as [raw|]; [|apply agree_except_refl].
  destruct (jl raw) as [v|]; [|apply agree_except_refl].
  destruct (truthy v); [agree_chain | apply agree_except_refl].
Qed.

Lemma truthy_set d k v : truthy (JObj (Dict.set d k v)) = true.
Proof. destruct d as [|[k' v'] d]; simpl; [reflexivity|]. destruct (String.eqb k' k); reflexivity. Qed.

(** The Quotation written by a successful call. *)
Lemma update_from_bl_ok sid a now jl q q1 :
  BL.update_from_bl sid a now jl (Some q) = inr q1 ->
  truthy (JObj q) = true /\ truthy (Dict.get_or q "trash" JNull) = false
  /\ Dict.get q1 "parties" = Some (JObj (BL.merge_parties a (get_subdict q "parties")))
  /\ Dict.get q1 "trash" = Dict.get q "trash" /\ truthy (JObj q1) = true.
Proof.
  unfold BL.update_from_bl.
  destruct (truthy (JObj q)) eqn:Hq; simpl; [|discriminate].
  destruct (truthy (Dict.get_or q "trash" JNull)) eqn:Ht; [discriminate|].
  intros H. injection H as <-.
  set (q0 := BL.apply_flat a (BL.apply_booking a q)).
  assert (H0 : agree_except ["booking"; "vessel_name"; "voyage_number"; "etd"] q q0).
  { eapply agree_except_trans.
    - eapply agree_except_weaken; [|apply apply_booking_agree]. simpl; tauto.
    - eapply agree_except_weaken; [|apply apply_flat_agree]. simpl; tauto. }
  set (q2 := BL.apply_parties a q0).
  assert (H2 : agree_except ["updated"; "type_details"; "bl_document"] q2
                 (Dict.set (BL.apply_json_list jl "cargo_items" (BL.cargo_items a)
                   (BL.apply_json_list jl "containers" (BL.containers a)
                     (BL.apply_bl_doc a q2))) "updated" (JStr now))).
  { eapply agree_except_trans; [|apply agree_except_set; simpl; tauto].
    eapply agree_except_trans.
    - eapply agree_except_trans.
      + eapply agree_except_weaken; [|apply apply_bl_doc_agree]. simpl; tauto.
      + eapply agree_except_weaken; [|apply apply_json_list_agree]. simpl; tauto.
    - eapply agree_except_weaken; [|apply apply_json_list_agree]. simpl; tauto. }
  split; [reflexivity|]. split; [reflexivity|]. split; [|split].
  - rewrite (agree_except_get _ _ _ _ H2) by (simpl; intuition discriminate).
    unfold q2, BL.apply_parties. rewrite get_set_eq.
    unfold get_subdict, Dict.get_or.
    rewrite (agree_except_get _ _ _ _ H0) by (simpl; intuition discriminate).
    reflexivity.
  - rewrite (agree_except_get _ _ _ _ H2) by (simpl; intuition discriminate).
    unfold q2, BL.apply_parties. rewrite get_set_neq by discriminate.
    apply (agree_except_get _ _ _ _ H0). simpl; intuition discriminate.
  - apply truthy_set.
Qed.

(** Claim C9: with [force_update] other than "true", a second BL update with
    the same form fields succeeds on the Quotation written by the first one,
    and leaves its [parties] object equal to its value after the first. *)
Theorem bl_update_parties_idempotent sid a now now' jl q q1 :
  BL.force_update a <> Some "true" ->
  BL.update_from_bl sid a now jl (Some q) = inr q1 ->
  exists q2, BL.update_from_bl sid a now' jl (Some q1) = inr q2
             /\ Dict.get q2 "parties" = Dict.get q1 "parties".
Proof.
  intros Hf H1.
  assert (Hforce : BL.is_force a = false).
  { unfold BL.is_force. destruct (BL.force_update a) as [f|]; [|reflexivity].
    apply String.eqb_neq. intros ->. apply Hf. reflexivity. }
  destruct (update_from_bl_ok _ _ _ _ _ _ H1) as [_ [Ht [Hp1 [Htr Hq1]]]].
  assert (Ht1 : truthy (Dict.get_or q1 "trash" JNull) = false)
    by (unfold Dict.get_or in *; rewrite Htr; exact Ht).
  assert (H2 : exists q2, BL.update_from_bl sid a now' jl (Some q1) = inr q2).
  { unfold BL.update_from_bl. rewrite Hq1, Ht1. eexists; reflexivity. }
  destruct H2 as [q2 H2]. exists q2. split; [exact H2|].
  destruct (update_from_bl_ok _ _ _ _ _ _ H2) as [_ [_ [Hp2 _]]].
  rewrite Hp2, Hp1, (get_subdict_obj _ _ _ Hp1), merge_parties_idempotent by exact Hforce.
  reflexivity.
Qed.

Lemma bl_update_parties_idempotent_witness :
  exists q1 q2,
    BL.update_from_bl "AF-000003" bl_example_args "t1" (fun _ => None) (Some bl_example_q)
    = inr q1
    /\ BL.update_from_bl "AF-000003" bl_example_args "t2" (fun _ => None) (Some q1) = inr q2
    /\ Dict.get q2 "parties" = Dict.get q1 "parties".
Proof.
  destruct (BL.update_from_bl "AF-000003" bl_example_args "t1" (fun _ => None)
              (Some bl_example_q)) as [e|q1] eqn:E1; [vm_compute in E1; discriminate|].
  destruct (bl_update_parties_idempotent "AF-000003" bl_example_args "t1" "t2"
              (fun _ => None) bl_example_q q1 ltac:(discriminate) E1) as [q2 [E2 Hp]].
  exists q1, q2. split; [reflexivity|]. split; assumption.
Defined.

(** * Further properties of the code *)

Lemma zmem_In (x : Z) (l : list Z) : zmem x l = true <-> In x l.
Proof.
  unfold zmem. rewrite existsb_exists. split.
  - intros [y [Hy E]]. apply Z.eqb_eq in E. subst. exact Hy.
  - intros H. exists x. split; [exact H | apply Z.eqb_refl].
Qed.

Ltac neq_rewrite :=
  repeat match goal with
  | H : ?x <> ?v |- _ =>
      let E1 := fresh in let E2 := fresh in
      assert (E1 : Z.eqb x v = false) by (apply Z.eqb_neq; exact H);
      assert (E2 : Z.eqb v x = false) by (apply Z.eqb_neq; congruence);
      rewrite ?E1, ?E2 in *; clear E1 E2; revert H
  end.

Ltac zcase a b :=
  destruct (Z.eqb_spec a b) as [->|?];
  [vm_compute; split; intros H;
   solve [ reflexivity | discriminate
         | repeat (destruct H as [H|H]; try discriminate); contradiction
         | repeat (first [left; reflexivity | right]) ]|].

Lemma resolve_so_not_cancelled_aux (raw : Z) : SOStatus.resolve_so_status_to_v2 raw <> -1.
Proof.
  unfold SOStatus.resolve_so_status_to_v2.
  destruct (zmem raw SOStatus.V1_NATIVE_CODES) eqn:E.
  - apply zmem_In in E. simpl in E.
    repeat (destruct E as [E|E]; [subst; vm_compute; discriminate|]). contradiction.
  - intros ->. vm_compute in E. discriminate.
Qed.

(** [_resolve_so_status_to_v2] never returns the cancelled code -1: a V1
    ShipmentOrder stored with -1 resolves to 2001 (confirmed). *)
Theorem resolve_so_never_cancelled (raw : Z) :
  SOStatus.resolve_so_status_to_v2 raw <> STATUS_CANCELLED
  /\ SOStatus.resolve_so_status_to_v2 STATUS_CANCELLED = STATUS_CONFIRMED.
Proof. split; [apply resolve_so_not_cancelled_aux | reflexivity]. Qed.

(** [_resolve_so_status_to_v2] is idempotent: resolving a resolved status
    gives it back. *)
Theorem resolve_so_idempotent (raw : Z) :
  SOStatus.resolve_so_status_to_v2 (SOStatus.resolve_so_status_to_v2 raw)
  = SOStatus.resolve_so_status_to_v2 raw.
Proof.
  unfold SOStatus.resolve_so_status_to_v2 at 2.
  destruct (zmem raw SOStatus.V1_NATIVE_CODES) eqn:E.
  - apply zmem_In in E. simpl in E.
    repeat (destruct E as [E|E]; [subst; reflexivity|]). contradiction.
  - unfold SOStatus.resolve_so_status_to_v2. rewrite E. reflexivity.
Qed.

(** The V1 status resolution of [update_shipment_status] and
    [_resolve_so_status_to_v2] (used by [get_shipment_stats]) give the same
    V2 code exactly for the raw codes 110, 4110, 10000, 2001, 3002, 4001 and
    5001; they differ on every other code, e.g. 100, -1 and 3001. *)
Theorem v1_resolvers_agree (x : Z) :
  Status.resolve_v1_status x = SOStatus.resolve_so_status_to_v2 x
  <-> In x [110; 4110; 10000; 2001; 3002; 4001; 5001].
Proof.
  zcase x 100. zcase x 110. zcase x 4110. zcase x 10000. zcase x (-1).
  zcase x 2001. zcase x 3002. zcase x 4001. zcase x 5001.
  unfold Status.resolve_v1_status, SOStatus.resolve_so_status_to_v2, zmem,
    SOStatus.V1_NATIVE_CODES, Status.V2_TO_V1, Status.V1_TO_V2, STATUS_CONFIRMED;
  cbn -[Z.eqb].
  neq_rewrite. intros. cbn -[Z.eqb]. split.
  - intros H. lia.
  - intros H. simpl in H. lia.
Qed.

(** After an accepted status update of a V1 record, the next request
    resolves the current status to the code written when it is one of
    2001, 3002, 4001, 5001, -1, and to 2001 when it is 1001, 1002, 3001 or
    4002; the ShipmentOrder written back never has data_version 2. *)
Theorem v1_status_read_back sid body email uid now st st' q cur s path :
  Status.st_q st = Some q ->
  Status.resolve_current sid st q = Some (true, cur) ->
  Status.update_shipment_status sid body email uid now st = (Status.Ok s path, st') ->
  exists q' cur',
    Status.st_q st' = Some q'
    /\ Status.resolve_current sid st' q' = Some (true, cur')
    /\ cur' = (if zmem s [2001; 3002; 4001; 5001; -1] then s else Status.resolve_v1_status s)
    /\ (In s [1001; 1002; 3001; 4002] -> cur' = STATUS_CONFIRMED)
    /\ (forall so', Status.st_so st' = Some so' -> Status.so_data_version so' <> Some 2).
Proof.
  intros Hq Hr Hu. unfold Status.update_shipment_status in Hu. rewrite Hq, Hr in Hu.
  destruct (Status.check_transition q true cur body); [discriminate|].
  injection Hu as <- <- <-.
  unfold Status.resolve_current in Hr.
  destruct (Status.is_v1_record sid q) eqn:Hv; [|discriminate].
  destruct (Status.st_so st) as [so|] eqn:Hso; [|discriminate].
  unfold Status.write_status. rewrite Hso. cbn.
  eexists. exists (Status.resolve_v1_status
                     (match zlookup Status.V2_TO_V1 (Status.rq_status body) with
                      | Some v => v | None => Status.rq_status body end)).
  split; [reflexivity|].
  split.
  { unfold Status.resolve_current.
    match goal with |- context [Status.is_v1_record sid ?q2] =>
      assert (E : Status.is_v1_record sid q2 = true) by (rewrite <- Hv; reflexivity); rewrite E
    end. reflexivity. }
  generalize (Status.rq_status body) as s. intros s.
  assert (Hdv : forall dv : option Z, match dv with Some 2 => None | dv => dv end <> Some 2)
    by (intros [z|] H; [|discriminate]; destruct z as [|[p|[p|p|]|]|p]; simpl in H; congruence).
  split; [|split; [|intros so' Hs; injection Hs as <-; simpl; destruct (Status.so_data_version so) as [[|[p|[p|p|]|]|p]|]; simpl; congruence]].
  - destruct (zmem s [2001; 3002; 4001; 5001; -1]) eqn:E.
    + apply zmem_In in E. simpl in E.
      repeat (destruct E as [E|E]; [subst; reflexivity|]). contradiction.
    + assert (Hn : zlookup Status.V2_TO_V1 s = None).
      { unfold zlookup, Status.V2_TO_V1.
        unfold zmem in E. simpl in E.
        repeat rewrite orb_false_iff in E. destruct E as [E1 [E2 [E3 [E4 [E5 _]]]]].
        rewrite Z.eqb_sym in E1, E2, E3, E4, E5. rewrite E1, E2, E3, E4, E5. reflexivity. }
      rewrite Hn. unfold zmem in E. simpl in E. rewrite E. reflexivity.
  - intros Hin. simpl in Hin.
    repeat (destruct Hin as [Hin|Hin]; [subst; reflexivity|]). contradiction.
Qed.

Lemma v2_loop_inv es c :
  inv 0 c -> inv 0 (Stats.v2_loop es c)
  /\ sum4 (Stats.v2_loop es c) <= sum4 c + Z.of_nat (length es)
  /\ Stats.c_cancelled (Stats.v2_loop es c)
     = Stats.c_cancelled c
       + Z.of_nat (length (filter (fun e => Tabs.jin (Tabs.ent_status e) [STATUS_CANCELLED]) es)).
Proof.
  revert c. induction es as [|e r IH]; intros c Hc; simpl; [unfold sum4, inv in *; lia|].
  set (c1 := if Tabs.jin (Tabs.ent_status e) V2_ACTIVE_STATUSES then _ else _).
  assert (H1 : inv 0 c1 /\ sum4 c1 <= sum4 c + 1
               /\ Stats.c_cancelled c1 = Stats.c_cancelled c
                  + (if Tabs.jin (Tabs.ent_status e) [STATUS_CANCELLED] then 1 else 0)).
  { subst c1. unfold inv, sum4, Stats.inc_active, Stats.inc_completed, Stats.inc_to_invoice,
      Stats.inc_cancelled, Stats.inc_draft in *.
    destruct (Tabs.jin (Tabs.ent_status e) V2_ACTIVE_STATUSES) eqn:A.
    { assert (Tabs.jin (Tabs.ent_status e) [STATUS_CANCELLED] = false).
      { destruct (Tabs.ent_status e); try reflexivity. unfold Tabs.jin in *.
        apply zmem_In in A. simpl in A. unfold zmem. simpl.
        repeat (destruct A as [A|A]; [subst; reflexivity|]). contradiction. }
      rewrite H. simpl. lia. }
    destruct (Tabs.jin (Tabs.ent_status e) [STATUS_COMPLETED]) eqn:B.
    { assert (Tabs.jin (Tabs.ent_status e) [STATUS_CANCELLED] = false).
      { destruct (Tabs.ent_status e); try reflexivity. unfold Tabs.jin in *.
        apply zmem_In in B. destruct B as [B|[]]. subst. reflexivity. }
      rewrite H. destruct (negb (truthy _)); simpl; lia. }
    destruct (Tabs.jin (Tabs.ent_status e) [STATUS_CANCELLED]); simpl; [lia|].
    destruct (Tabs.jin (Tabs.ent_status e) [STATUS_DRAFT; STATUS_DRAFT_REVIEW]); simpl; [lia|]. lia. }
  destruct H1 as [H1 [H2 H3]]. destruct (IH c1 H1) as [I1 [I2 I3]].
  split; [exact I1|]. split; [lia|]. rewrite I3, H3.
  destruct (Tabs.jin (Tabs.ent_status e) [STATUS_CANCELLED]); simpl length; lia.
Qed.

Ltac split_ifs := repeat match goal with |- context [if ?b then _ else _] => destruct b end.

Lemma cancelled_excl (s : jval) :
  Tabs.jin s [STATUS_CANCELLED] = true ->
  Tabs.jin s V2_ACTIVE_STATUSES = false /\ Tabs.jin s [STATUS_COMPLETED] = false
  /\ Tabs.jin s [STATUS_DRAFT; STATUS_DRAFT_REVIEW] = false.
Proof.
  destruct s; try discriminate. unfold Tabs.jin. intros C.
  apply zmem_In in C. destruct C as [C|[]]. subst. vm_compute. auto.
Qed.

Lemma invoice_pass_inv q ids c k :
  inv (k + Z.of_nat (length ids)) c ->
  inv k (Stats.invoice_pass q ids c)
  /\ sum4 (Stats.invoice_pass q ids c) = sum4 c
  /\ Stats.c_cancelled (Stats.invoice_pass q ids c) = Stats.c_cancelled c
  /\ Stats.c_completed (Stats.invoice_pass q ids c) = Stats.c_completed c.
Proof.
  revert c. induction ids as [|i r IH]; intros c Hc; simpl.
  - unfold inv in *; simpl in Hc. lia.
  - set (c1 := match q i with Some _ => _ | None => _ end).
    assert (H1 : inv (k + Z.of_nat (length r)) c1 /\ sum4 c1 = sum4 c
                 /\ Stats.c_cancelled c1 = Stats.c_cancelled c
                 /\ Stats.c_completed c1 = Stats.c_completed c).
    { subst c1. unfold inv, sum4, Stats.inc_to_invoice in *. simpl length in Hc.
      destruct (q i); [destruct (negb _)|]; simpl; lia. }
    destruct H1 as [A [B [C D]]]. destruct (IH c1 A) as [A' [B' [C' D']]].
    rewrite B', C', D'. auto.
Qed.

Lemma mig_loop_inv es c ids :
  inv (Z.of_nat (length ids)) c ->
  inv (Z.of_nat (length (snd (Stats.mig_loop es c ids)))) (fst (Stats.mig_loop es c ids))
  /\ sum4 (fst (Stats.mig_loop es c ids)) <= sum4 c + Z.of_nat (length es)
  /\ Stats.c_cancelled (fst (Stats.mig_loop es c ids))
     = Stats.c_cancelled c
       + Z.of_nat (length (filter (fun p => Tabs.jin (Tabs.ent_status (snd p)) [STATUS_CANCELLED]) es)).
Proof.
  revert c ids. induction es as [|[k e] r IH]; intros c ids Hc; simpl;
    [unfold sum4, inv in *; lia|].
  set (p1 := if Tabs.jin (Tabs.ent_status e) V2_ACTIVE_STATUSES then _ else _).
  assert (H1 : inv (Z.of_nat (length (snd p1))) (fst p1) /\ sum4 (fst p1) <= sum4 c + 1
               /\ Stats.c_cancelled (fst p1) = Stats.c_cancelled c
                  + (if Tabs.jin (Tabs.ent_status e) [STATUS_CANCELLED] then 1 else 0)).
  { subst p1. unfold inv, sum4, Stats.inc_active, Stats.inc_completed,
      Stats.inc_cancelled, Stats.inc_draft in *.
    destruct (Tabs.jin (Tabs.ent_status e) [STATUS_CANCELLED]) eqn:C.
    - destruct (cancelled_excl _ C) as [A [B _]]. rewrite A, B. simpl. lia.
    - split_ifs; simpl; rewrite ?length_app; simpl length; lia. }
  destruct H1 as [H1 [H2 H3]]. destruct (IH (fst p1) (snd p1) H1) as [I1 [I2 I3]].
  split; [exact I1|]. split; [lia|]. rewrite I3, H3.
  destruct (Tabs.jin (Tabs.ent_status e) [STATUS_CANCELLED]); simpl length; lia.
Qed.

Lemma resolve_jval_not_cancelled (v w : jval) :
  SOStatus.resolve_jval v = Some w -> Tabs.jin w [STATUS_CANCELLED] = false.
Proof.
  destruct v; simpl; intros H; try discriminate; injection H as <-; try reflexivity.
  unfold Tabs.jin, zmem. simpl. rewrite orb_false_r.
  apply Z.eqb_neq. apply resolve_so_not_cancelled_aux.
Qed.

Lemma v1_loop_inv es c ids c' ids' :
  Stats.v1_loop es c ids = Some (c', ids') ->
  inv (Z.of_nat (length ids)) c ->
  inv (Z.of_nat (length ids')) c'
  /\ sum4 c' <= sum4 c + Z.of_nat (length es)
  /\ Stats.c_cancelled c' = Stats.c_cancelled c.
Proof.
  revert c ids. induction es as [|[k e] r IH]; intros c ids Hl Hc; simpl in Hl.
  - injection Hl as <- <-. unfold sum4, inv in *; simpl length; lia.
  - destruct (SOStatus.resolve_jval (Tabs.ent_status e)) as [w|] eqn:Hw; [|discriminate].
    simpl in Hl. rewrite (resolve_jval_not_cancelled _ _ Hw) in Hl.
    set (p1 := if Tabs.jin w [STATUS_COMPLETED] then _ else _) in Hl.
    assert (H1 : inv (Z.of_nat (length (snd p1))) (fst p1) /\ sum4 (fst p1) <= sum4 c + 1
                 /\ Stats.c_cancelled (fst p1) = Stats.c_cancelled c).
    { subst p1. unfold inv, sum4, Stats.inc_active, Stats.inc_completed,
        Stats.inc_draft in *.
      split_ifs; simpl; rewrite ?length_app; simpl length; lia. }
    destruct H1 as [H1 [H2 H3]]. destruct (IH _ _ Hl H1) as [I1 [I2 I3]].
    split; [exact I1|]. simpl length. split; lia.
Qed.

(** In [get_shipment_stats], [to_invoice] never exceeds [completed], and
    [total] is at most the number of fetched records. *)
Theorem stats_counts_bounded v2 v1 mig q c total :
  Stats.get_shipment_stats v2 v1 mig q = Some (c, total) ->
  Stats.c_to_invoice c <= Stats.c_completed c
  /\ total <= Z.of_nat (length v2) + Z.of_nat (length v1) + Z.of_nat (length mig).
Proof.
  unfold Stats.get_shipment_stats.
  destruct (Stats.v1_loop _ _ []) as [[c1 ids1]|] eqn:H1; [|discriminate].
  simpl. intros H. injection H as <- <-.
  destruct (v2_loop_inv v2 Stats.zero) as [A1 [A2 _]]; [unfold inv; simpl; lia|].
  destruct (v1_loop_inv _ _ _ _ _ H1) as [B1 [B2 _]]; [unfold inv in *; simpl; lia|].
  destruct (invoice_pass_inv q ids1 c1 0) as [C1 [C2 _]]; [exact B1|].
  set (c2 := Stats.invoice_pass q ids1 c1) in *.
  destruct (mig_loop_inv mig c2 []) as [D1 [D2 _]]; [unfold inv in *; simpl; lia|].
  destruct (invoice_pass_inv q (snd (Stats.mig_loop mig c2 [])) (fst (Stats.mig_loop mig c2 [])) 0)
    as [E1 [E2 _]]; [exact D1|].
  split; [unfold inv in E1; lia|].
  fold (sum4 (Stats.invoice_pass q (snd (Stats.mig_loop mig c2 [])) (fst (Stats.mig_loop mig c2 [])))).
  assert (Hf : (length (filter (fun p => negb (Stats.is_migrated (snd p))) v1) <= length v1)%nat)
    by apply filter_length_le.
  unfold sum4 in *. simpl in A2. clearbody c2. lia.
Qed.

(** In [get_shipment_stats], [cancelled] counts the cancelled V2 Quotations
    and the cancelled migrated ShipmentOrders only: a V1 ShipmentOrder is
    never counted as cancelled. *)
Theorem stats_cancelled_count v2 v1 mig q c total :
  Stats.get_shipment_stats v2 v1 mig q = Some (c, total) ->
  Stats.c_cancelled c
  = Z.of_nat (length (filter (fun e => Tabs.jin (Tabs.ent_status e) [STATUS_CANCELLED]) v2))
    + Z.of_nat (length (filter (fun p => Tabs.jin (Tabs.ent_status (snd p)) [STATUS_CANCELLED]) mig)).
Proof.
  unfold Stats.get_shipment_stats.
  destruct (Stats.v1_loop _ _ []) as [[c1 ids1]|] eqn:H1; [|discriminate].
  simpl. intros H. injection H as <- <-.
  destruct (v2_loop_inv v2 Stats.zero) as [A1 [_ A3]]; [unfold inv; simpl; lia|].
  destruct (v1_loop_inv _ _ _ _ _ H1) as [B1 [_ B3]]; [unfold inv in *; simpl; lia|].
  destruct (invoice_pass_inv q ids1 c1 0) as [C1 [_ [C3 _]]]; [exact B1|].
  set (c2 := Stats.invoice_pass q ids1 c1) in *.
  destruct (mig_loop_inv mig c2 []) as [D1 [_ D3]]; [unfold inv in *; simpl; lia|].
  destruct (invoice_pass_inv q (snd (Stats.mig_loop mig c2 [])) (fst (Stats.mig_loop mig c2 [])) 0)
    as [_ [_ [E3 _]]]; [exact D1|].
  rewrite E3, D3, C3, B3, A3. simpl. lia.
Qed.

(** ** [recalculate_due_dates] *)

Lemma due_differs_false d o :
  Recalc.due_differs (Tasks.due_to_json d) o = false -> o = Tasks.due_to_json d.
Proof.
  destruct d; destruct o; simpl; try discriminate; try reflexivity.
  intros H. apply negb_false_iff, String.eqb_eq in H. subst. reflexivity.
Qed.

Lemma due_differs_refl d : Recalc.due_differs (Tasks.due_to_json d) (Tasks.due_to_json d) = false.
Proof. destruct d; simpl; [rewrite String.eqb_refl|]; reflexivity. Qed.

Lemma agree_except_set_r ks d d' k v :
  In k ks -> agree_except ks d d' -> agree_except ks d (Dict.set d' k v).
Proof.
  intros Hk H k' Hk'. rewrite get_set_neq; [apply H, Hk'|]. intros ->. contradiction.
Qed.

Lemma recalc_task_spec etd eta crd ub now t t' :
  Recalc.recalc_task etd eta crd ub now t = Some t' -> recalc_result etd eta crd t t'.
Proof.
  unfold Recalc.recalc_task, recalc_result. intros Hr.
  destruct (truthy _); [injection Hr as <-; reflexivity|].
  unfold bind in Hr. destruct (Recalc.task_due t etd eta crd) as [d|]; [|discriminate].
  exists d. split; [reflexivity|].
  destruct (Recalc.due_differs _ _) eqn:E; injection Hr as <-.
  - unfold Dict.get_or. rewrite !get_set_neq by discriminate. rewrite get_set_eq.
    split; [reflexivity|].
    repeat (apply agree_except_set_r; [simpl; tauto|]). apply agree_except_refl.
  - split; [apply due_differs_false, E | apply agree_except_refl].
Qed.

Lemma task_due_agree etd eta crd t t' :
  agree_except RECALC_KEYS t t' -> Recalc.task_due t' etd eta crd = Recalc.task_due t etd eta crd.
Proof.
  intros H. unfold Recalc.task_due. rewrite (H "task_type"); [reflexivity|].
  simpl; intuition discriminate.
Qed.

Lemma recalc_task_fixed etd eta crd ub now t :
  (truthy (Dict.get_or t "due_date_override" (JBool false)) = true
   \/ exists d, Recalc.task_due t etd eta crd = Some d
                /\ Dict.get_or t "due_date" JNull = Tasks.due_to_json d) ->
  Recalc.recalc_task etd eta crd ub now t = Some t.
Proof.
  unfold Recalc.recalc_task. intros [H|[d [H1 H2]]]; [rewrite H; reflexivity|].
  destruct (truthy _); [reflexivity|].
  rewrite H1. simpl. rewrite H2, due_differs_refl. reflexivity.
Qed.

Lemma recalc_result_fixed etd eta crd ub now t t' :
  recalc_result etd eta crd t t' -> Recalc.recalc_task etd eta crd ub now t' = Some t'.
Proof.
  unfold recalc_result. destruct (truthy _) eqn:O.
  - intros ->. apply recalc_task_fixed. left; exact O.
  - intros [d [H1 [H2 H3]]]. apply recalc_task_fixed. right. exists d.
    rewrite (task_due_agree etd eta crd t t' H3). auto.
Qed.

Lemma recalc_list_fixed ts etd eta crd ub now :
  (forall t, In t ts -> Recalc.recalc_task etd eta crd ub now t = Some t) ->
  Recalc.recalculate_due_dates ts etd eta crd ub now = Some ts.
Proof.
  induction ts as [|t r IH]; intros H; simpl; [reflexivity|].
  rewrite (H t (or_introl eq_refl)). simpl. rewrite IH; [reflexivity|].
  intros t' Hin; apply H; right; exact Hin.
Qed.

(** [recalculate_due_dates] leaves a task with a truthy
    [due_date_override] unchanged; on any other task it sets [due_date] to
    the recomputed due date and changes nothing but [due_date],
    [scheduled_end], [updated_by] and [updated_at]. *)
Theorem recalculate_due_dates_spec ts etd eta crd ub now ts' :
  Recalc.recalculate_due_dates ts etd eta crd ub now = Some ts' ->
  Forall2 (recalc_result etd eta crd) ts ts'.
Proof.
  revert ts'. induction ts as [|t r IH]; intros ts'; simpl.
  - intros H; injection H as <-; constructor.
  - unfold bind at 1. destruct (Recalc.recalc_task _ _ _ _ _ t) as [t'|] eqn:E; [|discriminate].
    unfold bind. destruct (Recalc.recalculate_due_dates r _ _ _ _ _) as [r'|] eqn:E2;
      [|discriminate].
    intros H; injection H as <-. constructor; [eapply recalc_task_spec; exact E | apply IH; reflexivity].
Qed.

(** Running [recalculate_due_dates] again with the same dates changes no
    task, whoever runs it and when. *)
Theorem recalculate_due_dates_idempotent ts etd eta crd ub now ub' now' ts' :
  Recalc.recalculate_due_dates ts etd eta crd ub now = Some ts' ->
  Recalc.recalculate_due_dates ts' etd eta crd ub' now' = Some ts'.
Proof.
  intros H. apply recalc_list_fixed. intros t' Hin.
  apply recalculate_due_dates_spec in H.
  induction H as [|t0 t0' r r' H0 Hr IH]; [contradiction|].
  destruct Hin as [<-|Hin]; [eapply recalc_result_fixed; exact H0 | apply IH, Hin].
Qed.

(** [recalculate_due_dates] with the dates [generate_tasks] was given
    returns the generated tasks unchanged. *)
Theorem recalculate_after_generate incoterm txn etd eta crd ub uuid now ub' now' ts :
  Tasks.generate_tasks incoterm txn etd eta crd ub uuid now = Some ts ->
  Recalc.recalculate_due_dates ts etd eta crd ub' now' = Some ts.
Proof.
  unfold Tasks.generate_tasks.
  destruct (Tasks.rule_task_types incoterm txn) as [|ty0 r] eqn:Hr.
  - intros H; injection H as <-. reflexivity.
  - unfold bind. destruct (Tasks.make_tasks _ _ _ _ _ _ _ _ _) as [ts0|] eqn:E; [|discriminate].
    intros H; injection H as <-. apply recalc_list_fixed. intros t Hin.
    apply sort_by_in in Hin.
    destruct (make_tasks_in _ _ _ _ _ _ _ _ _ _ _ E Hin) as [ty [j Hm]].
    unfold Tasks.make_task, bind in Hm.
    destruct (Tasks.calculate_due_date ty etd eta crd) as [due|] eqn:Hd; [|discriminate].
    destruct (Tasks.slookup Tasks.TASK_LEG_LEVEL ty); [|discriminate].
    injection Hm as <-. apply recalc_task_fixed. right. exists due.
    split; [unfold Recalc.task_due; simpl; exact Hd | reflexivity].
Qed.

(** ** [_maybe_unblock_export_clearance] *)

Lemma fb_completed_spec l :
  ExportUnblock.fb_completed l = Some true ->
  exists fb, In (JObj fb) l
    /\ is_str (Dict.get_or fb "task_type" JNull) Tasks.FREIGHT_BOOKING = true
    /\ is_str (Dict.get_or fb "status" JNull) Tasks.COMPLETED = true.
Proof.
  induction l as [|v r IH]; simpl; [discriminate|].
  destruct v; try discriminate.
  destruct (is_str _ Tasks.FREIGHT_BOOKING) eqn:A, (is_str _ Tasks.COMPLETED) eqn:B; simpl;
    intros H; try (destruct (IH H) as [fb [H1 H2]]; exists fb; auto; fail).
  exists fields. auto.
Qed.

Lemma unblock_first_spec l uid now l' :
  ExportUnblock.unblock_first l uid now = Some (l', true) ->
  exists i t, nth_error l i = Some (JObj t) /\ ec_blocked t = true
    /\ (forall j, (j < i)%nat -> exists t', nth_error l j = Some (JObj t') /\ ec_blocked t' = false)
    /\ l' = TaskUpdate.replace_nth l i
             (JObj (Dict.set (Dict.set (Dict.set t "status" (JStr Tasks.PENDING))
                                       "updated_by" (JStr uid)) "updated_at" (JStr now))).
Proof.
  revert l'. induction l as [|v r IH]; intros l'; simpl; [discriminate|].
  destruct v; try discriminate.
  fold (ec_blocked fields). destruct (ec_blocked fields) eqn:E.
  - intros H; injection H as <-. exists O, fields. repeat split; auto.
    intros j Hj; lia.
  - unfold bind. destruct (ExportUnblock.unblock_first r uid now) as [[r' b]|] eqn:Hr;
      [|discriminate].
    simpl. intros H; injection H as <- ->.
    destruct (IH r' eq_refl) as [i [t [H1 [H2 [H3 H4]]]]].
    exists (S i), t. simpl. repeat split; auto.
    + intros [|j] Hj; simpl; [exists fields; auto|]. apply H3. lia.
    + rewrite H4. reflexivity.
Qed.

(** When [_maybe_unblock_export_clearance] writes, the workflow holds a
    completed FREIGHT_BOOKING task, and only the first BLOCKED
    EXPORT_CLEARANCE task is changed, to PENDING with [updated_by] and
    [updated_at]; the rest of the task list is written back as it was. *)
Theorem maybe_unblock_first_only wfe uid now wf' :
  ExportUnblock.maybe_unblock_export_clearance (Some wfe) uid now = Some (Some wf') ->
  exists tasks i t,
    TaskUpdate.workflow_tasks wfe = Some tasks
    /\ (exists fb, In (JObj fb) tasks
         /\ is_str (Dict.get_or fb "task_type" JNull) Tasks.FREIGHT_BOOKING = true
         /\ is_str (Dict.get_or fb "status" JNull) Tasks.COMPLETED = true)
    /\ nth_error tasks i = Some (JObj t) /\ ec_blocked t = true
    /\ (forall j, (j < i)%nat ->
          exists t', nth_error tasks j = Some (JObj t') /\ ec_blocked t' = false)
    /\ wf' = Dict.set (Dict.set wfe "workflow_tasks"
               (JList (TaskUpdate.replace_nth tasks i
                  (JObj (Dict.set (Dict.set (Dict.set t "status" (JStr Tasks.PENDING))
                                   "updated_by" (JStr uid)) "updated_at" (JStr now))))))
               "updated" (JStr now).
Proof.
  unfold ExportUnblock.maybe_unblock_export_clearance.
  destruct (truthy (JObj wfe)); simpl; [|discriminate].
  destruct (TaskUpdate.workflow_tasks wfe) as [tasks|] eqn:Ht; simpl; [|discriminate].
  destruct (ExportUnblock.fb_completed tasks) as [[|]|] eqn:Hf; simpl; try discriminate.
  destruct (ExportUnblock.unblock_first tasks uid now) as [[l' [|]]|] eqn:Hu; simpl;
    try discriminate.
  intros H; injection H as <-.
  destruct (unblock_first_spec _ _ _ _ Hu) as [i [t [H1 [H2 [H3 H4]]]]].
  exists tasks, i, t. subst l'. repeat split; auto.
  apply fb_completed_spec, Hf.
Qed.

(** ** [_lazy_init_tasks] *)

Lemma truthy_map_obj (l : list dict) : l <> [] -> truthy (JList (map JObj l)) = true.
Proof. destruct l; [congruence | reflexivity]. Qed.

Lemma lazy_init_written pd sd wfe uuid n1 n2 ts wf' :
  LazyInit.lazy_init_tasks pd sd (Some wfe) uuid n1 n2 = Some (ts, Some wf') ->
  exists tasks, tasks <> [] /\ ts = JList (map JObj tasks)
    /\ wf' = Dict.set (Dict.set wfe "workflow_tasks" ts) "updated" (JStr n2)
    /\ exists inc txn etd eta crd,
         Tasks.generate_tasks inc txn etd eta crd "system" uuid n1 = Some tasks.
Proof.
  unfold LazyInit.lazy_init_tasks.
  destruct (negb (truthy (JObj wfe))); [discriminate|].
  destruct (truthy (Dict.get_or wfe "workflow_tasks" JNull)); [discriminate|].
  destruct (_ || _); [discriminate|].
  destruct (LazyInit.or_empty _ _) as [| | | inc | |]; try discriminate;
  destruct (LazyInit.or_empty _ _) as [| | | txn | |]; try discriminate.
  unfold bind. destruct (Tasks.generate_tasks inc txn _ _ _ _ _ _) as [tasks|] eqn:G;
    [|discriminate].
  destruct tasks as [|t0 r]; [discriminate|].
  intros H; injection H as <- <-. exists (t0 :: r). split; [discriminate|].
  split; [reflexivity|]. split; [reflexivity|]. eauto 6.
Qed.

(** Once [_lazy_init_tasks] has written generated tasks, the next call on
    the written workflow returns the same tasks and writes nothing. *)
Theorem lazy_init_at_most_once pd sd wfe uuid n1 n2 ts wf' sd' uuid' n1' n2' :
  LazyInit.lazy_init_tasks pd sd (Some wfe) uuid n1 n2 = Some (ts, Some wf') ->
  LazyInit.lazy_init_tasks pd sd' (Some wf') uuid' n1' n2' = Some (ts, None).
Proof.
  intros H. destruct (lazy_init_written _ _ _ _ _ _ _ _ H) as [tasks [Hne [-> [-> _]]]].
  unfold LazyInit.lazy_init_tasks. rewrite truthy_set. simpl negb. cbv iota.
  unfold Dict.get_or. rewrite get_set_neq by discriminate. rewrite get_set_eq.
  rewrite truthy_map_obj by exact Hne. reflexivity.
Qed.

Lemma migrate_made_task ty fb etd eta crd u ub now t :
  Tasks.make_task ty fb etd eta crd u ub now = Some t ->
  Tasks.migrate_task_on_read t = Some t.
Proof.
  unfold Tasks.make_task, bind.
  destruct (Tasks.calculate_due_date ty etd eta crd) as [due|]; [|discriminate].
  destruct (Tasks.slookup Tasks.TASK_LEG_LEVEL ty) as [leg|] eqn:L; [|discriminate].
  apply slookup_in in L.
  intros H; injection H as <-.
  repeat (destruct L as [L|L]; [injection L as <- <-; reflexivity|]). contradiction.
Qed.

Lemma migrate_all_generated inc txn etd eta crd ub uuid now tasks :
  Tasks.generate_tasks inc txn etd eta crd ub uuid now = Some tasks ->
  LazyInit.migrate_all (map JObj tasks) = Some tasks.
Proof.
  intros G.
  assert (Hall : forall t, In t tasks -> Tasks.migrate_task_on_read t = Some t).
  { intros t Hin. revert G. unfold Tasks.generate_tasks.
    destruct (Tasks.rule_task_types inc txn) as [|ty0 r] eqn:Hr.
    - intros H; injection H as <-. contradiction.
    - unfold bind. destruct (Tasks.make_tasks _ _ _ _ _ _ _ _ _) as [ts0|] eqn:E;
        [|discriminate].
      intros H; injection H as <-. apply sort_by_in in Hin.
      destruct (make_tasks_in _ _ _ _ _ _ _ _ _ _ _ E Hin) as [ty [j Hm]].
      eapply migrate_made_task; exact Hm. }
  clear G. induction tasks as [|t r IH]; [reflexivity|].
  simpl. rewrite (Hall t (or_introl eq_refl)). simpl.
  rewrite IH; [reflexivity|]. intros t' Hin; apply Hall; right; exact Hin.
Qed.

Lemma generated_visible inc txn etd eta crd ub uuid now tasks t :
  Tasks.generate_tasks inc txn etd eta crd ub uuid now = Some tasks -> In t tasks ->
  Dict.get t "visibility" = Some (JStr "VISIBLE").
Proof.
  unfold Tasks.generate_tasks.
  destruct (Tasks.rule_task_types inc txn) as [|ty0 r] eqn:Hr.
  - intros H; injection H as <-. contradiction.
  - unfold bind. destruct (Tasks.make_tasks _ _ _ _ _ _ _ _ _) as [ts0|] eqn:E;
      [|discriminate].
    intros H Hin; injection H as <-. apply sort_by_in in Hin.
    destruct (make_tasks_in _ _ _ _ _ _ _ _ _ _ _ E Hin) as [ty [j Hm]].
    unfold Tasks.make_task, bind in Hm.
    destruct (Tasks.calculate_due_date ty etd eta crd); [|discriminate].
    destruct (Tasks.slookup Tasks.TASK_LEG_LEVEL ty); [|discriminate].
    injection Hm as <-. reflexivity.
Qed.

Lemma filter_all_true {A} (f : A -> bool) (l : list A) :
  (forall x, In x l -> f x = true) -> filter f l = l.
Proof.
  induction l as [|x r IH]; intros H; simpl; [reflexivity|].
  rewrite (H x (or_introl eq_refl)), IH; [reflexivity|]. intros y Hy; apply H; right; exact Hy.
Qed.

(** The tasks written by [_lazy_init_tasks] pass through the migration on
    read of [get_shipment_tasks] unchanged; for AFC users the filter keeps
    them all, as none is hidden. *)
Theorem lazy_init_view_generated pd sd wfe uuid n1 n2 ts wf' is_afc :
  LazyInit.lazy_init_tasks pd sd (Some wfe) uuid n1 n2 = Some (ts, Some wf') ->
  exists tasks, ts = JList (map JObj tasks)
    /\ LazyInit.shipment_tasks_view is_afc ts = Some tasks.
Proof.
  intros H. destruct (lazy_init_written _ _ _ _ _ _ _ _ H)
    as [tasks [Hne [-> [_ [inc [txn [etd [eta [crd G]]]]]]]]].
  exists tasks. split; [reflexivity|].
  unfold LazyInit.shipment_tasks_view. rewrite (migrate_all_generated _ _ _ _ _ _ _ _ _ G).
  simpl. destruct is_afc; [|reflexivity]. unfold ret.
  rewrite filter_all_true; [reflexivity|]. intros t Hin.
  unfold Dict.get_or. rewrite (generated_visible _ _ _ _ _ _ _ _ _ _ G Hin). reflexivity.
Qed.

(** ** [update_parties] *)

Lemma get_pop_eq d k : Dict.get (Parties.pop d k) k = None.
Proof.
  induction d as [|[k' v'] r IH]; simpl; [reflexivity|].
  destruct (String.eqb_spec k' k); simpl; [exact IH|].
  apply String.eqb_neq in n. rewrite n. exact IH.
Qed.

Lemma get_pop_neq d k k' : k <> k' -> Dict.get (Parties.pop d k) k' = Dict.get d k'.
Proof.
  intros Hne. induction d as [|[k0 v0] r IH]; simpl; [reflexivity|].
  destruct (String.eqb_spec k0 k); simpl.
  - subst. destruct (String.eqb_spec k k'); [contradiction|exact IH].
  - destruct (String.eqb k0 k'); [reflexivity|exact IH].
Qed.

Lemma pop_absent d k : Dict.get d k = None -> Parties.pop d k = d.
Proof.
  induction d as [|[k0 v0] r IH]; simpl; [reflexivity|].
  destruct (String.eqb_spec k0 k); [discriminate|]. simpl. intros H. rewrite (IH H). reflexivity.
Qed.

Lemma fill_name blk name addr :
  Dict.get (Parties.fill blk name addr) "name"
  = match name with Some n => Some (JStr n) | None => Dict.get blk "name" end.
Proof.
  unfold Parties.fill, TaskUpdate.set_opt.
  destruct addr; [rewrite get_set_neq by discriminate|]; destruct name;
    try apply get_set_eq; reflexivity.
Qed.

Lemma fill_addr blk name addr :
  Dict.get (Parties.fill blk name addr) "address"
  = match addr with Some a => Some (JStr a) | None => Dict.get blk "address" end.
Proof.
  unfold Parties.fill, TaskUpdate.set_opt.
  destruct addr; [apply get_set_eq|]. destruct name; [|reflexivity].
  rewrite get_set_neq by discriminate. reflexivity.
Qed.

Lemma fill_fill blk name addr :
  Parties.fill (Parties.fill blk name addr) name addr = Parties.fill blk name addr.
Proof.
  set (b := Parties.fill blk name addr).
  unfold Parties.fill at 1, TaskUpdate.set_opt.
  assert (Hn : forall n, name = Some n -> Dict.set b "name" (JStr n) = b).
  { intros n ->. apply set_get_same. unfold b. rewrite fill_name. reflexivity. }
  assert (Ha : forall a, addr = Some a -> Dict.set b "address" (JStr a) = b).
  { intros a ->. apply set_get_same. unfold b. rewrite fill_addr. reflexivity. }
  destruct name as [n|]; [rewrite (Hn n eq_refl)|]; destruct addr as [a|];
    try rewrite (Ha a eq_refl); reflexivity.
Qed.

Lemma block_empty_fill_nil blk name addr :
  Parties.block_empty (Parties.fill blk name addr) = true ->
  Parties.block_empty (Parties.fill [] name addr) = true.
Proof.
  unfold Parties.block_empty, Dict.get_or. rewrite !fill_name, !fill_addr.
  destruct name, addr; simpl; auto;
    intros H; apply andb_true_iff in H; destruct H as [H1 H2]; rewrite ?H1, ?H2; auto.
Qed.

Lemma block_empty_nil : Parties.block_empty [] = true.
Proof. reflexivity. Qed.

Lemma merge_block_fixed p k n a : block_fixed p k n a -> Parties.merge_block p k n a = p.
Proof.
  unfold Parties.merge_block. intros [H|[[H1 H2]|[blk [H1 [H2 H3]]]]].
  - rewrite H. reflexivity.
  - destruct (BL.is_some n || BL.is_some a); [|reflexivity].
    assert (E : get_subdict p k = []) by (unfold get_subdict, Dict.get_or; rewrite H1; reflexivity).
    rewrite E, H2. apply pop_absent, H1.
  - destruct (BL.is_some n || BL.is_some a); [|reflexivity].
    assert (E : get_subdict p k = blk).
    { unfold get_subdict, Dict.get_or. rewrite H1. simpl.
      destruct blk; [discriminate|reflexivity]. }
    rewrite E, H2, H3. apply set_get_same, H1.
Qed.

Lemma merge_block_result p k n a : block_fixed (Parties.merge_block p k n a) k n a.
Proof.
  unfold Parties.merge_block, block_fixed.
  destruct (BL.is_some n || BL.is_some a) eqn:S; [right|left; reflexivity].
  destruct (Parties.block_empty (Parties.fill (get_subdict p k) n a)) eqn:E.
  - left. split; [apply get_pop_eq | eapply block_empty_fill_nil; exact E].
  - right. eexists. split; [apply get_set_eq|]. split; [apply fill_fill | exact E].
Qed.

Lemma merge_block_other p k n a k' n' a' :
  k <> k' -> block_fixed p k' n' a' -> block_fixed (Parties.merge_block p k n a) k' n' a'.
Proof.
  intros Hne. unfold block_fixed.
  assert (G : Dict.get (Parties.merge_block p k n a) k' = Dict.get p k').
  { unfold Parties.merge_block. destruct (_ || _); [|reflexivity].
    destruct (Parties.block_empty _); [apply get_pop_neq, Hne | apply get_set_neq, Hne]. }
  rewrite G. auto.
Qed.

Lemma merge_all_fixed body p :
  Parties.merge_all body (Parties.merge_all body p) = Parties.merge_all body p.
Proof.
  unfold Parties.merge_all at 1.
  set (p3 := Parties.merge_all body p).
  assert (F1 : block_fixed p3 "shipper" (Parties.shipper_name body) (Parties.shipper_address body)).
  { unfold p3, Parties.merge_all.
    apply merge_block_other; [discriminate|]. apply merge_block_other; [discriminate|].
    apply merge_block_result. }
  assert (F2 : block_fixed p3 "consignee" (Parties.consignee_name body) (Parties.consignee_address body)).
  { unfold p3, Parties.merge_all.
    apply merge_block_other; [discriminate|]. apply merge_block_result. }
  assert (F3 : block_fixed p3 "notify_party" (Parties.notify_party_name body)
                 (Parties.notify_party_address body)).
  { unfold p3, Parties.merge_all. apply merge_block_result. }
  rewrite (merge_block_fixed _ _ _ _ F1), (merge_block_fixed _ _ _ _ F2),
    (merge_block_fixed _ _ _ _ F3). reflexivity.
Qed.

Lemma update_parties_ok sid body now q so r q1 s1 :
  Parties.update_parties sid body now (Some q) so = TaskUpdate.tret (r, q1, s1) ->
  truthy (JObj q) = true
  /\ r = [("status", JStr "OK");
          ("data", JObj [("parties", JObj (Parties.merge_all body (get_subdict q "parties")))])]
  /\ q1 = Dict.set (Dict.set q "parties" (JObj (Parties.merge_all body (get_subdict q "parties"))))
            "updated" (JStr now).
Proof.
  unfold Parties.update_parties. destruct (truthy (JObj q)); simpl; [|discriminate].
  intros H; injection H as <- <- _. auto.
Qed.

(** Sending the same [update_parties] body twice returns the same
    response, and the second write changes only [updated]. *)
Theorem update_parties_idempotent sid body now now' q so r q1 s1 so2 :
  Parties.update_parties sid body now (Some q) so = TaskUpdate.tret (r, q1, s1) ->
  exists q2 s2, Parties.update_parties sid body now' (Some q1) so2 = TaskUpdate.tret (r, q2, s2)
    /\ agree_except ["updated"] q1 q2.
Proof.
  intros H. destruct (update_parties_ok _ _ _ _ _ _ _ _ H) as [Hq [-> ->]].
  set (p3 := Parties.merge_all body (get_subdict q "parties")).
  assert (Hg : Dict.get (Dict.set (Dict.set q "parties" (JObj p3)) "updated" (JStr now)) "parties"
               = Some (JObj p3)) by (rewrite get_set_neq by discriminate; apply get_set_eq).
  assert (Hs : get_subdict (Dict.set (Dict.set q "parties" (JObj p3)) "updated" (JStr now))
                 "parties" = p3).
  { unfold get_subdict, Dict.get_or. rewrite Hg. simpl. destruct p3 eqn:E; reflexivity. }
  assert (Hm : Parties.merge_all body p3 = p3) by apply merge_all_fixed.
  unfold Parties.update_parties at 1. rewrite truthy_set. simpl negb. cbv iota.
  rewrite Hs, Hm. do 2 eexists. split; [reflexivity|].
  rewrite (set_get_same _ "parties" (JObj p3) Hg). apply agree_except_set. simpl; tauto.
Qed.

(** [update_parties] changes only [parties] and [updated] of the Quotation;
    it writes a ShipmentOrder only for an AFCQ- id, with the same parties,
    and never with data_version 2. *)
Theorem update_parties_writes sid body now q so r q1 s1 :
  Parties.update_parties sid body now (Some q) so = TaskUpdate.tret (r, q1, s1) ->
  agree_except ["parties"; "updated"] q q1
  /\ forall s, s1 = Some s ->
       String.prefix Status.PREFIX_V1_SHIPMENT sid = true
       /\ Dict.get s "parties" = Dict.get q1 "parties"
       /\ Dict.get s "data_version" <> Some (JNum 2).
Proof.
  intros H. pose proof H as H0. destruct (update_parties_ok _ _ _ _ _ _ _ _ H) as [Hq [_ ->]].
  split.
  { apply agree_except_set_r; [simpl; tauto|]. apply agree_except_set; simpl; tauto. }
  unfold Parties.update_parties, TaskUpdate.tret in H0. rewrite Hq in H0. cbn [negb] in H0.
  injection H0 as _ <-. intros s Hs.
  destruct (String.prefix _ sid); [|discriminate Hs]. split; [reflexivity|].
  destruct so as [so|]; [|discriminate Hs].
  destruct so as [|kv so0]; [discriminate Hs|]. cbv iota in Hs.
  set (so1 := Dict.set (Dict.set (kv :: so0) "parties" _) "updated" _) in Hs.
  assert (P : Dict.get so1 "parties" = Dict.get (Dict.set (Dict.set q "parties"
                (JObj (Parties.merge_all body (get_subdict q "parties")))) "updated" (JStr now))
                "parties").
  { unfold so1. rewrite !(get_set_neq _ "updated" "parties") by discriminate.
    rewrite !get_set_eq. reflexivity. }
  destruct (Dict.get so1 "data_version") as [v|] eqn:D.
  - assert (Hv : (match v with JNum 2 => Some (Dict.set so1 "data_version" JNull)
                  | _ => Some so1 end) = Some s) by (destruct v as [| | [|[p|[p|p|]|]|p] | | |]; exact Hs).
    clear Hs. destruct v as [| | [|[p|[p|p|]|]|p] | | |]; injection Hv as <-;
      try (split; [exact P | rewrite D; discriminate]).
    rewrite get_set_neq by discriminate. split; [exact P|]. rewrite get_set_eq. discriminate.
  - injection Hs as <-. split; [exact P | rewrite D; discriminate].
Qed.

Lemma get_merge_block_other p k n a k' :
  k <> k' -> Dict.get (Parties.merge_block p k n a) k' = Dict.get p k'.
Proof.
  intros Hne. unfold Parties.merge_block. destruct (_ || _); [|reflexivity].
  destruct (Parties.block_empty _); [apply get_pop_neq, Hne | apply get_set_neq, Hne].
Qed.

Lemma merge_block_clears p k : Dict.get (Parties.merge_block p k (Some "") (Some "")) k = None.
Proof.
  unfold Parties.merge_block. cbn [BL.is_some orb].
  assert (E : Parties.block_empty (Parties.fill (get_subdict p k) (Some "") (Some "")) = true).
  { unfold Parties.block_empty, Dict.get_or. rewrite fill_name, fill_addr. reflexivity. }
  rewrite E. apply get_pop_eq.
Qed.

(** In [update_parties], an empty name and an empty address for a party
    removes that party's block from [parties]. *)
Theorem update_parties_clears sid body now q so r q1 s1 :
  Parties.update_parties sid body now (Some q) so = TaskUpdate.tret (r, q1, s1) ->
  exists p, Dict.get q1 "parties" = Some (JObj p)
    /\ (Parties.shipper_name body = Some "" -> Parties.shipper_address body = Some "" ->
        Dict.get p "shipper" = None)
    /\ (Parties.consignee_name body = Some "" -> Parties.consignee_address body = Some "" ->
        Dict.get p "consignee" = None)
    /\ (Parties.notify_party_name body = Some "" -> Parties.notify_party_address body = Some "" ->
        Dict.get p "notify_party" = None).
Proof.
  intros H. destruct (update_parties_ok _ _ _ _ _ _ _ _ H) as [_ [_ ->]].
  eexists. split; [rewrite get_set_neq by discriminate; apply get_set_eq|].
  unfold Parties.merge_all. split; [|split]; intros A B; rewrite A, B.
  - rewrite !get_merge_block_other by discriminate. apply merge_block_clears.
  - rewrite get_merge_block_other by discriminate. apply merge_block_clears.
  - apply merge_block_clears.
Qed.

(** ** Route nodes *)

Lemma save_route_nodes_ok sid nodes cl now q q1 :
  Route.save_route_nodes sid nodes cl now (Some q) = TaskUpdate.tret q1 ->
  Route.allowed cl = true /\ String.prefix Status.PREFIX_V1_SHIPMENT sid = false
  /\ truthy (JObj q) = true
  /\ Route.count_role "ORIGIN" (map Route.role nodes) = 1%nat
  /\ Route.count_role "DESTINATION" (map Route.role nodes) = 1%nat
  /\ find (fun r => negb (existsb (String.eqb r) ["ORIGIN"; "TRANSHIP"; "DESTINATION"]))
       (map Route.role nodes) = None
  /\ exists q2,
       Route.sync_flat (Route.assign_sequences (map Route.node_dict nodes))
         (Dict.set q "route_nodes"
            (JList (map JObj (Route.assign_sequences (map Route.node_dict nodes))))) = Some q2
       /\ q1 = Dict.set q2 "updated" (JStr now).
Proof.
  unfold Route.save_route_nodes, TaskUpdate.tret, TaskUpdate.tfail.
  destruct (Route.allowed cl); cbn [negb]; [|intros H; discriminate H].
  destruct (String.prefix _ sid); [intros H; discriminate H|].
  destruct (truthy (JObj q)); cbn [negb]; [|intros H; discriminate H].
  destruct (Nat.eqb_spec (Route.count_role "ORIGIN" (map Route.role nodes)) 1); cbn [negb];
    [|intros H; discriminate H].
  destruct (Nat.eqb_spec (Route.count_role "DESTINATION" (map Route.role nodes)) 1); cbn [negb];
    [|intros H; discriminate H].
  destruct (find _ _); [intros H; discriminate H|].
  unfold TaskUpdate.tbind, TaskUpdate.lift.
  destruct (Route.sync_flat _ _) as [q2|] eqn:S; [|intros H; discriminate H].
  intros H; injection H as <-. repeat split; auto. eauto.
Qed.

Lemma role_rank_range n : 0 <= Route.role_rank n <= 2.
Proof.
  unfold Route.role_rank.
  destruct (is_str _ "ORIGIN"); [lia|]. destruct (is_str _ "TRANSHIP"); [lia|].
  destruct (is_str _ "DESTINATION"); lia.
Qed.

Lemma key_lt_rank x y :
  Route.seq_key x = 0 -> Route.seq_key y = 0 ->
  Route.key_lt x y = (Route.role_rank x <? Route.role_rank y).
Proof.
  unfold Route.key_lt. intros -> ->. simpl. rewrite andb_false_r, orb_false_r. reflexivity.
Qed.

Lemma insert_lt_app x A B :
  (forall y, In y A -> Route.key_lt x y = false) ->
  (forall y, In y B -> Route.key_lt x y = true) ->
  Route.insert_lt x (A ++ B) = (A ++ x :: B)%list.
Proof.
  intros HA HB. induction A as [|a A IH]; simpl.
  - destruct B as [|b B]; [reflexivity|]. simpl. rewrite (HB b (or_introl eq_refl)). reflexivity.
  - rewrite (HA a (or_introl eq_refl)). rewrite IH; [reflexivity|].
    intros y Hy; apply HA; right; exact Hy.
Qed.

Lemma filter_rank_in k l y : In y (filter (rank_is k) l) -> Route.role_rank y = k.
Proof. intros H. apply filter_In in H. destruct H as [_ H]. apply Z.eqb_eq, H. Qed.

(** The stable sort puts rank 0 first, then rank 1, then rank 2, each
    block in input order. *)
Lemma sort_nodes_blocks l :
  (forall n, In n l -> Route.seq_key n = 0) ->
  Route.sort_nodes l
  = (filter (rank_is 0) l ++ filter (rank_is 1) l ++ filter (rank_is 2) l)%list.
Proof.
  unfold Route.sort_nodes.
  assert (G : forall l F0 F1 F2,
             (forall n, In n l -> Route.seq_key n = 0) ->
             (forall n, In n F0 -> Route.seq_key n = 0 /\ Route.role_rank n = 0) ->
             (forall n, In n F1 -> Route.seq_key n = 0 /\ Route.role_rank n = 1) ->
             (forall n, In n F2 -> Route.seq_key n = 0 /\ Route.role_rank n = 2) ->
             fold_left (fun acc x => Route.insert_lt x acc) l (F0 ++ F1 ++ F2)%list
             = ((F0 ++ filter (rank_is 0) l) ++ (F1 ++ filter (rank_is 1) l)
                ++ (F2 ++ filter (rank_is 2) l))%list).
  { induction l0 as [|x r IH]; intros F0 F1 F2 Hl H0 H1 H2; simpl.
    - rewrite !app_nil_r. reflexivity.
    - assert (Sx : Route.seq_key x = 0) by (apply Hl; left; reflexivity).
      assert (Hr : forall n, In n r -> Route.seq_key n = 0) by (intros n Hn; apply Hl; right; exact Hn).
      destruct (role_rank_range x) as [Rlo Rhi].
      assert (V : forall k, rank_is k x = (Route.role_rank x =? k)) by reflexivity.
      rewrite (V 0), (V 1), (V 2).
      destruct (Z.eqb_spec (Route.role_rank x) 0) as [R0|R0].
      + rewrite R0; simpl Z.eqb; cbv iota.
        rewrite insert_lt_app.
        * replace (F0 ++ x :: F1 ++ F2)%list with ((F0 ++ [x]) ++ F1 ++ F2)%list
            by (rewrite <- app_assoc; reflexivity).
          rewrite IH; auto.
          -- rewrite <- !app_assoc. reflexivity.
          -- intros n Hn. apply in_app_or in Hn. destruct Hn as [Hn|[<-|[]]]; auto.
        * intros y Hy. destruct (H0 y Hy) as [Sy Ry]. rewrite key_lt_rank by auto.
          apply Z.ltb_ge. lia.
        * intros y Hy. apply in_app_or in Hy.
          destruct Hy as [Hy|Hy]; [destruct (H1 y Hy) as [Sy Ry]|destruct (H2 y Hy) as [Sy Ry]];
            rewrite key_lt_rank by auto; apply Z.ltb_lt; lia.
      + destruct (Z.eqb_spec (Route.role_rank x) 1) as [R1|R1].
        * rewrite R1; simpl Z.eqb; cbv iota.
          rewrite app_assoc, insert_lt_app.
          -- replace ((F0 ++ F1) ++ x :: F2)%list with (F0 ++ (F1 ++ [x]) ++ F2)%list
               by (rewrite <- !app_assoc; reflexivity).
             rewrite IH; auto.
             ++ rewrite <- !app_assoc. reflexivity.
             ++ intros n Hn. apply in_app_or in Hn. destruct Hn as [Hn|[<-|[]]]; auto.
          -- intros y Hy. apply in_app_or in Hy.
             destruct Hy as [Hy|Hy]; [destruct (H0 y Hy) as [Sy Ry]|destruct (H1 y Hy) as [Sy Ry]];
               rewrite key_lt_rank by auto; apply Z.ltb_ge; lia.
          -- intros y Hy. destruct (H2 y Hy) as [Sy Ry]. rewrite key_lt_rank by auto.
             apply Z.ltb_lt. lia.
        * assert (R2 : Route.role_rank x = 2) by lia.
          rewrite R2; simpl Z.eqb; cbv iota.
          replace (F0 ++ F1 ++ F2)%list with ((F0 ++ F1 ++ F2) ++ [])%list
            by (rewrite app_nil_r; reflexivity).
          rewrite insert_lt_app.
          -- replace ((F0 ++ F1 ++ F2) ++ [x])%list with (F0 ++ F1 ++ (F2 ++ [x]))%list
               by (rewrite <- !app_assoc; reflexivity).
             rewrite IH; auto.
             ++ rewrite <- !app_assoc. reflexivity.
             ++ intros n Hn. apply in_app_or in Hn. destruct Hn as [Hn|[<-|[]]]; auto.
          -- intros y Hy. apply in_app_or in Hy. destruct Hy as [Hy|Hy];
               [|apply in_app_or in Hy; destruct Hy as [Hy|Hy]].
             all: first [destruct (H0 y Hy) as [Sy Ry] | destruct (H1 y Hy) as [Sy Ry]
                        | destruct (H2 y Hy) as [Sy Ry]];
               rewrite key_lt_rank by auto; apply Z.ltb_ge; lia.
          -- intros y [].
  }
  intros Hl. apply (G l [] [] []); auto; intros n [].
Qed.

Lemma sync_flat_get nds q q' :
  Route.sync_flat nds q = Some q' ->
  agree_except ["etd"; "eta"] q q'
  /\ Dict.get q' "etd" = fold_left etd_step nds (Dict.get q "etd")
  /\ Dict.get q' "eta" = fold_left eta_step nds (Dict.get q "eta").
Proof.
  revert q. induction nds as [|nd r IH]; intros q H; simpl in H.
  - injection H as <-. split; [apply agree_except_refl|]. split; reflexivity.
  - unfold bind in H. destruct (Dict.get nd "role") as [rl|] eqn:R; [|discriminate H].
    apply IH in H. destruct H as (A & E1 & E2). simpl.
    assert (GR : Dict.get_or nd "role" JNull = rl) by (unfold Dict.get_or; rewrite R; reflexivity).
    unfold etd_step at 2, eta_step at 2. rewrite GR.
    set (c1 := is_str rl "ORIGIN" && truthy (Dict.get_or nd "scheduled_etd" JNull)) in *.
    set (c2 := is_str rl "DESTINATION" && truthy (Dict.get_or nd "scheduled_eta" JNull)) in *.
    destruct c1, c2; repeat split;
      first [ eapply agree_except_trans; [|exact A];
              repeat (apply agree_except_set_r; [simpl; tauto|]); apply agree_except_refl
            | rewrite E1; f_equal; repeat rewrite ?get_set_eq, ?(get_set_neq _ "eta" "etd") by discriminate; reflexivity
            | rewrite E2; f_equal; repeat rewrite ?get_set_eq, ?(get_set_neq _ "etd" "eta") by discriminate; reflexivity ].
Qed.

Lemma filter_map_ext {A B} (f : B -> bool) (g : A -> B) (h : A -> bool) l :
  (forall x, In x l -> f (g x) = h x) -> filter f (map g l) = map g (filter h l).
Proof.
  induction l as [|x r IH]; intros H; simpl; [reflexivity|].
  rewrite (H x (or_introl eq_refl)). rewrite IH by (intros y Hy; apply H; right; exact Hy).
  destruct (h x); reflexivity.
Qed.

Lemma length_one {A} (l : list A) : length l = 1%nat -> exists a, l = [a].
Proof. destruct l as [|a [|b r]]; simpl; try discriminate. intros _; eauto. Qed.

Lemma count_role_filter r nodes :
  Route.count_role r (map Route.role nodes) = length (filter (role_is r) nodes).
Proof.
  unfold Route.count_role. f_equal. induction nodes as [|n l IH]; simpl; [reflexivity|].
  unfold role_is at 1. destruct (String.eqb r (Route.role n)); simpl; rewrite IH; reflexivity.
Qed.

Lemma valid_roles nodes :
  find (fun r => negb (existsb (String.eqb r) ["ORIGIN"; "TRANSHIP"; "DESTINATION"]))
       (map Route.role nodes) = None ->
  forall n, In n nodes ->
  Route.role n = "ORIGIN" \/ Route.role n = "TRANSHIP" \/ Route.role n = "DESTINATION".
Proof.
  intros H n Hn. apply (in_map Route.role) in Hn. pose proof (find_none _ _ H _ Hn) as E.
  simpl in E. destruct (String.eqb_spec (Route.role n) "ORIGIN"); auto.
  destruct (String.eqb_spec (Route.role n) "TRANSHIP"); auto.
  destruct (String.eqb_spec (Route.role n) "DESTINATION"); auto. discriminate E.
Qed.

Lemma rank_node_dict k n :
  Route.role n = "ORIGIN" \/ Route.role n = "TRANSHIP" \/ Route.role n = "DESTINATION" ->
  rank_is k (Route.node_dict n)
  = role_is (if k =? 0 then "ORIGIN" else if k =? 1 then "TRANSHIP" else "DESTINATION") n
  \/ ~ (k = 0 \/ k = 1 \/ k = 2).
Proof.
  intros Hr. destruct (Z.eq_dec k 0) as [->|K0]; [left|destruct (Z.eq_dec k 1) as [->|K1];
    [left|destruct (Z.eq_dec k 2) as [->|K2]; [left|right; lia]]];
  unfold rank_is, role_is, Route.role_rank; simpl;
  destruct Hr as [E|[E|E]]; rewrite E; reflexivity.
Qed.

Lemma filter_rank_nodes k nodes :
  (forall n, In n nodes ->
     Route.role n = "ORIGIN" \/ Route.role n = "TRANSHIP" \/ Route.role n = "DESTINATION") ->
  (k = 0 \/ k = 1 \/ k = 2) ->
  filter (rank_is k) (map Route.node_dict nodes)
  = map Route.node_dict
      (filter (role_is (if k =? 0 then "ORIGIN" else if k =? 1 then "TRANSHIP" else "DESTINATION"))
              nodes).
Proof.
  intros Hv Hk. apply filter_map_ext. intros x Hx.
  destruct (rank_node_dict k x (Hv x Hx)) as [E|E]; [exact E|contradiction].
Qed.

Lemma in_number i l y :
  In y (Route.number i l) -> exists x j, In x l /\ y = Dict.set x "sequence" (JNum j).
Proof.
  revert i. induction l as [|x r IH]; intros i H; simpl in H; [contradiction|].
  destruct H as [<-|H]; [exists x, i; split; [left|]; reflexivity|].
  destruct (IH _ H) as (x' & j & Hx & ->). exists x', j. split; [right|]; auto.
Qed.

Lemma number_app i l1 l2 :
  Route.number i (l1 ++ l2) = (Route.number i l1 ++ Route.number (i + Z.of_nat (length l1)) l2)%list.
Proof.
  revert i. induction l1 as [|x r IH]; intros i; simpl.
  - rewrite Z.add_0_r. reflexivity.
  - rewrite IH. do 3 f_equal. lia.
Qed.

Lemma fold_left_id {A B} (f : A -> B -> A) l a :
  (forall y, In y l -> forall a, f a y = a) -> fold_left f l a = a.
Proof.
  revert a. induction l as [|y r IH]; intros a H; simpl; [reflexivity|].
  rewrite H by (left; reflexivity). apply IH. intros z Hz; apply H; right; exact Hz.
Qed.

Lemma get_numbered_node n j k :
  k <> "sequence" ->
  Dict.get_or (Dict.set (Route.node_dict n) "sequence" (JNum j)) k JNull
  = Dict.get_or (Route.node_dict n) k JNull.
Proof. intros Hk. unfold Dict.get_or. rewrite get_set_neq; [reflexivity|]. intros E; apply Hk; auto. Qed.

Lemma save_route_nodes_shape sid nodes cl now q q1 :
  Route.save_route_nodes sid nodes cl now (Some q) = TaskUpdate.tret q1 ->
  exists o d q2,
    filter (role_is "ORIGIN") nodes = [o] /\ filter (role_is "DESTINATION") nodes = [d]
    /\ Route.assign_sequences (map Route.node_dict nodes)
       = Route.number 1 (map Route.node_dict (o :: filter (role_is "TRANSHIP") nodes ++ [d]))
    /\ Route.sync_flat (Route.assign_sequences (map Route.node_dict nodes))
         (Dict.set q "route_nodes" (JList (map JObj (Route.assign_sequences (map Route.node_dict nodes)))))
       = Some q2
    /\ q1 = Dict.set q2 "updated" (JStr now)
    /\ (forall n, In n (filter (role_is "TRANSHIP") nodes) -> Route.role n = "TRANSHIP")
    /\ Route.role o = "ORIGIN" /\ Route.role d = "DESTINATION".
Proof.
  intros H. apply save_route_nodes_ok in H.
  destruct H as (_ & _ & _ & Co & Cd & F & q2 & S & ->).
  rewrite count_role_filter in Co, Cd.
  apply length_one in Co. destruct Co as [o Eo]. apply length_one in Cd. destruct Cd as [d Ed].
  pose proof (valid_roles nodes F) as Hv.
  exists o, d, q2.
  assert (Ro : Route.role o = "ORIGIN").
  { assert (In o (filter (role_is "ORIGIN") nodes)) as I by (rewrite Eo; left; reflexivity).
    apply filter_In in I. destruct I as [_ I]. apply String.eqb_eq in I. auto. }
  assert (Rd : Route.role d = "DESTINATION").
  { assert (In d (filter (role_is "DESTINATION") nodes)) as I by (rewrite Ed; left; reflexivity).
    apply filter_In in I. destruct I as [_ I]. apply String.eqb_eq in I. auto. }
  assert (A : Route.assign_sequences (map Route.node_dict nodes)
              = Route.number 1 (map Route.node_dict (o :: filter (role_is "TRANSHIP") nodes ++ [d]))).
  { unfold Route.assign_sequences. rewrite sort_nodes_blocks.
    - rewrite (filter_rank_nodes 0), (filter_rank_nodes 1), (filter_rank_nodes 2) by (auto; lia).
      simpl Z.eqb. cbv iota. rewrite Eo, Ed. simpl. rewrite map_app. reflexivity.
    - intros x Hx. apply in_map_iff in Hx. destruct Hx as (n & <- & _). reflexivity. }
  repeat split; auto.
  intros n Hn. apply filter_In in Hn. destruct Hn as [_ Hn]. apply String.eqb_eq in Hn. auto.
Qed.

(** The sorted nodes written by [save_route_nodes] hold the single ORIGIN
    first, then the TRANSHIP nodes in input order, then the single
    DESTINATION, numbered 1, 2, ... *)
Theorem save_route_nodes_order sid nodes cl now q q1 :
  Route.save_route_nodes sid nodes cl now (Some q) = TaskUpdate.tret q1 ->
  exists o d,
    filter (role_is "ORIGIN") nodes = [o] /\ filter (role_is "DESTINATION") nodes = [d]
    /\ Dict.get q1 "route_nodes"
       = Some (JList (map JObj (Route.number 1
                (map Route.node_dict (o :: filter (role_is "TRANSHIP") nodes ++ [d])))))
    /\ Dict.get q1 "updated" = Some (JStr now)
    /\ agree_except ["route_nodes"; "etd"; "eta"; "updated"] q q1.
Proof.
  intros H. apply save_route_nodes_shape in H.
  destruct H as (o & d & q2 & Eo & Ed & A & S & -> & _).
  apply sync_flat_get in S. destruct S as (Ag & _ & _).
  exists o, d. repeat split; auto.
  - rewrite get_set_neq by discriminate. rewrite (agree_except_get _ _ _ _ Ag) by (simpl; intuition discriminate).
    rewrite get_set_eq. rewrite A. reflexivity.
  - apply get_set_eq.
  - eapply agree_except_trans.
    + apply (agree_except_set _ _ "route_nodes"). simpl; tauto.
    + apply agree_except_set_r; [simpl; tauto|].
      eapply agree_except_weaken; [|exact Ag]. simpl; tauto.
Qed.

(** After [save_route_nodes], the flat [etd] is the ORIGIN node's
    [scheduled_etd] when that is set and truthy, otherwise the old [etd];
    likewise [eta] from the DESTINATION node's [scheduled_eta]. *)
Theorem save_route_nodes_sync sid nodes cl now q q1 :
  Route.save_route_nodes sid nodes cl now (Some q) = TaskUpdate.tret q1 ->
  exists o d,
    filter (role_is "ORIGIN") nodes = [o] /\ filter (role_is "DESTINATION") nodes = [d]
    /\ Dict.get q1 "etd" = (if truthy (BL.jopt (Route.scheduled_etd o))
                           then Some (BL.jopt (Route.scheduled_etd o)) else Dict.get q "etd")
    /\ Dict.get q1 "eta" = (if truthy (BL.jopt (Route.scheduled_eta d))
                           then Some (BL.jopt (Route.scheduled_eta d)) else Dict.get q "eta").
Proof.
  intros H. apply save_route_nodes_shape in H.
  destruct H as (o & d & q2 & Eo & Ed & A & S & -> & Ht & Ro & Rd).
  rewrite A in S. apply sync_flat_get in S. destruct S as (_ & E1 & E2).
  exists o, d. repeat split; auto.
  - rewrite get_set_neq by discriminate. rewrite E1.
    rewrite (get_set_neq _ "route_nodes" "etd") by discriminate.
    simpl. rewrite map_app, number_app, fold_left_app. simpl.
    rewrite fold_left_id.
    + unfold etd_step. simpl. rewrite Ro, Rd. simpl. destruct (truthy _); reflexivity.
    + intros y Hy a.
      apply in_number in Hy. destruct Hy as (x & j & Hx & ->).
      apply in_map_iff in Hx. destruct Hx as (n & <- & Hn).
      unfold etd_step. simpl. rewrite (Ht n Hn). reflexivity.
  - rewrite get_set_neq by discriminate. rewrite E2.
    rewrite (get_set_neq _ "route_nodes" "eta") by discriminate.
    simpl. rewrite map_app, number_app, fold_left_app. simpl.
    rewrite fold_left_id.
    + unfold eta_step. simpl. rewrite Ro, Rd. simpl. destruct (truthy _); reflexivity.
    + intros y Hy a.
      apply in_number in Hy. destruct Hy as (x & j & Hx & ->).
      apply in_map_iff in Hx. destruct Hx as (n & <- & Hn).
      unfold eta_step. simpl. rewrite (Ht n Hn). reflexivity.
Qed.

Lemma insert_lt_length x l : length (Route.insert_lt x l) = S (length l).
Proof. induction l as [|y r IH]; simpl; [reflexivity|]. destruct (Route.key_lt x y); simpl; auto. Qed.

Lemma sort_nodes_length l : length (Route.sort_nodes l) = length l.
Proof.
  unfold Route.sort_nodes.
  assert (G : forall l acc, length (fold_left (fun acc x => Route.insert_lt x acc) l acc)
                            = (length l + length acc)%nat).
  { induction l0 as [|x r IH]; intros acc; simpl; [reflexivity|].
    rewrite IH, insert_lt_length. lia. }
  rewrite G. simpl. lia.
Qed.

Lemma number_length i l : length (Route.number i l) = length l.
Proof. revert i; induction l as [|x r IH]; intros i; simpl; auto. Qed.

Lemma find_seq_number_in j l k i :
  j <= k < j + Z.of_nat (length l) ->
  exists nd, nth_error (Route.number j l) (Z.to_nat (k - j)) = Some nd
    /\ Dict.get nd "sequence" = Some (JNum k)
    /\ Route.find_seq (map JObj (Route.number j l)) k i = Some (Some ((i + Z.to_nat (k - j))%nat, nd)).
Proof.
  revert j i. induction l as [|x r IH]; intros j i Hk; simpl in Hk; [lia|].
  simpl. unfold Dict.get_or. rewrite get_set_eq. simpl.
  destruct (Z.eqb_spec j k) as [<-|Hne].
  - exists (Dict.set x "sequence" (JNum j)). rewrite Z.sub_diag. simpl.
    rewrite get_set_eq, Nat.add_0_r. repeat split; reflexivity.
  - destruct (IH (j + 1) (S i)) as (nd & N & Sq & F); [lia|].
    exists nd. replace (Z.to_nat (k - j)) with (S (Z.to_nat (k - (j + 1)))) by lia.
    simpl. rewrite F. repeat split; auto. do 3 f_equal. lia.
Qed.

Lemma find_seq_number_out j l k i :
  k < j \/ j + Z.of_nat (length l) <= k ->
  Route.find_seq (map JObj (Route.number j l)) k i = Some None.
Proof.
  revert j i. induction l as [|x r IH]; intros j i Hk; simpl; [reflexivity|].
  unfold Dict.get_or. rewrite get_set_eq. simpl.
  destruct (Z.eqb_spec j k) as [<-|Hne]; [simpl in Hk; lia|].
  apply IH. simpl in Hk. lia.
Qed.

Lemma save_route_nodes_written sid nodes cl now q q1 :
  Route.save_route_nodes sid nodes cl now (Some q) = TaskUpdate.tret q1 ->
  Route.allowed cl = true /\ String.prefix Status.PREFIX_V1_SHIPMENT sid = false
  /\ (1 <= length nodes)%nat
  /\ exists q2, q1 = Dict.set q2 "updated" (JStr now)
     /\ Dict.get q2 "route_nodes"
        = Some (JList (map JObj (Route.assign_sequences (map Route.node_dict nodes)))).
Proof.
  intros H. pose proof (save_route_nodes_ok _ _ _ _ _ _ H) as (Al & Pr & _ & Co & _ & _ & _).
  apply save_route_nodes_shape in H.
  destruct H as (o & d & q2 & Eo & Ed & _ & S & -> & _).
  repeat split; auto.
  - assert (In o nodes) as I.
    { assert (In o (filter (role_is "ORIGIN") nodes)) as I' by (rewrite Eo; left; reflexivity).
      apply filter_In in I'. tauto. }
    destruct nodes; [contradiction|]. simpl. lia.
  - exists q2. split; [reflexivity|].
    apply sync_flat_get in S. destruct S as (Ag & _).
    rewrite (agree_except_get _ _ _ _ Ag) by (simpl; intuition discriminate).
    apply get_set_eq.
Qed.

(** After a successful [save_route_nodes], a timing PATCH for a sequence
    [k] between 1 and the number of nodes updates the [k]-th node written,
    the one whose [sequence] is [k], and writes the node list back with
    only that entry replaced. *)
Theorem route_timing_after_save sid nodes cl now now' q q1 k body :
  Route.save_route_nodes sid nodes cl now (Some q) = TaskUpdate.tret q1 ->
  1 <= k <= Z.of_nat (length nodes) ->
  exists nd q3,
    nth_error (Route.assign_sequences (map Route.node_dict nodes)) (Z.to_nat (k - 1)) = Some nd
    /\ Dict.get nd "sequence" = Some (JNum k)
    /\ Route.update_route_node_timing sid k body cl now' (Some q1)
       = TaskUpdate.tret (Route.apply_timing body nd, q3)
    /\ Dict.get q3 "route_nodes"
       = Some (JList (TaskUpdate.replace_nth
                        (map JObj (Route.assign_sequences (map Route.node_dict nodes)))
                        (Z.to_nat (k - 1)) (JObj (Route.apply_timing body nd))))
    /\ Dict.get q3 "updated" = Some (JStr now').
Proof.
  intros H Hk. apply save_route_nodes_written in H.
  destruct H as (Al & Pr & Ln & q2 & -> & Rn).
  assert (Len : length (Route.assign_sequences (map Route.node_dict nodes)) = length nodes).
  { unfold Route.assign_sequences. rewrite number_length, sort_nodes_length, length_map. reflexivity. }
  unfold Route.assign_sequences in *.
  destruct (find_seq_number_in 1 (Route.sort_nodes (map Route.node_dict nodes)) k 0)
    as (nd & N & Sq & F).
  { rewrite sort_nodes_length, length_map. lia. }
  exists nd.
  assert (G : Dict.get_or (Dict.set q2 "updated" (JStr now)) "route_nodes" JNull
              = JList (map JObj (Route.number 1 (Route.sort_nodes (map Route.node_dict nodes))))).
  { unfold Dict.get_or. rewrite get_set_neq by discriminate. rewrite Rn. reflexivity. }
  remember (Route.number 1 (Route.sort_nodes (map Route.node_dict nodes))) as L eqn:EL.
  unfold Route.update_route_node_timing. rewrite Al, Pr. cbn [negb orb].
  assert (T : truthy (JObj (Dict.set q2 "updated" (JStr now))) = true)
    by (destruct q2 as [|[]]; simpl; [reflexivity|destruct (String.eqb _ _); reflexivity]).
  rewrite T. cbn [negb]. rewrite G.
  destruct L as [|n0 r].
  - apply (f_equal (@length dict)) in EL.
    rewrite number_length, sort_nodes_length, length_map in EL. simpl in EL. lia.
  - cbn [map truthy negb]. cbn [map] in F.
    unfold TaskUpdate.tbind, TaskUpdate.lift. rewrite F.
    simpl Nat.add.
    eexists. split; [exact N|]. split; [exact Sq|]. split; [reflexivity|].
    split.
    + rewrite get_set_neq by discriminate. apply get_set_eq.
    + apply get_set_eq.
Qed.

(** A timing PATCH for a sequence outside 1 .. n after a successful
    [save_route_nodes] of n nodes answers 404 "Route node with sequence k
    not found" and writes nothing. *)
Theorem route_timing_not_found sid nodes cl now now' q q1 k body :
  Route.save_route_nodes sid nodes cl now (Some q) = TaskUpdate.tret q1 ->
  k < 1 \/ Z.of_nat (length nodes) < k ->
  Route.update_route_node_timing sid k body cl now' (Some q1)
  = TaskUpdate.tfail (TaskUpdate.ENotFound
      ("Route node with sequence " ++ Py.Z_to_string k ++ " not found")).
Proof.
  intros H Hk. apply save_route_nodes_written in H.
  destruct H as (Al & Pr & Ln & q2 & -> & Rn).
  unfold Route.assign_sequences in *.
  pose proof (find_seq_number_out 1 (Route.sort_nodes (map Route.node_dict nodes)) k 0) as F.
  rewrite sort_nodes_length, length_map in F.
  assert (G : Dict.get_or (Dict.set q2 "updated" (JStr now)) "route_nodes" JNull
              = JList (map JObj (Route.number 1 (Route.sort_nodes (map Route.node_dict nodes))))).
  { unfold Dict.get_or. rewrite get_set_neq by discriminate. rewrite Rn. reflexivity. }
  remember (Route.number 1 (Route.sort_nodes (map Route.node_dict nodes))) as L eqn:EL.
  unfold Route.update_route_node_timing. rewrite Al, Pr. cbn [negb orb].
  assert (T : truthy (JObj (Dict.set q2 "updated" (JStr now))) = true)
    by (destruct q2 as [|[]]; simpl; [reflexivity|destruct (String.eqb _ _); reflexivity]).
  rewrite T. cbn [negb]. rewrite G.
  destruct L as [|n0 r].
  - apply (f_equal (@length dict)) in EL.
    rewrite number_length, sort_nodes_length, length_map in EL. simpl in EL. lia.
  - cbn [map truthy negb]. cbn [map] in F.
    unfold TaskUpdate.tbind, TaskUpdate.lift. rewrite F by lia. reflexivity.
Qed.

(** ** Witnesses *)

Lemma v1_status_read_back_witness :
  exists s path st', Status.update_shipment_status "AFCQ-000001" (revert_request 4001 false true)
      "a@b" "u1" "now" v1_completed_store = (Status.Ok s path, st')
  /\ exists q' cur',
    Status.st_q st' = Some q'
    /\ Status.resolve_current "AFCQ-000001" st' q' = Some (true, cur')
    /\ cur' = (if zmem s [2001; 3002; 4001; 5001; -1] then s else Status.resolve_v1_status s)
    /\ (In s [1001; 1002; 3001; 4002] -> cur' = STATUS_CONFIRMED)
    /\ (forall so', Status.st_so st' = Some so' -> Status.so_data_version so' <> Some 2).
Proof.
  do 3 eexists. split; [vm_compute; reflexivity|].
  eapply (v1_status_read_back "AFCQ-000001" (revert_request 4001 false true) "a@b" "u1" "now"
            v1_completed_store _ v1_completed_q 5001);
    [reflexivity | vm_compute; reflexivity | vm_compute; reflexivity].
Defined.

Lemma stats_counts_bounded_witness :
  exists c total, Stats.get_shipment_stats stats_v2 stats_v1 stats_mig stats_lookup = Some (c, total)
  /\ Stats.c_to_invoice c <= Stats.c_completed c
  /\ total <= Z.of_nat (length stats_v2) + Z.of_nat (length stats_v1) + Z.of_nat (length stats_mig).
Proof.
  lazymatch eval vm_compute in (Stats.get_shipment_stats stats_v2 stats_v1 stats_mig stats_lookup)
  with Some (?c, ?t) =>
    exists c, t; split; [vm_compute; reflexivity|];
    apply (stats_counts_bounded stats_v2 stats_v1 stats_mig stats_lookup c t); vm_compute; reflexivity
  end.
Defined.

Lemma stats_cancelled_count_witness :
  exists c total, Stats.get_shipment_stats stats_v2 stats_v1 stats_mig stats_lookup = Some (c, total)
  /\ Stats.c_cancelled c
  = Z.of_nat (length (filter (fun e => Tabs.jin (Tabs.ent_status e) [STATUS_CANCELLED]) stats_v2))
    + Z.of_nat (length (filter (fun p => Tabs.jin (Tabs.ent_status (snd p)) [STATUS_CANCELLED]) stats_mig)).
Proof.
  lazymatch eval vm_compute in (Stats.get_shipment_stats stats_v2 stats_v1 stats_mig stats_lookup)
  with Some (?c, ?t) =>
    exists c, t; split; [vm_compute; reflexivity|];
    apply (stats_cancelled_count stats_v2 stats_v1 stats_mig stats_lookup c t); vm_compute; reflexivity
  end.
Defined.

Lemma recalculate_due_dates_spec_witness :
  exists ts', Recalc.recalculate_due_dates (override_task :: fob_tasks) (Some 739700) None None
                "u1" "now" = Some ts'
  /\ Forall2 (recalc_result (Some 739700) None None) (override_task :: fob_tasks) ts'.
Proof.
  eexists. split; [vm_compute; reflexivity|].
  eapply (recalculate_due_dates_spec (override_task :: fob_tasks) (Some 739700) None None "u1" "now").
  vm_compute. reflexivity.
Defined.

Lemma recalculate_due_dates_idempotent_witness :
  exists ts', Recalc.recalculate_due_dates (override_task :: fob_tasks) (Some 739700) None None
                "u1" "now" = Some ts'
  /\ Recalc.recalculate_due_dates ts' (Some 739700) None None "u2" "later" = Some ts'.
Proof.
  eexists. split; [vm_compute; reflexivity|].
  eapply (recalculate_due_dates_idempotent (override_task :: fob_tasks) (Some 739700) None None
           "u1" "now"). vm_compute. reflexivity.
Defined.

Lemma recalculate_after_generate_witness :
  exists ts, Tasks.generate_tasks "FOB" "EXPORT" (Some 739685) None None "system"
               (fun _ => "id") "now" = Some ts
  /\ Recalc.recalculate_due_dates ts (Some 739685) None None "u1" "later" = Some ts.
Proof.
  eexists. split; [vm_compute; reflexivity|].
  eapply (recalculate_after_generate "FOB" "EXPORT" (Some 739685) None None "system"
           (fun _ => "id") "now"). vm_compute. reflexivity.
Defined.

Lemma maybe_unblock_first_only_witness :
  exists wf', ExportUnblock.maybe_unblock_export_clearance (Some unblock_wf) "u1" "now" = Some (Some wf')
  /\ exists tasks i t,
    TaskUpdate.workflow_tasks unblock_wf = Some tasks
    /\ (exists fb, In (JObj fb) tasks
         /\ is_str (Dict.get_or fb "task_type" JNull) Tasks.FREIGHT_BOOKING = true
         /\ is_str (Dict.get_or fb "status" JNull) Tasks.COMPLETED = true)
    /\ nth_error tasks i = Some (JObj t) /\ ec_blocked t = true
    /\ (forall j, (j < i)%nat ->
          exists t', nth_error tasks j = Some (JObj t') /\ ec_blocked t' = false)
    /\ wf' = Dict.set (Dict.set unblock_wf "workflow_tasks"
               (JList (TaskUpdate.replace_nth tasks i
                  (JObj (Dict.set (Dict.set (Dict.set t "status" (JStr Tasks.PENDING))
                                   "updated_by" (JStr "u1")) "updated_at" (JStr "now"))))))
               "updated" (JStr "now").
Proof.
  eexists. split; [vm_compute; reflexivity|].
  eapply (maybe_unblock_first_only unblock_wf "u1" "now"). vm_compute. reflexivity.
Defined.

Lemma lazy_init_at_most_once_witness :
  exists ts wf', LazyInit.lazy_init_tasks (fun _ => None) fob_shipment (Some empty_tasks_wf)
                   (fun _ => "id") "now" "now" = Some (ts, Some wf')
  /\ LazyInit.lazy_init_tasks (fun _ => None) [] (Some wf') (fun _ => "id2") "later" "later"
     = Some (ts, None).
Proof.
  do 2 eexists. split; [vm_compute; reflexivity|].
  eapply (lazy_init_at_most_once (fun _ => None) fob_shipment empty_tasks_wf (fun _ => "id")
           "now" "now"). vm_compute. reflexivity.
Defined.

Lemma lazy_init_view_generated_witness :
  exists ts wf', LazyInit.lazy_init_tasks (fun _ => None) fob_shipment (Some empty_tasks_wf)
                   (fun _ => "id") "now" "now" = Some (ts, Some wf')
  /\ exists tasks, ts = JList (map JObj tasks)
    /\ LazyInit.shipment_tasks_view true ts = Some tasks.
Proof.
  do 2 eexists. split; [vm_compute; reflexivity|].
  eapply (lazy_init_view_generated (fun _ => None) fob_shipment empty_tasks_wf (fun _ => "id")
           "now" "now"). vm_compute. reflexivity.
Defined.

Lemma update_parties_idempotent_witness :
  exists r q1 s1, Parties.update_parties "AFCQ-000003" clear_shipper_body "now"
                    (Some bl_example_q) (Some v1_so) = TaskUpdate.tret (r, q1, s1)
  /\ exists q2 s2, Parties.update_parties "AFCQ-000003" clear_shipper_body "later" (Some q1) None
                   = TaskUpdate.tret (r, q2, s2)
    /\ agree_except ["updated"] q1 q2.
Proof.
  do 3 eexists. split; [vm_compute; reflexivity|].
  eapply (update_parties_idempotent "AFCQ-000003" clear_shipper_body "now" "later" bl_example_q
           (Some v1_so)). vm_compute. reflexivity.
Defined.

Lemma update_parties_writes_witness :
  exists r q1 s1, Parties.update_parties "AFCQ-000003" clear_shipper_body "now"
                    (Some bl_example_q) (Some v1_so) = TaskUpdate.tret (r, q1, s1)
  /\ agree_except ["parties"; "updated"] bl_example_q q1
  /\ forall s, s1 = Some s ->
       String.prefix Status.PREFIX_V1_SHIPMENT "AFCQ-000003" = true
       /\ Dict.get s "parties" = Dict.get q1 "parties"
       /\ Dict.get s "data_version" <> Some (JNum 2).
Proof.
  do 3 eexists. split; [vm_compute; reflexivity|].
  eapply (update_parties_writes "AFCQ-000003" clear_shipper_body "now" bl_example_q
           (Some v1_so)). vm_compute. reflexivity.
Defined.

Lemma update_parties_clears_witness :
  exists r q1 s1, Parties.update_parties "AFCQ-000003" clear_shipper_body "now"
                    (Some bl_example_q) (Some v1_so) = TaskUpdate.tret (r, q1, s1)
  /\ exists p, Dict.get q1 "parties" = Some (JObj p)
    /\ (Parties.shipper_name clear_shipper_body = Some "" ->
        Parties.shipper_address clear_shipper_body = Some "" -> Dict.get p "shipper" = None)
    /\ (Parties.consignee_name clear_shipper_body = Some "" ->
        Parties.consignee_address clear_shipper_body = Some "" -> Dict.get p "consignee" = None)
    /\ (Parties.notify_party_name clear_shipper_body = Some "" ->
        Parties.notify_party_address clear_shipper_body = Some "" ->
        Dict.get p "notify_party" = None).
Proof.
  do 3 eexists. split; [vm_compute; reflexivity|].
  eapply (update_parties_clears "AFCQ-000003" clear_shipper_body "now" bl_example_q
           (Some v1_so)). vm_compute. reflexivity.
Defined.

Lemma save_route_nodes_order_witness :
  exists q1, Route.save_route_nodes "AF-000010" route_example afu_claims "now"
               (Some [("status", JNum 3001)]) = TaskUpdate.tret q1
  /\ exists o d,
    filter (role_is "ORIGIN") route_example = [o] /\ filter (role_is "DESTINATION") route_example = [d]
    /\ Dict.get q1 "route_nodes"
       = Some (JList (map JObj (Route.number 1
                (map Route.node_dict (o :: filter (role_is "TRANSHIP") route_example ++ [d])))))
    /\ Dict.get q1 "updated" = Some (JStr "now")
    /\ agree_except ["route_nodes"; "etd"; "eta"; "updated"] [("status", JNum 3001)] q1.
Proof.
  eexists. split; [vm_compute; reflexivity|].
  eapply (save_route_nodes_order "AF-000010" route_example afu_claims "now" [("status", JNum 3001)]).
  vm_compute. reflexivity.
Defined.

Lemma save_route_nodes_sync_witness :
  exists q1, Route.save_route_nodes "AF-000010" route_example afu_claims "now"
               (Some [("status", JNum 3001)]) = TaskUpdate.tret q1
  /\ exists o d,
    filter (role_is "ORIGIN") route_example = [o] /\ filter (role_is "DESTINATION") route_example = [d]
    /\ Dict.get q1 "etd" = (if truthy (BL.jopt (Route.scheduled_etd o))
                           then Some (BL.jopt (Route.scheduled_etd o))
                           else Dict.get [("status", JNum 3001)] "etd")
    /\ Dict.get q1 "eta" = (if truthy (BL.jopt (Route.scheduled_eta d))
                           then Some (BL.jopt (Route.scheduled_eta d))
                           else Dict.get [("status", JNum 3001)] "eta").
Proof.
  eexists. split; [vm_compute; reflexivity|].
  eapply (save_route_nodes_sync "AF-000010" route_example afu_claims "now" [("status", JNum 3001)]).
  vm_compute. reflexivity.
Defined.

Lemma route_timing_after_save_witness :
  exists q1, Route.save_route_nodes "AF-000010" route_example afu_claims "now"
               (Some [("status", JNum 3001)]) = TaskUpdate.tret q1
  /\ 1 <= 2 <= Z.of_nat (length route_example)
  /\ exists nd q3,
    nth_error (Route.assign_sequences (map Route.node_dict route_example)) (Z.to_nat (2 - 1)) = Some nd
    /\ Dict.get nd "sequence" = Some (JNum 2)
    /\ Route.update_route_node_timing "AF-000010" 2 timing_example afu_claims "later" (Some q1)
       = TaskUpdate.tret (Route.apply_timing timing_example nd, q3)
    /\ Dict.get q3 "route_nodes"
       = Some (JList (TaskUpdate.replace_nth
                        (map JObj (Route.assign_sequences (map Route.node_dict route_example)))
                        (Z.to_nat (2 - 1)) (JObj (Route.apply_timing timing_example nd))))
    /\ Dict.get q3 "updated" = Some (JStr "later").
Proof.
  eexists. split; [vm_compute; reflexivity|]. split; [vm_compute; split; discriminate|].
  apply (route_timing_after_save "AF-000010" route_example afu_claims "now" "later"
           [("status", JNum 3001)]); [vm_compute; reflexivity | vm_compute; split; discriminate].
Defined.

Lemma route_timing_not_found_witness :
  exists q1, Route.save_route_nodes "AF-000010" route_example afu_claims "now"
               (Some [("status", JNum 3001)]) = TaskUpdate.tret q1
  /\ (5 < 1 \/ Z.of_nat (length route_example) < 5)
  /\ Route.update_route_node_timing "AF-000010" 5 timing_example afu_claims "later" (Some q1)
     = TaskUpdate.tfail (TaskUpdate.ENotFound
         ("Route node with sequence " ++ Py.Z_to_string 5 ++ " not found")).
Proof.
  eexists. split; [vm_compute; reflexivity|]. split; [right; vm_compute; reflexivity|].
  apply (route_timing_not_found "AF-000010" route_example afu_claims "now" "later"
           [("status", JNum 3001)]); [vm_compute; reflexivity | right; vm_compute; reflexivity].
Defined.
